(** * PiSSA linear layers of torchtune ([torchtune/modules/peft/pissa.py])

    A shallow embedding of [PiSSALinear] and [QATPiSSALinear] and the
    properties of their construction, decomposition-based initialisation and
    forward pass.

    Conventions of the embedding.
    - Tensor entries are exact rationals ([Qc]): the model describes the
      computation on finite values without rounding.  The precision casts of
      the source ([.to(torch.float32)], [.to(dtype)], the cast done
      by [copy_]) are kept as an abstract rounding function of the backend.
      IEEE infinities and NaN are not represented; the one place where the
      source would create them from finite data (division of a tensor by a
      zero scale) stops the model with [NonFinite].  [NonFinite] is not a
      Python exception: the source goes on there and stores the infinities
      and NaN, a run the model does not follow.
    - The input of [forward] is one vector (the trailing dimension of the
      source's input tensor); leading dimensions are mapped over.
    - Python exceptions are values of [exn]; fallible code returns [result].
    - Methods that mutate [self] are state transformers that return the
      state reached together with the outcome, so that a partial mutation
      before an exception stays visible.
    - Randomness (the Kaiming draws of construction, the dropout mask) and
      the external primitives (SVD, the NF4 codec, fake quantisation) are
      explicit inputs. *)

From Stdlib Require Import String Bool ZArith QArith Qcanon List Lia Field.
Import ListNotations.

Open Scope Qc_scope.

(** ** Python values, exceptions, results *)

(** Values a quantisation keyword argument may carry. *)
Inductive pyvalue : Type :=
| PyNone
| PyBool (b : bool)
| PyInt (n : Z)
| PyFloat (q : Qc)
| PyStr (s : string).

(** Python's [bool(v)]. *)
Definition truthy (v : pyvalue) : bool :=
  match v with
  | PyNone => false
  | PyBool b => b
  | PyInt n => negb (n =? 0)%Z
  | PyFloat q => negb (Qc_eq_bool q 0)
  | PyStr s => negb (s =? "")%string
  end.

(** [**quantization_kwargs]: a dict, in insertion order. *)
Definition kwargs : Type := list (string * pyvalue).

Definition values (kw : kwargs) : list pyvalue := map snd kw.

(** Python's [any]. *)
Definition any (vs : list pyvalue) : bool := existsb truthy vs.

Inductive exn : Type :=
| ValueError (msg : string)
| RuntimeError (msg : string)
| ZeroDivisionError (msg : string)
| TypeError (msg : string)
| AssertionError (msg : string)
| NonFinite.

Inductive result (A : Type) : Type :=
| Ok (a : A)
| Raise (e : exn).
Arguments Ok {A} a.
Arguments Raise {A} e.

Definition bind {A B : Type} (r : result A) (k : A -> result B) : result B :=
  match r with
  | Ok a => k a
  | Raise e => Raise e
  end.

Notation "x <- r ;; k" := (bind r (fun x => k))
  (at level 61, r at next level, right associativity).
Notation "' p <- r ;; k" := (bind r (fun x => let p := x in k))
  (at level 61, p pattern, r at next level, right associativity).

Definition is_ok {A : Type} (r : result A) : bool :=
  match r with Ok _ => true | Raise _ => false end.

(** The messages of the source's [raise] statements (format arguments are
    left out), and of the torch and Python errors the model reaches. *)
Definition msg_quantization_kwargs : string :=
  "``quantize_base`` is False, but received the following quantization arguments".
Definition msg_meta_device : string :=
  "Cannot initialize PiSSA if base or LoRA parameters are still on meta device.".
Definition msg_fsvd_niter : string :=
  "Fast SVD niter is a non-negative integer. It is recommended to set it equal to the rank.".
Definition msg_torchao : string :=
  "QATPiSSALinear is only compatible with torchao 0.7+".
Definition msg_group_size : string :=
  "in_dim (%s) must be divisible by group_size (%s)".
Definition msg_bias_unsupported : string :=
  "Bias is not supported in QAT + PiSSA yet".
Definition msg_quantize_base_unsupported : string :=
  "quantize_base is not compatible with QAT + PiSSA".
Definition msg_negative_dimension : string :=
  "Trying to create tensor with negative dimension".
Definition msg_overflow : string :=
  "Overflow when unpacking long".
Definition msg_allocation : string :=
  "DefaultCPUAllocator: not enough memory".
Definition msg_group_size_undefined : string :=
  "`group_size` is undefined for this granularity".
Definition msg_nf4_block_size : string :=
  "Input tensor must be divisible by block size".
Definition msg_nf4_scaler_block_size : string :=
  "Number of blocks must be evenly divisible by scaler_block_size".
Definition msg_nf4_argument : string :=
  "to_nf4() got an unexpected argument".
Definition msg_dropout_range : string :=
  "dropout probability has to be between 0 and 1".
Definition msg_shape : string :=
  "shapes cannot be multiplied or broadcast".
Definition msg_device : string :=
  "Tensor on device meta is not on the expected device".
Definition msg_division_by_zero : string :=
  "division by zero".
Definition msg_operand_none : string :=
  "unsupported operand type(s) for +: 'Tensor' and 'NoneType'".

(** ** Tensors *)

(** A 1-D tensor. *)
Abbreviation vec := (list Qc).

(** A 2-D tensor: its rows, and the number of columns (kept apart so that a
    matrix without rows still has a shape). *)
Record mat : Type := mkMat { ncols : nat; rows : list vec }.

Definition nrows (M : mat) : nat := length (rows M).

Inductive dtype : Type := float32 | bfloat16 | float16 | float64.

Inductive device : Type := cpu | cuda | meta.

(** A tensor is either on the meta device (shape and dtype, no storage) or
    holds values. *)
Inductive tensor (A : Type) : Type :=
| MetaTensor (dt : dtype) (shape : list nat)
| RealTensor (dt : dtype) (val : A).
Arguments MetaTensor {A} dt shape.
Arguments RealTensor {A} dt val.

Definition is_meta {A : Type} (t : tensor A) : bool :=
  match t with MetaTensor _ _ => true | RealTensor _ _ => false end.

Definition tensor_dtype {A : Type} (t : tensor A) : dtype :=
  match t with MetaTensor dt _ => dt | RealTensor dt _ => dt end.

(** Reading the values of a tensor in a computation with real operands. *)
Definition values_of {A : Type} (t : tensor A) : result A :=
  match t with
  | MetaTensor _ _ => Raise (RuntimeError msg_device)
  | RealTensor _ v => Ok v
  end.

Definition tabulate_vec (n : nat) (f : nat -> Qc) : vec := map f (seq 0 n).

Definition tabulate (r c : nat) (f : nat -> nat -> Qc) : mat :=
  mkMat c (map (fun i => tabulate_vec c (f i)) (seq 0 r)).

Definition zeros (n : nat) : vec := repeat 0 n.

Definition entry (M : mat) (i j : nat) : Qc := nth j (nth i (rows M) []) 0.

Definition map_mat (f : Qc -> Qc) (M : mat) : mat :=
  mkMat (ncols M) (map (map f) (rows M)).

Fixpoint map2 (f : Qc -> Qc -> Qc) (u v : vec) : vec :=
  match u, v with
  | a :: u', b :: v' => f a b :: map2 f u' v'
  | _, _ => []
  end.

Fixpoint dot (u v : vec) : Qc :=
  match u, v with
  | a :: u', b :: v' => a * b + dot u' v'
  | _, _ => 0
  end.

Definition scale (c : Qc) (v : vec) : vec := map (Qcmult c) v.

(** Broadcasting of one dimension: equal sizes, or one of them is 1. *)
Definition broadcast_dim (a b : nat) : option nat :=
  if (a =? b)%nat then Some a
  else if (a =? 1)%nat then Some b
  else if (b =? 1)%nat then Some a
  else None.

Definition expand_vec (n : nat) (v : vec) : vec :=
  if (length v =? n)%nat then v else repeat (hd 0 v) n.

Definition expand_mat (r c : nat) (M : mat) : mat :=
  let rs := map (expand_vec c) (rows M) in
  mkMat c (if (length rs =? r)%nat then rs else repeat (hd [] rs) r).

(** Elementwise binary operation on 1-D tensors, with broadcasting. *)
Definition ewise (f : Qc -> Qc -> Qc) (u v : vec) : result vec :=
  match broadcast_dim (length u) (length v) with
  | Some n => Ok (map2 f (expand_vec n u) (expand_vec n v))
  | None => Raise (RuntimeError msg_shape)
  end.

(** Elementwise binary operation on 2-D tensors, with broadcasting. *)
Definition ewise_mat (f : Qc -> Qc -> Qc) (A B : mat) : result mat :=
  match broadcast_dim (nrows A) (nrows B), broadcast_dim (ncols A) (ncols B) with
  | Some r, Some c =>
      let A' := expand_mat r c A in
      let B' := expand_mat r c B in
      Ok (mkMat c (map (fun p => map2 f (fst p) (snd p))
                       (combine (rows A') (rows B'))))
  | _, _ => Raise (RuntimeError msg_shape)
  end.

(** [F.linear(x, W, b)] for a 1-D [x]: [W x + b].  The bias is expanded
    to the output's shape (never the output to the bias's). *)
Definition F_linear (x : vec) (W : mat) (b : option vec) : result vec :=
  if (length x =? ncols W)%nat then
    let y := map (fun w => dot w x) (rows W) in
    match b with
    | None => Ok y
    | Some bv =>
        if (length bv =? length y)%nat || (length bv =? 1)%nat
        then Ok (map2 Qcplus y (expand_vec (length y) bv))
        else Raise (RuntimeError msg_shape)
    end
  else Raise (RuntimeError msg_shape).

(** The linear combination [sum_k a_k * B_k] of the rows of a matrix with
    [n] columns: one row of a matrix product. *)
Fixpoint lincomb (n : nat) (a : vec) (Bs : list vec) : vec :=
  match a, Bs with
  | x :: a', r :: Bs' => map2 Qcplus (scale x r) (lincomb n a' Bs')
  | _, _ => zeros n
  end.

(** [A @ B]. *)
Definition matmul (A B : mat) : result mat :=
  if (ncols A =? nrows B)%nat then
    Ok (mkMat (ncols B) (map (fun a => lincomb (ncols B) a (rows B)) (rows A)))
  else Raise (RuntimeError msg_shape).

(** [torch.diag] of a 1-D tensor: the square matrix with [s] on its
    diagonal. *)
Fixpoint diag_rows (s : vec) : list vec :=
  match s with
  | [] => []
  | a :: s' => (a :: zeros (length s')) :: map (cons 0) (diag_rows s')
  end.

Definition diag (s : vec) : mat := mkMat (length s) (diag_rows s).

(** [M.t()]. *)
Definition transpose (M : mat) : mat :=
  tabulate (ncols M) (nrows M) (fun i j => entry M j i).

(** Length of Python's slice [l[:k]] of a sequence of length [n], for any
    integer [k] (a negative [k] counts from the end). *)
Definition slice_len (k : Z) (n : nat) : nat :=
  if (k <? 0)%Z then n - Z.to_nat (- k) else Nat.min (Z.to_nat k) n.

Definition slice_to {A : Type} (k : Z) (l : list A) : list A :=
  firstn (slice_len k (length l)) l.

(** [M[:k]]: the first rows. *)
Definition rows_to (k : Z) (M : mat) : mat :=
  mkMat (ncols M) (slice_to k (rows M)).

(** [M[:, :k]]: the first columns. *)
Definition cols_to (k : Z) (M : mat) : mat :=
  mkMat (slice_len k (ncols M)) (map (firstn (slice_len k (ncols M))) (rows M)).

(** ** External primitives and ambient state *)

(** [torchao.quantization.qat.api.FakeQuantizeConfig], as far as the source
    reads it.  A config stores a granularity; the group size lives in the
    per-group granularity, which is what the constructor argument
    [group_size=g] selects. *)
Inductive quant_dtype : Type := int4 | int8.

Inductive Granularity : Type :=
| PerToken
| PerAxis (axis : Z)
| PerGroup (group_size : Z).

Record FakeQuantizeConfig : Type := mkFakeQuantizeConfig {
  cfg_dtype : quant_dtype;
  granularity : Granularity;
  is_symmetric : bool
}.

(** The property [config.group_size]: the group size of a per-group
    config; reading it on a config of another granularity raises.  It never
    evaluates to [None]. *)
Definition group_size (config : FakeQuantizeConfig) : result Z :=
  match granularity config with
  | PerGroup g => Ok g
  | PerToken | PerAxis _ => Raise (ValueError msg_group_size_undefined)
  end.

(** The numerical library behind the layer.  Nothing is assumed of these
    operations here; a property that needs a contract states it. *)
Class Backend : Type := {
  (** rounding of a value to a dtype, as done by [.to(dtype)] and [copy_] *)
  cast : dtype -> Qc -> Qc;
  (** [torch.linalg.svd(A, full_matrices=False)], giving [(V, S, Uh)] *)
  linalg_svd : mat -> result (mat * vec * mat);
  (** [torch.svd_lowrank(A, q, niter=niter)] *)
  svd_lowrank : mat -> Z -> Z -> result (mat * vec * mat);
  (** [to_nf4(w, **kwargs)]: whether the codec rejects the arguments, and
      the value each entry decodes to *)
  nf4_reject : kwargs -> mat -> option exn;
  nf4_value : kwargs -> mat -> nat -> nat -> Qc;
  (** [copy_] into an NF4 tensor: the stored values and the source *)
  nf4_copy_ : mat -> mat -> result mat;
  (** [FakeQuantizer(config)(t)] on an activation and on a weight *)
  fake_quantize : FakeQuantizeConfig -> vec -> result vec;
  fake_quantize_weight : FakeQuantizeConfig -> mat -> result mat
}.

(** What a constructor reads from the process: the default device and dtype,
    whether torchao 0.7+ can be imported, whether the allocator of the
    default device serves a tensor of a given shape (it may lack the
    memory), and the uniform draws of the random initialisers
    ([uniform_ k i j] is entry [(i, j)] of draw [k]). *)
Record Env : Type := mkEnv {
  default_device : device;
  default_dtype : dtype;
  torchao_qat : bool;
  allocates : list Z -> bool;
  uniform_ : nat -> nat -> nat -> Qc
}.

Definition any_bool (l : list bool) : bool := existsb (fun b => b) l.

(** ** State and exception monad for methods that mutate [self] *)

Definition M (S A : Type) : Type := S -> result A * S.

Definition ret {S A : Type} (a : A) : M S A := fun s => (Ok a, s).

Definition throw {S A : Type} (e : exn) : M S A := fun s => (Raise e, s).

Definition bindM {S A B : Type} (c : M S A) (k : A -> M S B) : M S B :=
  fun s =>
    match c s with
    | (Ok a, s') => k a s'
    | (Raise e, s') => (Raise e, s')
    end.

Definition get {S : Type} : M S S := fun s => (Ok s, s).

Definition put {S : Type} (s : S) : M S unit := fun _ => (Ok tt, s).

Definition lift {S A : Type} (r : result A) : M S A := fun s => (r, s).

Notation "x <~ c ;; k" := (bindM c (fun x => k))
  (at level 61, c at next level, right associativity).
Notation "' p <~ c ;; k" := (bindM c (fun x => let p := x in k))
  (at level 61, p pattern, c at next level, right associativity).
Notation "c ;;; k" := (bindM c (fun _ => k))
  (at level 61, right associativity).

(** ** torch constructors and in-place operations *)

Definition Qc_ltb (a b : Qc) : bool :=
  match a ?= b with Lt => true | _ => false end.

(** A size torch can take: a Python integer that fits a signed 64-bit
    integer. *)
Definition int64 (z : Z) : bool := ((- 2 ^ 63 <=? z) && (z <? 2 ^ 63))%Z.

(** Why a tensor of a shape cannot be created, if it cannot: a size does
    not fit 64 bits (the argument parser), a size is negative, or the
    allocator does not serve the shape. *)
Definition shape_error (env : Env) (shape : list Z) : option exn :=
  if negb (forallb int64 shape) then Some (TypeError msg_overflow)
  else if existsb (fun d => d <? 0)%Z shape
       then Some (RuntimeError msg_negative_dimension)
       else if allocates env shape then None
            else Some (RuntimeError msg_allocation).

Section Torch.
Context {backend : Backend}.

(** [torch.empty((r, c))] on the default device.  The storage of a fresh
    real tensor is arbitrary in the source; every caller below overwrites
    it before it is read. *)
Definition torch_empty (env : Env) (r c : Z) : result (tensor mat) :=
  match shape_error env [r; c] with
  | Some e => Raise e
  | None =>
      Ok match default_device env with
         | meta => MetaTensor (default_dtype env) [Z.to_nat r; Z.to_nat c]
         | _ => RealTensor (default_dtype env)
                           (tabulate (Z.to_nat r) (Z.to_nat c) (fun _ _ => 0))
         end
  end.

(** [torch.zeros(n)] on the default device. *)
Definition torch_zeros (env : Env) (n : Z) : result (tensor vec) :=
  match shape_error env [n] with
  | Some e => Raise e
  | None =>
      Ok match default_device env with
         | meta => MetaTensor (default_dtype env) [Z.to_nat n]
         | _ => RealTensor (default_dtype env) (zeros (Z.to_nat n))
         end
  end.

(** [nn.init.kaiming_uniform_(t, a=math.sqrt(5))] with draw [k]: every
    entry is redrawn, the shape is kept; no effect on a meta tensor. *)
Definition kaiming_uniform_ (env : Env) (k : nat) (t : tensor mat) : tensor mat :=
  match t with
  | MetaTensor _ _ => t
  | RealTensor dt v => RealTensor dt (tabulate (nrows v) (ncols v) (uniform_ env k))
  end.

(** [nn.init.uniform_(t, -bound, bound)] on a bias, with draw [k]. *)
Definition bias_uniform_ (env : Env) (k : nat) (t : tensor vec) : tensor vec :=
  match t with
  | MetaTensor _ _ => t
  | RealTensor dt v => RealTensor dt (tabulate_vec (length v) (uniform_ env k 0%nat))
  end.

(** [nn.init.zeros_(t)]. *)
Definition zeros_ (t : tensor vec) : tensor vec :=
  match t with
  | MetaTensor _ _ => t
  | RealTensor dt v => RealTensor dt (zeros (length v))
  end.

(** [t.to(dt)]. *)
Definition to_dtype (dt : dtype) (v : mat) : mat := map_mat (cast dt) v.

(** [dst.copy_(src)] on 1-D tensors: [src] is broadcast to the shape of
    [dst] and cast to its dtype. *)
Definition copy_vec_ (dst : tensor vec) (src : vec) : result (tensor vec) :=
  match dst with
  | MetaTensor _ _ => Ok dst
  | RealTensor dt v =>
      if (length src =? length v)%nat || (length src =? 1)%nat
      then Ok (RealTensor dt (map (cast dt) (expand_vec (length v) src)))
      else Raise (RuntimeError msg_shape)
  end.

(** [dst.copy_(src)] on 2-D tensors. *)
Definition copy_ (dst : tensor mat) (src : mat) : result (tensor mat) :=
  match dst with
  | MetaTensor _ _ => Ok dst
  | RealTensor dt v =>
      if ((nrows src =? nrows v)%nat || (nrows src =? 1)%nat)
         && ((ncols src =? ncols v)%nat || (ncols src =? 1)%nat)
      then Ok (RealTensor dt (to_dtype dt (expand_mat (nrows v) (ncols v) src)))
      else Raise (RuntimeError msg_shape)
  end.

(** The shape of a tensor. *)
Definition shape_of_mat (t : tensor mat) : list nat :=
  match t with
  | MetaTensor _ shape => shape
  | RealTensor _ v => [nrows v; ncols v]
  end.

Definition shape_of_vec (t : tensor vec) : list nat :=
  match t with
  | MetaTensor _ shape => shape
  | RealTensor _ v => [length v]
  end.

(** The device [torch.empty_like(t, device=device)] allocates on: [device],
    or the device of [t] when [device] is [None]. *)
Definition lands_on_meta {A : Type} (target : option device) (t : tensor A) : bool :=
  match target with
  | Some meta => true
  | Some _ => false
  | None => is_meta t
  end.

(** [torch.empty_like(t, device=device)]: the shape and dtype of [t], and
    storage that is not initialised ([garbage] is what it happens to hold). *)
Definition empty_like (garbage : nat -> nat -> Qc) (target : option device)
           (t : tensor mat) : tensor mat :=
  if lands_on_meta target t then MetaTensor (tensor_dtype t) (shape_of_mat t)
  else RealTensor (tensor_dtype t)
                  (tabulate (nth 0 (shape_of_mat t) 0%nat)
                            (nth 1 (shape_of_mat t) 0%nat) garbage).

Definition empty_like_vec (garbage : nat -> Qc) (target : option device)
           (t : tensor vec) : tensor vec :=
  if lands_on_meta target t then MetaTensor (tensor_dtype t) (shape_of_vec t)
  else RealTensor (tensor_dtype t)
                  (tabulate_vec (nth 0 (shape_of_vec t) 0%nat) garbage).

(** [to_nf4(t, **kwargs)].  The quantised weight is represented by the
    values it decodes to, in the shape of [t]. *)
Definition to_nf4 (t : tensor mat) (kw : kwargs) : result (tensor mat) :=
  match t with
  | MetaTensor _ _ => Ok t
  | RealTensor dt v =>
      match nf4_reject kw v with
      | Some e => Raise e
      | None => Ok (RealTensor dt (tabulate (nrows v) (ncols v) (nf4_value kw v)))
      end
  end.

(** [linear_nf4(input=x, weight=w)]: the plain linear map of the decoded
    weight. *)
Definition linear_nf4 (x : vec) (w : mat) : result vec := F_linear x w None.

End Torch.

(** ** [torch.nn] modules *)

Module nn.

(** [nn.Linear]. *)
Record Linear : Type := mkLinear {
  weight : tensor mat;
  bias : option (tensor vec)
}.

(** What [self.dropout] holds: [nn.Dropout(p)] or [nn.Identity()]. *)
Inductive DropoutModule : Type :=
| Dropout (p : Qc)
| Identity.

Section Modules.
Context {backend : Backend}.

(** [nn.Linear(in_features, out_features, bias)]; [k] and [k + 1] are
    the draws of its weight and bias. *)
Definition Linear__init__ (env : Env) (k : nat)
           (in_features out_features : Z) (use_bias : bool) : result Linear :=
  w <- torch_empty env out_features in_features ;;
  b <- (if use_bias
        then b <- torch_zeros env out_features ;; Ok (Some (bias_uniform_ env (S k) b))
        else Ok None) ;;
  Ok (mkLinear (kaiming_uniform_ env k w) b).

Definition bias_values (b : option (tensor vec)) : result (option vec) :=
  match b with
  | None => Ok None
  | Some t => v <- values_of t ;; Ok (Some v)
  end.

Definition Linear_forward (m : Linear) (x : vec) : result vec :=
  w <- values_of (weight m) ;;
  b <- bias_values (bias m) ;;
  F_linear x w b.

(** [nn.Linear.to_empty(device=device, recurse=recurse)]: every parameter
    of the module is replaced by [torch.empty_like] of itself on [device].
    A linear module has no submodule, so [recurse] changes nothing. *)
Definition Linear_to_empty (garbage : nat -> nat -> Qc) (device : option device)
           (recurse : bool) (m : Linear) : Linear :=
  mkLinear (empty_like garbage device (weight m))
           (option_map (empty_like_vec (garbage 0%nat) device) (bias m)).

(** [nn.Dropout(p)]. *)
Definition Dropout__init__ (p : Qc) : result DropoutModule :=
  if Qc_ltb p 0 || Qc_ltb 1 p then Raise (ValueError msg_dropout_range)
  else Ok (Dropout p).

(** Applying [self.dropout]: in training mode [nn.Dropout(p)] zeroes the
    entries the mask drops and divides the others by [1 - p]
    ([p = 1] gives zeros); in evaluation mode, and for [nn.Identity],
    the input is returned. *)
Definition Dropout_forward (training : bool) (keep : nat -> bool)
           (m : DropoutModule) (x : vec) : vec :=
  match m with
  | Identity => x
  | Dropout p =>
      if training then
        if Qc_eq_bool p 1 then zeros (length x)
        else map (fun ia => if keep (fst ia) then snd ia / (1 - p) else 0)
                 (combine (seq 0 (length x)) x)
      else x
  end.

End Modules.

End nn.

(** ** [PiSSALinear] *)

Module PiSSALinear.

Record t : Type := mk {
  in_dim : Z;
  out_dim : Z;
  rank : Z;
  alpha : Qc;
  use_bias : bool;
  _quantize_base : bool;
  disabled : bool;
  weight : tensor mat;
  bias : option (tensor vec);
  dropout : nn.DropoutModule;
  pissa_u : nn.Linear;
  pissa_s : tensor vec;
  pissa_v : nn.Linear;
  merged : bool;
  (** [nn.Module.training]; [True] after construction *)
  training : bool
}.

Definition set_weight (w : tensor mat) (self : t) : t :=
  mk (in_dim self) (out_dim self) (rank self) (alpha self) (use_bias self)
     (_quantize_base self) (disabled self) w (bias self) (dropout self)
     (pissa_u self) (pissa_s self) (pissa_v self) (merged self) (training self).

Definition set_pissa_u (u : nn.Linear) (self : t) : t :=
  mk (in_dim self) (out_dim self) (rank self) (alpha self) (use_bias self)
     (_quantize_base self) (disabled self) (weight self) (bias self) (dropout self)
     u (pissa_s self) (pissa_v self) (merged self) (training self).

Definition set_pissa_s (s : tensor vec) (self : t) : t :=
  mk (in_dim self) (out_dim self) (rank self) (alpha self) (use_bias self)
     (_quantize_base self) (disabled self) (weight self) (bias self) (dropout self)
     (pissa_u self) s (pissa_v self) (merged self) (training self).

Definition set_pissa_v (v : nn.Linear) (self : t) : t :=
  mk (in_dim self) (out_dim self) (rank self) (alpha self) (use_bias self)
     (_quantize_base self) (disabled self) (weight self) (bias self) (dropout self)
     (pissa_u self) (pissa_s self) v (merged self) (training self).

Definition set_disabled (d : bool) (self : t) : t :=
  mk (in_dim self) (out_dim self) (rank self) (alpha self) (use_bias self)
     (_quantize_base self) d (weight self) (bias self) (dropout self)
     (pissa_u self) (pissa_s self) (pissa_v self) (merged self) (training self).

Section Methods.
Context {backend : Backend}.

(** [_pissa_u_init_params(x)]. *)
Definition _pissa_u_init_params (env : Env) (x : nn.Linear) : nn.Linear :=
  nn.mkLinear (kaiming_uniform_ env 4 (nn.weight x)) (nn.bias x).

(** [_pissa_s_init_params(x)]. *)
Definition _pissa_s_init_params (x : tensor vec) : tensor vec := zeros_ x.

(** [_pissa_v_init_params(x)]: Kaiming uniform, as for [pissa_u]. *)
Definition _pissa_v_init_params (env : Env) (x : nn.Linear) : nn.Linear :=
  nn.mkLinear (kaiming_uniform_ env 5 (nn.weight x)) (nn.bias x).

(** [to_empty(device=device, recurse=recurse)]: [pissa_u], [pissa_s] and
    [pissa_v] are re-allocated, in this order; [garbage k] is what the
    [k]-th fresh storage holds.  The method does not touch [weight] and
    [bias]. *)
Definition to_empty (garbage : nat -> nat -> nat -> Qc) (device : option device)
           (recurse : bool) (self : t) : t :=
  let self := set_pissa_u (nn.Linear_to_empty (garbage 0%nat) device recurse
                                              (pissa_u self)) self in
  let pissa_s' := empty_like_vec (garbage 1%nat 0%nat) device (pissa_s self) in
  let self := set_pissa_s pissa_s' self in
  set_pissa_v (nn.Linear_to_empty (garbage 2%nat) device recurse (pissa_v self)) self.

Definition initialize_parameters (env : Env) (self : t) : t :=
  let self := set_pissa_u (_pissa_u_init_params env (pissa_u self)) self in
  let self := set_pissa_s (_pissa_s_init_params (pissa_s self)) self in
  set_pissa_v (_pissa_v_init_params env (pissa_v self)) self.

Definition __init__ (env : Env) (in_dim out_dim rank : Z) (alpha dropout : Qc)
           (use_bias quantize_base : bool) (quantization_kwargs : kwargs)
  : result t :=
  if negb quantize_base && any (values quantization_kwargs)
  then Raise (ValueError msg_quantization_kwargs)
  else
    (* Setup weight and bias *)
    linear <- nn.Linear__init__ env 0 in_dim out_dim use_bias ;;
    weight <- (if negb quantize_base then Ok (nn.weight linear)
               else to_nf4 (nn.weight linear) quantization_kwargs) ;;
    let bias := if use_bias then nn.bias linear else None in
    dropout <- (if Qc_ltb 0 dropout then nn.Dropout__init__ dropout
                else Ok nn.Identity) ;;
    pissa_u <- nn.Linear__init__ env 2 in_dim rank false ;;
    pissa_s <- torch_zeros env rank ;;
    pissa_v <- nn.Linear__init__ env 3 rank out_dim false ;;
    Ok (initialize_parameters env
          (mk in_dim out_dim rank alpha use_bias quantize_base false
              weight bias dropout pissa_u pissa_s pissa_v false true)).

(** [self.alpha / self.rank]. *)
Definition scaling (self : t) : result Qc :=
  if (rank self =? 0)%Z then Raise (ZeroDivisionError msg_division_by_zero)
  else Ok (alpha self / Q2Qc (inject_Z (rank self))).

(** [Sr /= c] for a scalar [c].  At [c = 0] the source stores infinities
    and NaN and goes on; the model stops there. *)
Definition div_ (s : vec) (c : Qc) : result vec :=
  if Qc_eq_bool c 0 then Raise NonFinite
  else Ok (map (fun a => a / c) s).

(** [self.weight.copy_(src)]: through the NF4 codec when the base is
    quantised. *)
Definition copy_weight_ (self : t) (src : mat) : result (tensor mat) :=
  if _quantize_base self then
    match weight self with
    | MetaTensor _ _ => Ok (weight self)
    | RealTensor dt v => v' <- nf4_copy_ v src ;; Ok (RealTensor dt v')
    end
  else copy_ (weight self) src.

(** The decomposition of [initialize_pissa]: [(Vr, Sr, Uhr)], with [Sr]
    already divided by the scale. *)
Definition decompose (self : t) (fsvd_niter : pyvalue) (base_weight : mat)
  : result (mat * vec * mat) :=
  let fast (niter : Z) :=
    '(Vr, Sr, Ur) <- svd_lowrank base_weight (rank self) niter ;;
    c <- scaling self ;;
    Sr <- div_ Sr c ;;
    Ok (Vr, Sr, transpose Ur) in
  let bad_niter := Raise (RuntimeError msg_fsvd_niter) in
  match fsvd_niter with
  | PyNone =>
      '(V, Sv, Uh) <- linalg_svd base_weight ;;
      let Vr := cols_to (rank self) V in
      let Sr := slice_to (rank self) Sv in
      c <- scaling self ;;
      Sr <- div_ Sr c ;;
      let Uhr := rows_to (rank self) Uh in
      Ok (Vr, Sr, Uhr)
  | PyInt n => if (0 <=? n)%Z then fast n else bad_niter
  | PyBool b => fast (if b then 1 else 0)%Z
  | PyFloat _ | PyStr _ => bad_niter
  end.

Definition initialize_pissa (fsvd_niter : pyvalue) : M t unit :=
  self <~ get ;;
  if any_bool [is_meta (weight self);
               is_meta (nn.weight (pissa_u self));
               is_meta (pissa_s self);
               is_meta (nn.weight (pissa_v self))]
  then throw (RuntimeError msg_meta_device)
  else
    let dtype := tensor_dtype (weight self) in
    w <~ lift (values_of (weight self)) ;;
    let base_weight := to_dtype float32 w in
    '(Vr, Sr, Uhr) <~ lift (decompose self fsvd_niter base_weight) ;;
    u <~ lift (copy_ (nn.weight (pissa_u self)) Uhr) ;;
    put (set_pissa_u (nn.mkLinear u (nn.bias (pissa_u self))) self) ;;;
    self <~ get ;;
    s <~ lift (copy_vec_ (pissa_s self) Sr) ;;
    put (set_pissa_s s self) ;;;
    self <~ get ;;
    v <~ lift (copy_ (nn.weight (pissa_v self)) Vr) ;;
    put (set_pissa_v (nn.mkLinear v (nn.bias (pissa_v self))) self) ;;;
    self <~ get ;;
    VS <~ lift (matmul Vr (diag Sr)) ;;
    VSU <~ lift (matmul VS Uhr) ;;
    residual_weight <~ lift (ewise_mat Qcminus base_weight VSU) ;;
    w' <~ lift (copy_weight_ self (to_dtype dtype residual_weight)) ;;
    put (set_weight w' self).

Definition adapter_params : list string :=
  ["pissa_u.weight"; "pissa_s"; "pissa_v.weight"]%string.

(** [forward(x)]; [keep] is the dropout mask drawn by this call. *)
Definition forward (self : t) (keep : nat -> bool) (x : vec) : result vec :=
  out <- (if _quantize_base self then
            w <- values_of (weight self) ;;
            out <- linear_nf4 x w ;;
            if use_bias self then
              match bias self with
              | Some b => b <- values_of b ;; ewise Qcplus out b
              | None => Raise (TypeError msg_operand_none)
              end
            else Ok out
          else
            w <- values_of (weight self) ;;
            b <- nn.bias_values (bias self) ;;
            F_linear x w b) ;;
  if disabled self then Ok out
  else
    lora_out <- nn.Linear_forward (pissa_u self)
                  (nn.Dropout_forward (training self) keep (dropout self) x) ;;
    s <- values_of (pissa_s self) ;;
    lora_out <- ewise Qcmult lora_out s ;;
    c <- scaling self ;;
    let lora_out := map (fun a => a * c) lora_out in
    lora_out <- nn.Linear_forward (pissa_v self) lora_out ;;
    ewise Qcplus out lora_out.

(** The base transform alone: the (possibly quantised) weight applied to
    [x], plus the bias when there is one.  It reads [weight], [bias],
    [use_bias] and [_quantize_base] only. *)
Definition base_transform (quantize_base use_bias : bool)
           (weight : tensor mat) (bias : option (tensor vec)) (x : vec)
  : result vec :=
  w <- values_of weight ;;
  if quantize_base then
    out <- linear_nf4 x w ;;
    if use_bias then
      match bias with
      | Some b => b <- values_of b ;; ewise Qcplus out b
      | None => Raise (TypeError msg_operand_none)
      end
    else Ok out
  else
    b <- nn.bias_values bias ;;
    F_linear x w b.

End Methods.

End PiSSALinear.

(** ** [QATPiSSALinear] *)

Module QATPiSSALinear.

(** What a fake-quantizer attribute holds: [FakeQuantizer(config)] or
    [nn.Identity()].  The other fields of a config keep their defaults, with
    which [FakeQuantizer(config)] is always built. *)
Inductive QuantizerModule : Type :=
| FakeQuantizer (config : FakeQuantizeConfig)
| Identity.

(** The subclass: the fields of [PiSSALinear] and the two quantizers. *)
Record t : Type := mk {
  super : PiSSALinear.t;
  activation_fake_quantizer : QuantizerModule;
  weight_fake_quantizer : QuantizerModule
}.

Section Methods.
Context {backend : Backend}.

Definition __init__ (env : Env) (in_dim out_dim rank : Z) (alpha dropout : Qc)
           (activation_qat_config weight_qat_config : option FakeQuantizeConfig)
  : result t :=
  self <- PiSSALinear.__init__ env in_dim out_dim rank alpha dropout
            false false [] ;;
  if negb (torchao_qat env) then Raise (ValueError msg_torchao)
  else
    (* initialize activation fake quantizer *)
    let activation_fake_quantizer :=
      match activation_qat_config with
      | Some config => FakeQuantizer config
      | None => Identity
      end in
    (* initialize weight fake quantizer *)
    weight_fake_quantizer <-
      match weight_qat_config with
      | Some config =>
          (* the property yields an integer or raises, so the source's
             test [group_size is not None] holds whenever it is reached *)
          group_size <- group_size config ;;
          if (group_size =? 0)%Z
          then Raise (ZeroDivisionError msg_division_by_zero)
          else if negb (in_dim mod group_size =? 0)%Z
               then Raise (ValueError msg_group_size)
               else Ok (FakeQuantizer config)
      | None => Ok Identity
      end ;;
    Ok (mk self activation_fake_quantizer weight_fake_quantizer).

Definition quantize_activation (m : QuantizerModule) (x : vec) : result vec :=
  match m with
  | FakeQuantizer config => fake_quantize config x
  | Identity => Ok x
  end.

Definition quantize_weight (m : QuantizerModule) (w : mat) : result mat :=
  match m with
  | FakeQuantizer config => fake_quantize_weight config w
  | Identity => Ok w
  end.

(** [forward(x)]; [keep] is the dropout mask drawn by this call. *)
Definition forward (self : t) (keep : nat -> bool) (x : vec) : result vec :=
  _x <- quantize_activation (activation_fake_quantizer self) x ;;
  w <- values_of (PiSSALinear.weight (super self)) ;;
  w <- quantize_weight (weight_fake_quantizer self) w ;;
  out <- F_linear _x w None ;;
  if PiSSALinear.disabled (super self) then Ok out
  else
    lora_out <- nn.Linear_forward (PiSSALinear.pissa_u (super self))
                  (nn.Dropout_forward (PiSSALinear.training (super self)) keep
                                      (PiSSALinear.dropout (super self)) x) ;;
    s <- values_of (PiSSALinear.pissa_s (super self)) ;;
    lora_out <- ewise Qcmult lora_out s ;;
    c <- PiSSALinear.scaling (super self) ;;
    let lora_out := map (fun a => a * c) lora_out in
    lora_out <- nn.Linear_forward (PiSSALinear.pissa_v (super self)) lora_out ;;
    ewise Qcplus out lora_out.

(** The base transform of the variant alone: the fake-quantised weight
    applied to the fake-quantised input, without bias. *)
Definition base_transform (activation_fake_quantizer weight_fake_quantizer : QuantizerModule)
           (weight : tensor mat) (x : vec) : result vec :=
  _x <- quantize_activation activation_fake_quantizer x ;;
  w <- values_of weight ;;
  w <- quantize_weight weight_fake_quantizer w ;;
  F_linear _x w None.

Definition with_super (f : PiSSALinear.t -> PiSSALinear.t) (self : t) : t :=
  mk (f (super self)) (activation_fake_quantizer self) (weight_fake_quantizer self).

(** [from_lora_linear(lora_linear, activation_qat_config,
    weight_qat_config)].  The two [ValueError] objects of the source are
    built and dropped: there is no [raise] in front of them. *)
Definition from_lora_linear (env : Env) (lora_linear : PiSSALinear.t)
           (activation_qat_config weight_qat_config : option FakeQuantizeConfig)
  : result t :=
  let _dropped1 :=
    match PiSSALinear.bias lora_linear with
    | Some _ => Some (ValueError msg_bias_unsupported)
    | None => None
    end in
  let _dropped2 :=
    if PiSSALinear._quantize_base lora_linear
    then Some (ValueError msg_quantize_base_unsupported)
    else None in
  let dropout :=
    match PiSSALinear.dropout lora_linear with
    | nn.Dropout p => p
    | nn.Identity => 0
    end in
  new_linear <- __init__ env
                  (PiSSALinear.in_dim lora_linear)
                  (PiSSALinear.out_dim lora_linear)
                  (PiSSALinear.rank lora_linear)
                  (PiSSALinear.alpha lora_linear)
                  dropout activation_qat_config weight_qat_config ;;
  (* In distributed training, the model may be instantiated on the meta
     device, in which case there is no need to copy the weights *)
  let new_linear :=
    if negb (is_meta (PiSSALinear.weight lora_linear))
    then with_super (PiSSALinear.set_weight (PiSSALinear.weight lora_linear))
                    new_linear
    else new_linear in
  let new_linear :=
    if negb (is_meta (nn.weight (PiSSALinear.pissa_u lora_linear)))
    then with_super
           (fun s => PiSSALinear.set_pissa_u
                       (nn.mkLinear (nn.weight (PiSSALinear.pissa_u lora_linear))
                                    (nn.bias (PiSSALinear.pissa_u s))) s)
           new_linear
    else new_linear in
  let new_linear :=
    if negb (is_meta (nn.weight (PiSSALinear.pissa_v lora_linear)))
    then with_super
           (fun s => PiSSALinear.set_pissa_v
                       (nn.mkLinear (nn.weight (PiSSALinear.pissa_v lora_linear))
                                    (nn.bias (PiSSALinear.pissa_v s))) s)
           new_linear
    else new_linear in
  Ok new_linear.

End Methods.

End QATPiSSALinear.

(** ** What construction leaves in the layer *)

(** A freshly drawn [r x c] parameter on the default device (draw [k]). *)
Definition fresh_matrix (env : Env) (k r c : nat) : tensor mat :=
  match default_device env with
  | meta => MetaTensor (default_dtype env) [r; c]
  | _ => RealTensor (default_dtype env) (tabulate r c (uniform_ env k))
  end.

(** A freshly drawn bias with [n] entries on the default device (draw [k]). *)
Definition fresh_vector (env : Env) (k n : nat) : tensor vec :=
  match default_device env with
  | meta => MetaTensor (default_dtype env) [n]
  | _ => RealTensor (default_dtype env) (tabulate_vec n (uniform_ env k 0%nat))
  end.

(** The zero vector with [n] entries on the default device. *)
Definition fresh_zeros (env : Env) (n : nat) : tensor vec :=
  match default_device env with
  | meta => MetaTensor (default_dtype env) [n]
  | _ => RealTensor (default_dtype env) (zeros n)
  end.

(** ** Shape invariant of a materialised layer *)

(** The tensors of the layer hold values and have the shapes its dimensions
    announce: [weight] is [o x i], [pissa_u.weight] is [r x i], [pissa_s]
    has [r] entries, [pissa_v.weight] is [o x r], the bias (if any) has [o]
    entries, and the two adapter maps have no bias. *)
Record materialised (self : PiSSALinear.t) (i o r : nat)
       (W U : mat) (s : vec) (V : mat) : Prop := {
  mat_weight : exists dt, PiSSALinear.weight self = RealTensor dt W;
  mat_u : exists dt, PiSSALinear.pissa_u self = nn.mkLinear (RealTensor dt U) None;
  mat_s : exists dt, PiSSALinear.pissa_s self = RealTensor dt s;
  mat_v : exists dt, PiSSALinear.pissa_v self = nn.mkLinear (RealTensor dt V) None;
  mat_bias : match PiSSALinear.bias self with
             | Some (RealTensor _ b) => PiSSALinear.use_bias self = true /\ length b = o
             | Some (MetaTensor _ _) => False
             | None => PiSSALinear.use_bias self = false
             end;
  shape_weight : nrows W = o /\ ncols W = i;
  shape_u : nrows U = r /\ ncols U = i;
  shape_s : length s = r;
  shape_v : nrows V = o /\ ncols V = r
}.

(** Every row of a matrix has as many entries as the matrix has columns. *)
Definition well_formed (M : mat) : bool :=
  forallb (fun r => (length r =? ncols M)%nat) (rows M).

(** ** What the decomposition leaves in the layer *)

(** [A - B] for two matrices of one shape. *)
Definition sub_mat (A B : mat) : mat :=
  mkMat (ncols A)
        (map (fun p => map2 Qcminus (fst p) (snd p)) (combine (rows A) (rows B))).

(** The low-rank map of the adapter without its scale factor, as [forward]
    computes it: [y] goes through [U], is multiplied entry by entry by [s],
    and goes through [V]. *)
Definition low_rank_apply (V : mat) (s : vec) (U : mat) (y : vec) : vec :=
  map (fun v => dot v (map2 Qcmult (map (fun u => dot u y) (rows U)) s)) (rows V).

(** The layer after [initialize_pissa] has written [Uhr], [Sr], [Vr] and
    the residual of [W]. *)
Definition decomposed (self : PiSSALinear.t) (W Vr : mat) (Sr : vec) (Uhr : mat)
  : PiSSALinear.t :=
  PiSSALinear.mk
    (PiSSALinear.in_dim self) (PiSSALinear.out_dim self) (PiSSALinear.rank self)
    (PiSSALinear.alpha self) (PiSSALinear.use_bias self)
    (PiSSALinear._quantize_base self) (PiSSALinear.disabled self)
    (RealTensor (tensor_dtype (PiSSALinear.weight self))
                (sub_mat W (mkMat (ncols Uhr)
                                  (map (fun v => lincomb (ncols Uhr)
                                                   (lincomb (length Sr) v (diag_rows Sr))
                                                   (rows Uhr))
                                       (rows Vr)))))
    (PiSSALinear.bias self) (PiSSALinear.dropout self)
    (nn.mkLinear (RealTensor (tensor_dtype (nn.weight (PiSSALinear.pissa_u self))) Uhr)
                 None)
    (RealTensor (tensor_dtype (PiSSALinear.pissa_s self)) Sr)
    (nn.mkLinear (RealTensor (tensor_dtype (nn.weight (PiSSALinear.pissa_v self))) Vr)
                 None)
    (PiSSALinear.merged self) (PiSSALinear.training self).

(** ** What a method leaves alone *)

(** Two layers with the same configuration: dimensions, rank, scale,
    flags, bias, dropout module, and the (absent) biases of the adapter
    maps. *)
Definition same_configuration (a b : PiSSALinear.t) : Prop :=
  PiSSALinear.in_dim a = PiSSALinear.in_dim b
  /\ PiSSALinear.out_dim a = PiSSALinear.out_dim b
  /\ PiSSALinear.rank a = PiSSALinear.rank b
  /\ PiSSALinear.alpha a = PiSSALinear.alpha b
  /\ PiSSALinear.use_bias a = PiSSALinear.use_bias b
  /\ PiSSALinear._quantize_base a = PiSSALinear._quantize_base b
  /\ PiSSALinear.disabled a = PiSSALinear.disabled b
  /\ PiSSALinear.bias a = PiSSALinear.bias b
  /\ PiSSALinear.dropout a = PiSSALinear.dropout b
  /\ PiSSALinear.merged a = PiSSALinear.merged b
  /\ PiSSALinear.training a = PiSSALinear.training b
  /\ nn.bias (PiSSALinear.pissa_u a) = nn.bias (PiSSALinear.pissa_u b)
  /\ nn.bias (PiSSALinear.pissa_v a) = nn.bias (PiSSALinear.pissa_v b).

(** Two layers whose adapter tensors have the same dtypes and shapes. *)
Definition same_adapter_layout (a b : PiSSALinear.t) : Prop :=
  tensor_dtype (nn.weight (PiSSALinear.pissa_u a))
  = tensor_dtype (nn.weight (PiSSALinear.pissa_u b))
  /\ shape_of_mat (nn.weight (PiSSALinear.pissa_u a))
     = shape_of_mat (nn.weight (PiSSALinear.pissa_u b))
  /\ tensor_dtype (PiSSALinear.pissa_s a) = tensor_dtype (PiSSALinear.pissa_s b)
  /\ shape_of_vec (PiSSALinear.pissa_s a) = shape_of_vec (PiSSALinear.pissa_s b)
  /\ tensor_dtype (nn.weight (PiSSALinear.pissa_v a))
     = tensor_dtype (nn.weight (PiSSALinear.pissa_v b))
  /\ shape_of_mat (nn.weight (PiSSALinear.pissa_v a))
     = shape_of_mat (nn.weight (PiSSALinear.pissa_v b)).

(** ** Argument checks, as predicates *)

(** What [fsvd_niter] must not be: a negative integer, a float, a string. *)
Definition bad_fsvd_niter (v : pyvalue) : bool :=
  match v with
  | PyInt n => (n <? 0)%Z
  | PyFloat _ | PyStr _ => true
  | PyNone | PyBool _ => false
  end.

(** Whether the group-size check of the variant's constructor lets a weight
    config through. *)
Definition group_size_accepts (in_dim : Z) (wc : option FakeQuantizeConfig) : bool :=
  match wc with
  | Some config =>
      match granularity config with
      | PerGroup g => negb (g =? 0)%Z && (in_dim mod g =? 0)%Z
      | PerToken | PerAxis _ => false
      end
  | None => true
  end.

(** Whether the tensors of a layer can be created: the weight, the bias if
    there is one, and the three adapter tensors. *)
Definition linear_error (env : Env) (in_features out_features : Z) (use_bias : bool)
  : option exn :=
  match shape_error env [out_features; in_features] with
  | Some e => Some e
  | None => if use_bias then shape_error env [out_features] else None
  end.

Definition adapter_error (env : Env) (in_dim out_dim rank : Z) : option exn :=
  match shape_error env [rank; in_dim] with
  | Some e => Some e
  | None =>
      match shape_error env [rank] with
      | Some e => Some e
      | None => shape_error env [out_dim; rank]
      end
  end.

Definition is_none {A : Type} (o : option A) : bool :=
  match o with None => true | Some _ => false end.

(** What [from_lora_linear] passes as [dropout]. *)
Definition dropout_p (m : nn.DropoutModule) : Qc :=
  match m with
  | nn.Dropout p => p
  | nn.Identity => 0
  end.

(** ** A concrete backend and concrete layers *)

(** Exact arithmetic: casts keep the value, the NF4 codec and the fake
    quantizers are lossless.  The SVD is tabulated on the matrices whose
    decomposition is rational and immediate: a square diagonal matrix with a
    non-negative, descending diagonal is decomposed with identity singular
    vectors and its diagonal as singular values.  The NF4 codec makes the
    checks of [to_nf4] on its block sizes. *)
Definition identity_mat (n : nat) : mat :=
  tabulate n n (fun i j => if (i =? j)%nat then 1 else 0).

Definition is_diagonal (M : mat) : bool :=
  (nrows M =? ncols M)%nat
  && forallb (fun i =>
                forallb (fun j => (i =? j)%nat || Qc_eq_bool (entry M i j) 0)
                        (seq 0 (ncols M)))
             (seq 0 (nrows M)).

Definition diagonal (M : mat) : vec := map (fun i => entry M i i) (seq 0 (nrows M)).

Fixpoint descending (s : vec) : bool :=
  match s with
  | a :: (b :: _) as s' => negb (Qc_ltb a b) && descending s'
  | _ => true
  end.

Definition is_singular_values (s : vec) : bool :=
  forallb (fun a => negb (Qc_ltb a 0)) s && descending s.

Definition svd_of_diagonal (M : mat) : result (mat * vec * mat) :=
  if is_diagonal M && is_singular_values (diagonal M)
  then Ok (identity_mat (nrows M), diagonal M, identity_mat (nrows M))
  else Raise (RuntimeError "linalg.svd: not tabulated").

(** An integer keyword argument, or its default. *)
Definition kwarg_int (kw : kwargs) (name : string) (default : Z) : result Z :=
  match find (fun p => (fst p =? name)%string) kw with
  | None => Ok default
  | Some (_, PyInt n) => Ok n
  | Some (_, PyBool b) => Ok (if b then 1 else 0)%Z
  | Some _ => Raise (TypeError msg_nf4_argument)
  end.

(** The checks of [to_nf4(t, block_size=64, scaler_block_size=256)]: it
    takes no other keyword; the block size divides the number of entries,
    the scaler block size divides the number of blocks, and the entries are
    packed in pairs. *)
Definition nf4_checks (kw : kwargs) (M : mat) : result unit :=
  if existsb (fun p => negb ((fst p =? "block_size")%string
                             || (fst p =? "scaler_block_size")%string)) kw
  then Raise (TypeError msg_nf4_argument)
  else
    let numel := Z.of_nat (nrows M * ncols M) in
    block_size <- kwarg_int kw "block_size" 64 ;;
    scaler_block_size <- kwarg_int kw "scaler_block_size" 256 ;;
    if (block_size =? 0)%Z || (scaler_block_size =? 0)%Z
    then Raise (ZeroDivisionError msg_division_by_zero)
    else if negb (numel mod block_size =? 0)%Z
         then Raise (AssertionError msg_nf4_block_size)
         else if negb ((numel / block_size) mod scaler_block_size =? 0)%Z
              then Raise (AssertionError msg_nf4_scaler_block_size)
              else if negb (numel mod 2 =? 0)%Z
                   then Raise (AssertionError msg_nf4_block_size)
                   else Ok tt.

Definition nf4_asserts (kw : kwargs) (M : mat) : option exn :=
  match nf4_checks kw M with
  | Ok _ => None
  | Raise e => Some e
  end.

Definition exact_backend : Backend := {|
  cast := fun _ q => q;
  linalg_svd := svd_of_diagonal;
  svd_lowrank := fun M _ _ => svd_of_diagonal M;
  nf4_reject := nf4_asserts;
  nf4_value := fun _ M i j => entry M i j;
  nf4_copy_ := fun _ src => Ok src;
  fake_quantize := fun _ x => Ok x;
  fake_quantize_weight := fun _ w => Ok w
|}.

Definition Qz (z : Z) : Qc := Q2Qc (inject_Z z).

(** A process with real tensors, and one that builds on the meta device;
    their allocator serves tensors of up to [2 ^ 30] entries. *)
Definition numel (shape : list Z) : Z := fold_right Z.mul 1%Z shape.

Definition cpu_env : Env :=
  mkEnv cpu float32 true (fun shape => (numel shape <=? 2 ^ 30)%Z)
        (fun k i j => Q2Qc (Z.of_nat (k + i + 2 * j) # 7)).

Definition meta_env : Env :=
  mkEnv meta float32 true (fun shape => (numel shape <=? 2 ^ 30)%Z)
        (fun _ _ _ => 0).

(** The process of a quantised base: real tensors in [bfloat16]. *)
Definition bf16_env : Env :=
  mkEnv cpu bfloat16 true (fun shape => (numel shape <=? 2 ^ 30)%Z)
        (fun k i j => Q2Qc (Z.of_nat (k + i + 2 * j) # 7)).

(** [PiSSALinear(in_dim=2, out_dim=2, rank=2, alpha=4)]. *)
Definition layer_2x2 : result PiSSALinear.t :=
  PiSSALinear.__init__ (backend := exact_backend) cpu_env 2 2 2 (Qz 4) 0 false false [].

(** The weight [[3, 0], [0, 1]] and the input [1, 1]. *)
Definition W31 : mat := mkMat 2 [[Qz 3; 0]; [0; 1]].
Definition x11 : vec := [1; 1].

(** Loading a weight into the layer (a checkpoint load). *)
Definition load_weight (W : mat) (self : PiSSALinear.t) : PiSSALinear.t :=
  PiSSALinear.set_weight (RealTensor (tensor_dtype (PiSSALinear.weight self)) W) self.

(** [PiSSALinear(in_dim=2, out_dim=3, rank=1, alpha=4, dropout=0.5,
    use_bias=True)]; [PiSSALinear(in_dim=2, out_dim=4, rank=1, alpha=4,
    dropout=0.5, quantize_base=True, block_size=2, scaler_block_size=2)]
    built with [bfloat16] as default dtype, whose 8 weight entries make 4
    blocks and 2 scaler blocks; and a 2 x 3 layer on the meta device. *)
Definition layer_bias : result PiSSALinear.t :=
  PiSSALinear.__init__ (backend := exact_backend) cpu_env 2 3 1 (Qz 4) (Q2Qc (1 # 2))
                       true false [].

Definition layer_nf4 : result PiSSALinear.t :=
  PiSSALinear.__init__ (backend := exact_backend) bf16_env 2 4 1 (Qz 4) (Q2Qc (1 # 2))
                       false true [("block_size"%string, PyInt 2);
                                   ("scaler_block_size"%string, PyInt 2)].

Definition layer_meta : result PiSSALinear.t :=
  PiSSALinear.__init__ (backend := exact_backend) meta_env 2 3 1 (Qz 4) 0 false false [].

(** The value of a successful construction ([default] is never used on the
    layers above). *)
Definition get_ok {A : Type} (default : A) (r : result A) : A :=
  match r with Ok a => a | Raise _ => default end.

Definition blank : PiSSALinear.t :=
  PiSSALinear.mk 0 0 0 0 false false false (MetaTensor float32 []) None nn.Identity
                 (nn.mkLinear (MetaTensor float32 []) None) (MetaTensor float32 [])
                 (nn.mkLinear (MetaTensor float32 []) None) false true.

(** The layer's total transform as one matrix: the stored weight plus
    [pissa_v.weight @ diag(pissa_s * (alpha / rank)) @ pissa_u.weight]. *)
Definition total_weight (self : PiSSALinear.t) : result mat :=
  W <- values_of (PiSSALinear.weight self) ;;
  U <- values_of (nn.weight (PiSSALinear.pissa_u self)) ;;
  s <- values_of (PiSSALinear.pissa_s self) ;;
  V <- values_of (nn.weight (PiSSALinear.pissa_v self)) ;;
  c <- PiSSALinear.scaling self ;;
  VS <- matmul V (diag (map (fun a => a * c) s)) ;;
  VSU <- matmul VS U ;;
  ewise_mat Qcplus W VSU.

(** The 2 x 2 layer with [W31] loaded, and the layer [initialize_pissa()]
    leaves. *)
Definition loaded_2x2 : PiSSALinear.t := load_weight W31 (get_ok blank layer_2x2).

Definition decomposed_2x2 : PiSSALinear.t :=
  snd (PiSSALinear.initialize_pissa (backend := exact_backend) PyNone loaded_2x2).

(** [FakeQuantizeConfig(dtype=torch.int4, group_size=g)], and the per-token
    config [FakeQuantizeConfig(dtype=torch.int8, granularity="per_token",
    is_symmetric=False)]. *)
Definition config_group (g : Z) : FakeQuantizeConfig :=
  mkFakeQuantizeConfig int4 (PerGroup g) true.

Definition config_per_token : FakeQuantizeConfig :=
  mkFakeQuantizeConfig int8 PerToken false.

(** [PiSSALinear(in_dim=1, out_dim=1, rank=0, alpha=1)]. *)
Definition layer_rank0 : PiSSALinear.t :=
  get_ok blank (PiSSALinear.__init__ (backend := exact_backend) cpu_env
                                     1 1 0 1 0 false false []).

(** * Properties *)

(** ** Lists of rationals *)

Lemma length_zeros (n : nat) : length (zeros n) = n.
Proof. apply repeat_length. Qed.

Lemma length_tabulate_vec (n : nat) (f : nat -> Qc) : length (tabulate_vec n f) = n.
Proof. unfold tabulate_vec. now rewrite length_map, length_seq. Qed.

Lemma nrows_tabulate (r c : nat) (f : nat -> nat -> Qc) : nrows (tabulate r c f) = r.
Proof. unfold nrows, tabulate; simpl. now rewrite length_map, length_seq. Qed.

Lemma ncols_tabulate (r c : nat) (f : nat -> nat -> Qc) : ncols (tabulate r c f) = c.
Proof. reflexivity. Qed.

Lemma length_map2 (f : Qc -> Qc -> Qc) (u v : vec) :
  length (map2 f u v) = Nat.min (length u) (length v).
Proof.
  revert v; induction u as [|a u IH]; intros [|b v]; simpl; auto.
Qed.

Lemma dot_zeros_r (w : vec) (n : nat) : dot w (zeros n) = 0.
Proof.
  unfold zeros. revert n; induction w as [|a w IH]; intros [|n]; simpl; auto.
  rewrite IH. ring.
Qed.

Lemma map_dot_zeros (ws : list vec) (n : nat) :
  map (fun w => dot w (zeros n)) ws = zeros (length ws).
Proof.
  induction ws as [|w ws IH]; simpl; auto.
  rewrite dot_zeros_r, IH. reflexivity.
Qed.

Lemma map2_mult_zeros (u : vec) : map2 Qcmult u (zeros (length u)) = zeros (length u).
Proof.
  unfold zeros. induction u as [|a u IH]; simpl; auto.
  rewrite IH. f_equal. ring.
Qed.

Lemma map2_plus_zeros (u : vec) : map2 Qcplus u (zeros (length u)) = u.
Proof.
  unfold zeros. induction u as [|a u IH]; simpl; auto.
  rewrite IH. f_equal. ring.
Qed.

Lemma map_mult_zeros (c : Qc) (n : nat) : map (fun a => a * c) (zeros n) = zeros n.
Proof.
  unfold zeros. induction n as [|n IH]; simpl; auto.
  rewrite IH. f_equal. ring.
Qed.

Lemma expand_vec_same (v : vec) : expand_vec (length v) v = v.
Proof. unfold expand_vec. now rewrite Nat.eqb_refl. Qed.

Lemma broadcast_dim_same (n : nat) : broadcast_dim n n = Some n.
Proof. unfold broadcast_dim. now rewrite Nat.eqb_refl. Qed.

(** An elementwise operation on operands of one length needs no broadcast. *)
Lemma ewise_same_length (f : Qc -> Qc -> Qc) (u v : vec) :
  length u = length v -> ewise f u v = Ok (map2 f u v).
Proof.
  intros H. unfold ewise. rewrite H, broadcast_dim_same.
  rewrite expand_vec_same. rewrite <- H. now rewrite expand_vec_same.
Qed.

Lemma length_Dropout_forward (training : bool) (keep : nat -> bool)
      (m : nn.DropoutModule) (x : vec) :
  length (nn.Dropout_forward training keep m x) = length x.
Proof.
  destruct m as [p|]; simpl; auto.
  destruct training; auto.
  destruct (Qc_eq_bool p 1).
  - apply length_zeros.
  - rewrite length_map, length_combine, length_seq. apply Nat.min_id.
Qed.

(** [F.linear] succeeds exactly on an input of the weight's width (without
    bias), and its output has one entry per row. *)
Lemma F_linear_no_bias (x : vec) (W : mat) :
  length x = ncols W ->
  F_linear x W None = Ok (map (fun w => dot w x) (rows W)).
Proof. intros H. unfold F_linear. now rewrite H, Nat.eqb_refl. Qed.

Lemma F_linear_bad_shape (x : vec) (W : mat) (b : option vec) :
  length x <> ncols W -> F_linear x W b = Raise (RuntimeError msg_shape).
Proof.
  intros H. unfold F_linear. apply Nat.eqb_neq in H. now rewrite H.
Qed.

Lemma length_expand_vec (n : nat) (v : vec) : length (expand_vec n v) = n.
Proof.
  unfold expand_vec. destruct (Nat.eqb_spec (length v) n); auto.
  apply repeat_length.
Qed.

Lemma F_linear_ok_shape (x : vec) (W : mat) (b : option vec) (y : vec) :
  F_linear x W b = Ok y -> length x = ncols W /\ length y = nrows W.
Proof.
  unfold F_linear, nrows.
  destruct (Nat.eqb_spec (length x) (ncols W)) as [E|E]; [|discriminate].
  assert (HY : length (map (fun w => dot w x) (rows W)) = length (rows W))
    by apply length_map.
  destruct b as [bv|].
  - destruct ((length bv =? length (map (fun w => dot w x) (rows W)))%nat
              || (length bv =? 1)%nat); [|discriminate].
    intros H; inversion H; subst; clear H. split; auto.
    rewrite length_map2, length_expand_vec, HY. apply Nat.min_id.
  - intros H; inversion H; subst. split; auto.
Qed.

(** ** The forward pass *)

Section Forward.
Context {backend : Backend}.

(** The first statement of [PiSSALinear.forward] computes the base
    transform, and nothing after it changes [out] when the layer is
    disabled. *)
Lemma forward_unfold (self : PiSSALinear.t) (keep : nat -> bool) (x : vec) :
  PiSSALinear.forward self keep x =
  out <- PiSSALinear.base_transform (PiSSALinear._quantize_base self)
           (PiSSALinear.use_bias self) (PiSSALinear.weight self)
           (PiSSALinear.bias self) x ;;
  if PiSSALinear.disabled self then Ok out
  else
    lora_out <- nn.Linear_forward (PiSSALinear.pissa_u self)
                  (nn.Dropout_forward (PiSSALinear.training self) keep
                                      (PiSSALinear.dropout self) x) ;;
    s <- values_of (PiSSALinear.pissa_s self) ;;
    lora_out <- ewise Qcmult lora_out s ;;
    c <- PiSSALinear.scaling self ;;
    lora_out <- nn.Linear_forward (PiSSALinear.pissa_v self)
                  (map (fun a => a * c) lora_out) ;;
    ewise Qcplus out lora_out.
Proof.
  unfold PiSSALinear.forward, PiSSALinear.base_transform.
  destruct (PiSSALinear._quantize_base self); reflexivity.
Qed.

Lemma qat_forward_unfold (self : QATPiSSALinear.t) (keep : nat -> bool) (x : vec) :
  QATPiSSALinear.forward self keep x =
  out <- QATPiSSALinear.base_transform
           (QATPiSSALinear.activation_fake_quantizer self)
           (QATPiSSALinear.weight_fake_quantizer self)
           (PiSSALinear.weight (QATPiSSALinear.super self)) x ;;
  if PiSSALinear.disabled (QATPiSSALinear.super self) then Ok out
  else
    lora_out <- nn.Linear_forward (PiSSALinear.pissa_u (QATPiSSALinear.super self))
                  (nn.Dropout_forward
                     (PiSSALinear.training (QATPiSSALinear.super self)) keep
                     (PiSSALinear.dropout (QATPiSSALinear.super self)) x) ;;
    s <- values_of (PiSSALinear.pissa_s (QATPiSSALinear.super self)) ;;
    lora_out <- ewise Qcmult lora_out s ;;
    c <- PiSSALinear.scaling (QATPiSSALinear.super self) ;;
    lora_out <- nn.Linear_forward (PiSSALinear.pissa_v (QATPiSSALinear.super self))
                  (map (fun a => a * c) lora_out) ;;
    ewise Qcplus out lora_out.
Proof.
  unfold QATPiSSALinear.forward, QATPiSSALinear.base_transform.
  destruct (QATPiSSALinear.quantize_activation _ x) as [_x|e]; simpl; auto.
  destruct (values_of _) as [w|e]; simpl; auto.
  destruct (QATPiSSALinear.quantize_weight _ w) as [w'|e]; simpl; auto.
Qed.

Lemma bind_ret_id {A : Type} (r : result A) : (a <- r ;; Ok a) = r.
Proof. now destruct r. Qed.

(** C4.  When [disabled] is true, [forward] of [PiSSALinear] and of
    [QATPiSSALinear] returns the output of the base transform alone, for
    every input, dropout mask and parameter state: the result (a value or
    the base transform's own exception) is a function of the base weight,
    the bias and the quantisation settings only, so it does not depend on
    [pissa_u], [pissa_s], [pissa_v], [rank], [alpha] or the dropout. *)
Theorem forward_disabled_is_base_transform :
  (forall (self : PiSSALinear.t) (keep : nat -> bool) (x : vec),
      PiSSALinear.disabled self = true ->
      PiSSALinear.forward self keep x =
      PiSSALinear.base_transform (PiSSALinear._quantize_base self)
        (PiSSALinear.use_bias self) (PiSSALinear.weight self)
        (PiSSALinear.bias self) x)
  /\
  (forall (self : QATPiSSALinear.t) (keep : nat -> bool) (x : vec),
      PiSSALinear.disabled (QATPiSSALinear.super self) = true ->
      QATPiSSALinear.forward self keep x =
      QATPiSSALinear.base_transform
        (QATPiSSALinear.activation_fake_quantizer self)
        (QATPiSSALinear.weight_fake_quantizer self)
        (PiSSALinear.weight (QATPiSSALinear.super self)) x).
Proof.
  split; intros self keep x Hd.
  - rewrite forward_unfold, Hd. apply bind_ret_id.
  - rewrite qat_forward_unfold, Hd. apply bind_ret_id.
Qed.

(** C9.  Constructed without fake-quantisation configs, a
    [QATPiSSALinear] holds two identity quantizers over a [PiSSALinear]
    built with [use_bias=False] and [quantize_base=False]; and a variant
    in that configuration computes, for every input, dropout mask and
    state of the shared parameters, the [forward] of its underlying
    [PiSSALinear]. *)
Theorem qat_forward_without_configs_is_pissa_forward :
  (forall (env : Env) (in_dim out_dim rank : Z) (alpha dropout : Qc)
          (self : QATPiSSALinear.t),
      QATPiSSALinear.__init__ env in_dim out_dim rank alpha dropout None None
      = Ok self ->
      PiSSALinear.__init__ env in_dim out_dim rank alpha dropout false false []
      = Ok (QATPiSSALinear.super self)
      /\ QATPiSSALinear.activation_fake_quantizer self = QATPiSSALinear.Identity
      /\ QATPiSSALinear.weight_fake_quantizer self = QATPiSSALinear.Identity
      /\ PiSSALinear.bias (QATPiSSALinear.super self) = None
      /\ PiSSALinear.use_bias (QATPiSSALinear.super self) = false
      /\ PiSSALinear._quantize_base (QATPiSSALinear.super self) = false)
  /\
  (forall (self : QATPiSSALinear.t) (keep : nat -> bool) (x : vec),
      QATPiSSALinear.activation_fake_quantizer self = QATPiSSALinear.Identity ->
      QATPiSSALinear.weight_fake_quantizer self = QATPiSSALinear.Identity ->
      PiSSALinear.bias (QATPiSSALinear.super self) = None ->
      PiSSALinear._quantize_base (QATPiSSALinear.super self) = false ->
      QATPiSSALinear.forward self keep x
      = PiSSALinear.forward (QATPiSSALinear.super self) keep x).
Proof.
  split.
  - intros env in_dim out_dim rank alpha dropout self.
    unfold QATPiSSALinear.__init__.
    destruct (PiSSALinear.__init__ env in_dim out_dim rank alpha dropout
                                   false false []) as [base|e] eqn:Hbase;
      simpl; [|discriminate].
    destruct (torchao_qat env); simpl; [|discriminate].
    intros H; inversion H; subst; clear H; simpl.
    repeat split; auto.
    all: revert Hbase; unfold PiSSALinear.__init__; simpl;
      repeat match goal with
             | |- context [bind ?r _] => destruct r; simpl; try discriminate
             end;
      intros H; inversion H; reflexivity.
  - intros self keep x Ha Hw Hb Hq.
    unfold QATPiSSALinear.forward, PiSSALinear.forward.
    rewrite Ha, Hw, Hb, Hq. simpl.
    destruct (values_of (PiSSALinear.weight (QATPiSSALinear.super self)));
      reflexivity.
Qed.

End Forward.

(** ** Construction *)

Lemma Qc_ltb_lt (a b : Qc) : Qc_ltb a b = true <-> a < b.
Proof.
  unfold Qc_ltb. rewrite Qclt_alt.
  destruct (a ?= b); split; intros H; try discriminate; auto.
Qed.

Lemma Qc_ltb_0_1 (d : Qc) : Qc_ltb 1 d = true -> Qc_ltb 0 d = true.
Proof.
  rewrite !Qc_ltb_lt. intros H. apply Qclt_trans with 1; auto.
  apply Qc_ltb_lt. reflexivity.
Qed.

Lemma Qc_ltb_irrefl_0 (d : Qc) : Qc_ltb 0 d = true -> Qc_ltb d 0 = false.
Proof.
  intros H. destruct (Qc_ltb d 0) eqn:E; auto.
  apply Qc_ltb_lt in H. apply Qc_ltb_lt in E.
  exfalso. apply (Qclt_not_le _ _ H). now apply Qclt_le_weak.
Qed.

Lemma any_values_true (kw : kwargs) :
  any (values kw) = true <-> exists k v, In (k, v) kw /\ truthy v = true.
Proof.
  unfold any, values. rewrite existsb_exists. split.
  - intros [v [Hin Hv]]. apply in_map_iff in Hin.
    destruct Hin as [[k v'] [E Hin]]. simpl in E; subst. now exists k, v.
  - intros [k [v [Hin Hv]]]. exists v. split; auto.
    apply in_map_iff. now exists (k, v).
Qed.

Lemma any_values_false (kw : kwargs) :
  any (values kw) = false <-> forall k v, In (k, v) kw -> truthy v = false.
Proof.
  split.
  - intros H k v Hin. destruct (truthy v) eqn:E; auto.
    assert (any (values kw) = true) by (apply any_values_true; now exists k, v).
    congruence.
  - intros H. destruct (any (values kw)) eqn:E; auto.
    apply any_values_true in E. destruct E as [k [v [Hin Hv]]].
    rewrite (H k v Hin) in Hv. discriminate.
Qed.

Section Construction.
Context {backend : Backend}.

Lemma shape_error_nonneg (env : Env) (shape : list Z) :
  shape_error env shape = None -> Forall (fun d => (0 <= d)%Z) shape.
Proof.
  unfold shape_error. destruct (forallb int64 shape); simpl; [|discriminate].
  destruct (existsb (fun d => (d <? 0)%Z) shape) eqn:E; [discriminate|].
  intros _. apply Forall_forall. intros d Hin.
  destruct (Z.ltb_spec d 0) as [Hlt|]; auto.
  assert (existsb (fun d => (d <? 0)%Z) shape = true).
  { apply existsb_exists. exists d. split; auto. now apply Z.ltb_lt. }
  congruence.
Qed.

Lemma shape_error_negative (env : Env) (shape : list Z) (d : Z) :
  In d shape -> (d < 0)%Z -> shape_error env shape <> None.
Proof.
  intros Hin Hd H. apply shape_error_nonneg in H.
  rewrite Forall_forall in H. specialize (H d Hin). lia.
Qed.

(** The allocator never raises a [ValueError]. *)
Lemma shape_error_exn (env : Env) (shape : list Z) (e : exn) :
  shape_error env shape = Some e ->
  e = TypeError msg_overflow \/ e = RuntimeError msg_negative_dimension
  \/ e = RuntimeError msg_allocation.
Proof.
  unfold shape_error. destruct (forallb int64 shape); simpl.
  - destruct (existsb _ shape).
    + intros [= <-]. auto.
    + destruct (allocates env shape); [discriminate|]. intros [= <-]. auto.
  - intros [= <-]. auto.
Qed.

Lemma linear_error_nonneg (env : Env) (i o : Z) (ub : bool) :
  linear_error env i o ub = None -> (0 <= o)%Z /\ (0 <= i)%Z.
Proof.
  unfold linear_error. destruct (shape_error env [o; i]) eqn:E; [discriminate|].
  intros _. apply shape_error_nonneg in E.
  inversion E as [|? ? Ho E']; subst. inversion E'; subst. auto.
Qed.

Lemma linear_error_exn (env : Env) (i o : Z) (ub : bool) (e : exn) :
  linear_error env i o ub = Some e ->
  e = TypeError msg_overflow \/ e = RuntimeError msg_negative_dimension
  \/ e = RuntimeError msg_allocation.
Proof.
  unfold linear_error. destruct (shape_error env [o; i]) eqn:E.
  - intros [= <-]. now apply shape_error_exn in E.
  - destruct ub; [|discriminate]. apply shape_error_exn.
Qed.

Lemma adapter_error_nonneg (env : Env) (i o r : Z) :
  adapter_error env i o r = None -> (0 <= r)%Z.
Proof.
  unfold adapter_error. destruct (shape_error env [r; i]) eqn:E; [discriminate|].
  intros _. apply shape_error_nonneg in E. now inversion E.
Qed.

Lemma adapter_error_exn (env : Env) (i o r : Z) (e : exn) :
  adapter_error env i o r = Some e ->
  e = TypeError msg_overflow \/ e = RuntimeError msg_negative_dimension
  \/ e = RuntimeError msg_allocation.
Proof.
  unfold adapter_error. destruct (shape_error env [r; i]) eqn:E1.
  - intros [= <-]. now apply shape_error_exn in E1.
  - destruct (shape_error env [r]) eqn:E2.
    + intros [= <-]. now apply shape_error_exn in E2.
    + apply shape_error_exn.
Qed.

Lemma torch_zeros_spec (env : Env) (n : Z) :
  torch_zeros env n =
  match shape_error env [n] with
  | Some e => Raise e
  | None => Ok (fresh_zeros env (Z.to_nat n))
  end.
Proof. reflexivity. Qed.

Lemma Linear__init__spec (env : Env) (k : nat) (i o : Z) (ub : bool) :
  nn.Linear__init__ env k i o ub =
  match linear_error env i o ub with
  | Some e => Raise e
  | None =>
      Ok (nn.mkLinear (fresh_matrix env k (Z.to_nat o) (Z.to_nat i))
                      (if ub then Some (fresh_vector env (S k) (Z.to_nat o))
                       else None))
  end.
Proof.
  unfold nn.Linear__init__, linear_error, torch_empty, torch_zeros,
    fresh_matrix, fresh_vector.
  destruct (shape_error env [o; i]); simpl; auto.
  destruct ub; simpl.
  - destruct (shape_error env [o]); simpl; auto.
    destruct (default_device env); simpl;
      rewrite ?nrows_tabulate, ?length_zeros; reflexivity.
  - destruct (default_device env); simpl;
      rewrite ?nrows_tabulate, ?length_zeros; reflexivity.
Qed.

Lemma kaiming_fresh (env : Env) (k k' r c : nat) :
  kaiming_uniform_ env k' (fresh_matrix env k r c) = fresh_matrix env k' r c.
Proof.
  unfold fresh_matrix, kaiming_uniform_.
  destruct (default_device env); simpl; rewrite ?nrows_tabulate; reflexivity.
Qed.

Lemma zeros_fresh (env : Env) (n : nat) :
  zeros_ (fresh_zeros env n) = fresh_zeros env n.
Proof.
  unfold fresh_zeros, zeros_.
  destruct (default_device env); simpl; rewrite ?length_zeros; reflexivity.
Qed.

(** The constructor, statement by statement: which arguments it rejects
    and what each field of the new layer holds. *)
Lemma init_spec (env : Env) (i o r : Z) (a d : Qc) (ub qb : bool) (kw : kwargs) :
  PiSSALinear.__init__ env i o r a d ub qb kw =
  if negb qb && any (values kw) then Raise (ValueError msg_quantization_kwargs)
  else
    match linear_error env i o ub with
    | Some e => Raise e
    | None =>
        weight <- (if qb
                   then to_nf4 (fresh_matrix env 0 (Z.to_nat o) (Z.to_nat i)) kw
                   else Ok (fresh_matrix env 0 (Z.to_nat o) (Z.to_nat i))) ;;
        if Qc_ltb 1 d then Raise (ValueError msg_dropout_range)
        else
          match adapter_error env i o r with
          | Some e => Raise e
          | None =>
              Ok (PiSSALinear.mk i o r a ub qb false weight
                    (if ub then Some (fresh_vector env 1 (Z.to_nat o)) else None)
                    (if Qc_ltb 0 d then nn.Dropout d else nn.Identity)
                    (nn.mkLinear (fresh_matrix env 4 (Z.to_nat r) (Z.to_nat i)) None)
                    (fresh_zeros env (Z.to_nat r))
                    (nn.mkLinear (fresh_matrix env 5 (Z.to_nat o) (Z.to_nat r)) None)
                    false true)
          end
    end.
Proof.
  unfold PiSSALinear.__init__.
  destruct (negb qb && any (values kw)); auto.
  rewrite !Linear__init__spec, torch_zeros_spec.
  destruct (linear_error env i o ub) eqn:Hoi; simpl; auto.
  assert (Hw : forall A (f : tensor mat -> result A),
             (weight <- (if negb qb
                         then Ok (fresh_matrix env 0 (Z.to_nat o) (Z.to_nat i))
                         else to_nf4 (fresh_matrix env 0 (Z.to_nat o) (Z.to_nat i)) kw) ;;
              f weight)
             = (weight <- (if qb
                           then to_nf4 (fresh_matrix env 0 (Z.to_nat o) (Z.to_nat i)) kw
                           else Ok (fresh_matrix env 0 (Z.to_nat o) (Z.to_nat i))) ;;
                f weight)) by (intros; destruct qb; reflexivity).
  rewrite Hw. clear Hw.
  destruct (if qb then _ else _) as [weight|e]; simpl; auto.
  assert (Hd : (dropout <- (if Qc_ltb 0 d then nn.Dropout__init__ d
                            else Ok nn.Identity) ;; Ok dropout)
               = if Qc_ltb 1 d then Raise (ValueError msg_dropout_range)
                 else Ok (if Qc_ltb 0 d then nn.Dropout d else nn.Identity)).
  { unfold nn.Dropout__init__. destruct (Qc_ltb 1 d) eqn:H1.
    - rewrite (Qc_ltb_0_1 _ H1), orb_true_r. reflexivity.
    - destruct (Qc_ltb 0 d) eqn:H0; simpl; auto.
      now rewrite (Qc_ltb_irrefl_0 _ H0). }
  destruct (if Qc_ltb 0 d then nn.Dropout__init__ d else Ok nn.Identity)
    as [dropout|e] eqn:Hdrop; simpl in Hd |- *.
  - destruct (Qc_ltb 1 d); [discriminate|]. injection Hd as <-.
    unfold linear_error, adapter_error.
    destruct (shape_error env [r; i]); simpl; auto.
    destruct (shape_error env [r]); simpl; auto.
    destruct (shape_error env [o; r]); simpl; auto.
    unfold PiSSALinear.initialize_parameters, PiSSALinear._pissa_u_init_params,
      PiSSALinear._pissa_v_init_params, PiSSALinear._pissa_s_init_params; simpl.
    rewrite !kaiming_fresh, zeros_fresh. destruct ub; reflexivity.
  - destruct (Qc_ltb 1 d); [congruence|discriminate].
Qed.

End Construction.

Section ConstructionChecks.
Context {backend : Backend}.

(** Without a quantised base, construction succeeds exactly when no
    keyword is truthy, the tensors can be created and the dropout
    probability is at most 1. *)
Lemma init_is_ok (env : Env) (i o r : Z) (a d : Qc) (ub : bool) (kw : kwargs) :
  is_ok (PiSSALinear.__init__ env i o r a d ub false kw)
  = negb (any (values kw)) && is_none (linear_error env i o ub)
    && negb (Qc_ltb 1 d) && is_none (adapter_error env i o r).
Proof.
  rewrite init_spec. simpl.
  destruct (any (values kw)); simpl; auto.
  destruct (linear_error env i o ub); simpl; auto.
  destruct (Qc_ltb 1 d); simpl; auto.
  destruct (adapter_error env i o r); reflexivity.
Qed.

(** The outcome of construction does not depend on [alpha], which is only
    stored. *)
Lemma init_alpha_irrelevant (env : Env) (i o r : Z) (a a' d : Qc) (ub qb : bool)
      (kw : kwargs) (e : exn) :
  PiSSALinear.__init__ env i o r a d ub qb kw = Raise e ->
  PiSSALinear.__init__ env i o r a' d ub qb kw = Raise e.
Proof.
  rewrite !init_spec.
  destruct (negb qb && any (values kw)); auto.
  destruct (linear_error env i o ub); auto.
  destruct (if qb then _ else _); simpl; auto.
  destruct (Qc_ltb 1 d); auto.
  destruct (adapter_error env i o r); auto. discriminate.
Qed.

(** With [quantize_base=False], falsy keywords change nothing. *)
Lemma init_falsy_kwargs (env : Env) (i o r : Z) (a d : Qc) (ub : bool) (kw : kwargs) :
  any (values kw) = false ->
  PiSSALinear.__init__ env i o r a d ub false kw
  = PiSSALinear.__init__ env i o r a d ub false [].
Proof. intros H. rewrite !init_spec. simpl. now rewrite H. Qed.

(** C5.  With [quantize_base=False], the constructor raises the
    [ValueError] on quantisation arguments if and only if some supplied
    keyword carries a truthy value; when every value is falsy the keywords
    are accepted: construction goes on exactly as without them. *)
Theorem init_rejects_exactly_truthy_quantization_kwargs
        (env : Env) (in_dim out_dim rank : Z) (alpha dropout : Qc)
        (use_bias : bool) (quantization_kwargs : kwargs) :
  (PiSSALinear.__init__ env in_dim out_dim rank alpha dropout use_bias false
                        quantization_kwargs
   = Raise (ValueError msg_quantization_kwargs)
   <-> exists k v, In (k, v) quantization_kwargs /\ truthy v = true)
  /\
  (any (values quantization_kwargs) = false ->
   (forall k v, In (k, v) quantization_kwargs -> truthy v = false)
   /\ PiSSALinear.__init__ env in_dim out_dim rank alpha dropout use_bias false
                           quantization_kwargs
      = PiSSALinear.__init__ env in_dim out_dim rank alpha dropout use_bias false []).
Proof.
  split.
  - rewrite <- any_values_true. rewrite init_spec. simpl.
    destruct (any (values quantization_kwargs)); [tauto|].
    split; [|discriminate].
    destruct (linear_error env in_dim out_dim use_bias) eqn:El.
    { apply linear_error_exn in El.
      destruct El as [-> | [-> | ->]]; discriminate. }
    simpl. destruct (Qc_ltb 1 dropout); [discriminate|].
    destruct (adapter_error env in_dim out_dim rank) eqn:Ea; [|discriminate].
    apply adapter_error_exn in Ea.
    destruct Ea as [-> | [-> | ->]]; discriminate.
  - intros H. split.
    + now apply any_values_false.
    + now apply init_falsy_kwargs.
Qed.

(** C8, as the code has it.  The constructor checks none of [in_dim],
    [out_dim], [rank], [alpha] and [dropout] itself.  Construction fails
    for a negative [in_dim], [out_dim] or [rank] (no tensor has a negative
    size) and for a [dropout] above 1 ([nn.Dropout] rejects it); its outcome
    does not depend on [alpha]; and without quantisation arguments it
    succeeds whenever the tensors of the layer can be created and [dropout]
    is at most 1: zero sizes, a non-positive [alpha], a non-positive
    [dropout] (no dropout module is built) and [dropout = 1] are accepted. *)
Theorem init_rejects_negative_sizes_and_dropout_above_1_only
        (env : Env) (in_dim out_dim rank : Z) (alpha dropout : Qc)
        (use_bias quantize_base : bool) (quantization_kwargs : kwargs) :
  ((in_dim < 0)%Z \/ (out_dim < 0)%Z \/ (rank < 0)%Z \/ 1 < dropout ->
   is_ok (PiSSALinear.__init__ env in_dim out_dim rank alpha dropout use_bias
                               quantize_base quantization_kwargs) = false)
  /\
  (forall alpha' e,
      PiSSALinear.__init__ env in_dim out_dim rank alpha dropout use_bias
                           quantize_base quantization_kwargs = Raise e
      <-> PiSSALinear.__init__ env in_dim out_dim rank alpha' dropout use_bias
                               quantize_base quantization_kwargs = Raise e)
  /\
  (quantize_base = false ->
   any (values quantization_kwargs) = false ->
   linear_error env in_dim out_dim use_bias = None ->
   adapter_error env in_dim out_dim rank = None ->
   dropout <= 1 ->
   exists self,
     PiSSALinear.__init__ env in_dim out_dim rank alpha dropout use_bias
                          quantize_base quantization_kwargs = Ok self
     /\ PiSSALinear.alpha self = alpha
     /\ PiSSALinear.dropout self
        = if Qc_ltb 0 dropout then nn.Dropout dropout else nn.Identity).
Proof.
  split; [|split].
  - intros H. rewrite init_spec.
    destruct (negb quantize_base && any (values quantization_kwargs)); auto.
    destruct (linear_error env in_dim out_dim use_bias) eqn:El; auto.
    apply linear_error_nonneg in El.
    destruct (if quantize_base then _ else _); simpl; auto.
    destruct (Qc_ltb 1 dropout) eqn:Ed; auto.
    destruct (adapter_error env in_dim out_dim rank) eqn:Ea; auto.
    apply adapter_error_nonneg in Ea. exfalso.
    destruct H as [H | [H | [H | H]]]; try lia.
    apply Qc_ltb_lt in H. congruence.
  - intros alpha' e. split; apply init_alpha_irrelevant.
  - intros -> Hkw El Ea Hd. rewrite init_spec. simpl. rewrite Hkw, El. simpl.
    assert (Qc_ltb 1 dropout = false) as ->.
    { destruct (Qc_ltb 1 dropout) eqn:E; auto. apply Qc_ltb_lt in E.
      exfalso. now apply (Qclt_not_le _ _ E). }
    rewrite Ea. eexists. split; [reflexivity|]. split; reflexivity.
Qed.


End ConstructionChecks.

(** ** The decomposition initialiser: its guard *)

Section Guard.
Context {backend : Backend}.

(** C7.  If [weight], [pissa_u.weight], [pissa_s] or [pissa_v.weight] is
    on the meta device, [initialize_pissa] raises the [RuntimeError] of its
    guard whatever [fsvd_niter] is, and the layer it leaves is the layer it
    was given: no tensor has been written. *)
Theorem initialize_pissa_on_meta_raises_and_keeps_state
        (fsvd_niter : pyvalue) (self : PiSSALinear.t) :
  is_meta (PiSSALinear.weight self) = true
  \/ is_meta (nn.weight (PiSSALinear.pissa_u self)) = true
  \/ is_meta (PiSSALinear.pissa_s self) = true
  \/ is_meta (nn.weight (PiSSALinear.pissa_v self)) = true ->
  PiSSALinear.initialize_pissa fsvd_niter self
  = (Raise (RuntimeError msg_meta_device), self).
Proof.
  intros H. unfold PiSSALinear.initialize_pissa, bindM, get, throw, any_bool.
  cbn [existsb].
  destruct H as [H|[H|[H|H]]]; rewrite H; rewrite ?orb_true_r; reflexivity.
Qed.

End Guard.

(** ** Conversion of a [PiSSALinear] into a [QATPiSSALinear] *)

Section Conversion.
Context {backend : Backend}.

(** What [from_lora_linear] returns, in terms of the variant it builds:
    the fresh instance with up to three tensors replaced. *)
Lemma from_lora_linear_spec (env : Env) (lora_linear : PiSSALinear.t)
      (activation_qat_config weight_qat_config : option FakeQuantizeConfig) :
  QATPiSSALinear.from_lora_linear env lora_linear
                                  activation_qat_config weight_qat_config
  = new_linear <- QATPiSSALinear.__init__ env
                    (PiSSALinear.in_dim lora_linear)
                    (PiSSALinear.out_dim lora_linear)
                    (PiSSALinear.rank lora_linear)
                    (PiSSALinear.alpha lora_linear)
                    (match PiSSALinear.dropout lora_linear with
                     | nn.Dropout p => p
                     | nn.Identity => 0
                     end)
                    activation_qat_config weight_qat_config ;;
    let s := QATPiSSALinear.super new_linear in
    Ok (QATPiSSALinear.mk
          (PiSSALinear.mk
             (PiSSALinear.in_dim s) (PiSSALinear.out_dim s) (PiSSALinear.rank s)
             (PiSSALinear.alpha s) (PiSSALinear.use_bias s)
             (PiSSALinear._quantize_base s) (PiSSALinear.disabled s)
             (if is_meta (PiSSALinear.weight lora_linear)
              then PiSSALinear.weight s
              else PiSSALinear.weight lora_linear)
             (PiSSALinear.bias s) (PiSSALinear.dropout s)
             (nn.mkLinear
                (if is_meta (nn.weight (PiSSALinear.pissa_u lora_linear))
                 then nn.weight (PiSSALinear.pissa_u s)
                 else nn.weight (PiSSALinear.pissa_u lora_linear))
                (nn.bias (PiSSALinear.pissa_u s)))
             (PiSSALinear.pissa_s s)
             (nn.mkLinear
                (if is_meta (nn.weight (PiSSALinear.pissa_v lora_linear))
                 then nn.weight (PiSSALinear.pissa_v s)
                 else nn.weight (PiSSALinear.pissa_v lora_linear))
                (nn.bias (PiSSALinear.pissa_v s)))
             (PiSSALinear.merged s) (PiSSALinear.training s))
          (QATPiSSALinear.activation_fake_quantizer new_linear)
          (QATPiSSALinear.weight_fake_quantizer new_linear)).
Proof.
  unfold QATPiSSALinear.from_lora_linear.
  destruct (QATPiSSALinear.__init__ _ _ _ _ _ _ _ _) as [[s a w]|e]; simpl; auto.
  destruct s as [i o r al ub qb dis wt b dr [uw ub'] ps [vw vb'] mg tr]; simpl.
  destruct (is_meta (PiSSALinear.weight lora_linear)),
           (is_meta (nn.weight (PiSSALinear.pissa_u lora_linear))),
           (is_meta (nn.weight (PiSSALinear.pissa_v lora_linear)));
    reflexivity.
Qed.

(** X17.  The outcome of [from_lora_linear] does not depend on the source's
    bias, on its [use_bias] and [_quantize_base] flags, or on its
    [pissa_s]. *)
Lemma from_lora_linear_ignores (env : Env) (a b : PiSSALinear.t)
      (activation_qat_config weight_qat_config : option FakeQuantizeConfig) :
  PiSSALinear.in_dim a = PiSSALinear.in_dim b ->
  PiSSALinear.out_dim a = PiSSALinear.out_dim b ->
  PiSSALinear.rank a = PiSSALinear.rank b ->
  PiSSALinear.alpha a = PiSSALinear.alpha b ->
  PiSSALinear.dropout a = PiSSALinear.dropout b ->
  PiSSALinear.weight a = PiSSALinear.weight b ->
  nn.weight (PiSSALinear.pissa_u a) = nn.weight (PiSSALinear.pissa_u b) ->
  nn.weight (PiSSALinear.pissa_v a) = nn.weight (PiSSALinear.pissa_v b) ->
  QATPiSSALinear.from_lora_linear env a activation_qat_config weight_qat_config
  = QATPiSSALinear.from_lora_linear env b activation_qat_config weight_qat_config.
Proof.
  intros Hi Ho Hr Ha Hd Hw Hu Hv. rewrite !from_lora_linear_spec.
  now rewrite Hi, Ho, Hr, Ha, Hd, Hw, Hu, Hv.
Qed.

(** C10.  Whatever the source holds in [pissa_s], the [QATPiSSALinear]
    returned by [from_lora_linear] holds in [pissa_s] the zero vector of
    length [rank] that construction creates ([torch.zeros(rank)] on the
    default device).  Of the source's tensors only [weight],
    [pissa_u.weight] and [pissa_v.weight] are carried over, each only when
    it is not on the meta device; every other field is that of the freshly
    constructed variant. *)
Theorem from_lora_linear_resets_pissa_s
        (env : Env) (lora_linear : PiSSALinear.t)
        (activation_qat_config weight_qat_config : option FakeQuantizeConfig)
        (new_linear : QATPiSSALinear.t) :
  QATPiSSALinear.from_lora_linear env lora_linear
                                  activation_qat_config weight_qat_config
  = Ok new_linear ->
  let new := QATPiSSALinear.super new_linear in
  PiSSALinear.pissa_s new
  = fresh_zeros env (Z.to_nat (PiSSALinear.rank lora_linear))
  /\ (forall s, values_of (PiSSALinear.pissa_s new) = Ok s ->
                s = zeros (Z.to_nat (PiSSALinear.rank lora_linear)))
  /\ exists fresh,
      QATPiSSALinear.__init__ env
        (PiSSALinear.in_dim lora_linear) (PiSSALinear.out_dim lora_linear)
        (PiSSALinear.rank lora_linear) (PiSSALinear.alpha lora_linear)
        (match PiSSALinear.dropout lora_linear with
         | nn.Dropout p => p
         | nn.Identity => 0
         end)
        activation_qat_config weight_qat_config
      = Ok fresh
      /\ PiSSALinear.pissa_s new = PiSSALinear.pissa_s (QATPiSSALinear.super fresh)
      /\ PiSSALinear.weight new
         = (if is_meta (PiSSALinear.weight lora_linear)
            then PiSSALinear.weight (QATPiSSALinear.super fresh)
            else PiSSALinear.weight lora_linear)
      /\ nn.weight (PiSSALinear.pissa_u new)
         = (if is_meta (nn.weight (PiSSALinear.pissa_u lora_linear))
            then nn.weight (PiSSALinear.pissa_u (QATPiSSALinear.super fresh))
            else nn.weight (PiSSALinear.pissa_u lora_linear))
      /\ nn.weight (PiSSALinear.pissa_v new)
         = (if is_meta (nn.weight (PiSSALinear.pissa_v lora_linear))
            then nn.weight (PiSSALinear.pissa_v (QATPiSSALinear.super fresh))
            else nn.weight (PiSSALinear.pissa_v lora_linear))
      /\ PiSSALinear.bias new = None
      /\ PiSSALinear.bias new = PiSSALinear.bias (QATPiSSALinear.super fresh)
      /\ PiSSALinear.dropout new = PiSSALinear.dropout (QATPiSSALinear.super fresh)
      /\ PiSSALinear.disabled new = PiSSALinear.disabled (QATPiSSALinear.super fresh)
      /\ QATPiSSALinear.activation_fake_quantizer new_linear
         = QATPiSSALinear.activation_fake_quantizer fresh
      /\ QATPiSSALinear.weight_fake_quantizer new_linear
         = QATPiSSALinear.weight_fake_quantizer fresh.
Proof.
  rewrite from_lora_linear_spec.
  destruct (QATPiSSALinear.__init__ _ _ _ _ _ _ _ _) as [fresh|e] eqn:Hinit;
    simpl; [|discriminate].
  intros H; inversion H; subst; clear H. simpl.
  assert (Hs : PiSSALinear.pissa_s (QATPiSSALinear.super fresh)
               = fresh_zeros env (Z.to_nat (PiSSALinear.rank lora_linear))
               /\ PiSSALinear.bias (QATPiSSALinear.super fresh) = None).
  { revert Hinit. unfold QATPiSSALinear.__init__. rewrite init_spec. simpl.
    destruct (linear_error _ _ _ _); simpl; [discriminate|].
    destruct (Qc_ltb 1 _); simpl; [discriminate|].
    destruct (adapter_error _ _ _ _); simpl; [discriminate|].
    destruct (torchao_qat env); simpl; [|discriminate].
    destruct (match weight_qat_config with Some _ => _ | None => _ end);
      simpl; [|discriminate].
    intros H; inversion H; subst; simpl. auto. }
  destruct Hs as [Hs Hb].
  split; [exact Hs|]. split.
  - rewrite Hs. unfold fresh_zeros.
    destruct (default_device env); simpl; intros s E; inversion E; auto.
  - exists fresh. repeat split; auto.
Qed.

End Conversion.

(** ** The cold start: a zero [pissa_s] silences the adapter *)

Section ColdStart.
Context {backend : Backend}.

Lemma ewise_ok_length (f : Qc -> Qc -> Qc) (u v y : vec) :
  length u = length v -> ewise f u v = Ok y -> length y = length u.
Proof.
  intros H. rewrite ewise_same_length by auto.
  intros E; inversion E; subst. rewrite length_map2, <- H. apply Nat.min_id.
Qed.

(** On a materialised layer the base transform accepts exactly the inputs
    of length [i], and returns [o] entries. *)
Lemma base_transform_ok_shape (self : PiSSALinear.t) (i o r : nat)
      (W U : mat) (s : vec) (V : mat) (x out : vec) :
  materialised self i o r W U s V ->
  PiSSALinear.base_transform (PiSSALinear._quantize_base self)
    (PiSSALinear.use_bias self) (PiSSALinear.weight self)
    (PiSSALinear.bias self) x = Ok out ->
  length x = i /\ length out = o.
Proof.
  intros [[dtw Hw] _ _ _ Hbias [HWr HWc] _ _ _].
  unfold PiSSALinear.base_transform. rewrite Hw. simpl.
  destruct (PiSSALinear._quantize_base self).
  - unfold linear_nf4.
    destruct (F_linear x W None) as [out0|e] eqn:HF; simpl; [|discriminate].
    apply F_linear_ok_shape in HF. destruct HF as [Hx Hout0].
    rewrite HWc in Hx. rewrite HWr in Hout0.
    destruct (PiSSALinear.bias self) as [[dt sh|dt b]|].
    + contradiction.
    + destruct Hbias as [-> Hb]. simpl. intros E.
      apply ewise_ok_length in E; [|congruence]. split; congruence.
    + rewrite Hbias. intros E; inversion E; subst. auto.
  - destruct (PiSSALinear.bias self) as [[dt sh|dt b]|]; simpl.
    + contradiction.
    + intros E. apply F_linear_ok_shape in E. destruct E; split; congruence.
    + intros E. apply F_linear_ok_shape in E. destruct E; split; congruence.
Qed.

(** With [pissa_s] at zero and a non-zero rank, the adapter branch of a
    materialised layer adds exactly zero. *)
Lemma forward_zero_s (self : PiSSALinear.t) (i o r : nat) (W U V : mat) :
  materialised self i o r W U (zeros r) V ->
  PiSSALinear.rank self <> 0%Z ->
  forall (keep : nat -> bool) (x : vec),
    PiSSALinear.forward self keep x
    = PiSSALinear.base_transform (PiSSALinear._quantize_base self)
        (PiSSALinear.use_bias self) (PiSSALinear.weight self)
        (PiSSALinear.bias self) x.
Proof.
  intros Hm Hr keep x. rewrite forward_unfold.
  destruct (PiSSALinear.base_transform _ _ _ _ x) as [out|e] eqn:Hb; simpl; auto.
  destruct (PiSSALinear.disabled self); auto.
  destruct (base_transform_ok_shape _ _ _ _ _ _ _ _ _ _ Hm Hb) as [Hx Hout].
  destruct Hm as [_ [dtu Hu] [dts Hs] [dtv Hv] _ _ [HUr HUc] _ [HVr HVc]].
  rewrite Hu, Hs, Hv. unfold nn.Linear_forward. simpl.
  rewrite F_linear_no_bias
    by (rewrite length_Dropout_forward; congruence).
  simpl.
  rewrite ewise_same_length
    by (rewrite length_map, length_zeros; exact HUr).
  simpl.
  assert (Hz : forall u : vec, length u = r -> map2 Qcmult u (zeros r) = zeros r).
  { intros u <-. apply map2_mult_zeros. }
  rewrite Hz by (rewrite length_map; exact HUr).
  unfold PiSSALinear.scaling.
  destruct (Z.eqb_spec (PiSSALinear.rank self) 0); [contradiction|]. simpl.
  rewrite map_mult_zeros.
  rewrite F_linear_no_bias by (rewrite length_zeros; congruence).
  simpl. rewrite map_dot_zeros.
  rewrite ewise_same_length by (rewrite length_zeros; unfold nrows in HVr; congruence).
  unfold nrows in HVr. rewrite HVr, <- Hout. now rewrite map2_plus_zeros.
Qed.

(** On the meta device nothing can be computed: the base transform raises,
    and so does [forward], with the same exception. *)
Lemma forward_meta_weight (self : PiSSALinear.t) (keep : nat -> bool) (x : vec) :
  is_meta (PiSSALinear.weight self) = true ->
  PiSSALinear.forward self keep x
  = PiSSALinear.base_transform (PiSSALinear._quantize_base self)
      (PiSSALinear.use_bias self) (PiSSALinear.weight self)
      (PiSSALinear.bias self) x.
Proof.
  intros H. rewrite forward_unfold. unfold PiSSALinear.base_transform.
  destruct (PiSSALinear.weight self); [reflexivity|discriminate].
Qed.

(** C3.  Right after construction [pissa_s] is the zero vector of length
    [rank], and for every rank other than zero, every input, every dropout
    mask and whatever was drawn for [pissa_u] and [pissa_v], [forward]
    returns what the base transform returns (the weight applied to the
    input, plus the bias if there is one). *)
Theorem forward_after_construction_is_base_transform
        (env : Env) (in_dim out_dim rank : Z) (alpha dropout : Qc)
        (use_bias quantize_base : bool) (quantization_kwargs : kwargs)
        (self : PiSSALinear.t) :
  PiSSALinear.__init__ env in_dim out_dim rank alpha dropout
                       use_bias quantize_base quantization_kwargs
  = Ok self ->
  PiSSALinear.pissa_s self = fresh_zeros env (Z.to_nat rank)
  /\ (forall s, values_of (PiSSALinear.pissa_s self) = Ok s ->
                s = zeros (Z.to_nat rank))
  /\ (rank <> 0%Z ->
      forall (keep : nat -> bool) (x : vec),
        PiSSALinear.forward self keep x
        = PiSSALinear.base_transform quantize_base use_bias
            (PiSSALinear.weight self) (PiSSALinear.bias self) x).
Proof.
  rewrite init_spec.
  destruct (negb quantize_base && any (values quantization_kwargs));
    [discriminate|].
  destruct (linear_error _ _ _ _); [discriminate|].
  destruct (if quantize_base then _ else _) as [weight|e] eqn:Hweight;
    simpl; [|discriminate].
  destruct (Qc_ltb 1 dropout); [discriminate|].
  destruct (adapter_error _ _ _ _); [discriminate|].
  intros H; inversion H; subst; clear H. simpl.
  split; [reflexivity|]. split.
  - unfold fresh_zeros. destruct (default_device env); simpl;
      intros s E; inversion E; auto.
  - intros Hr keep x.
    destruct (default_device env) eqn:Hdev.
    3:{ etransitivity; [apply forward_meta_weight|reflexivity]. simpl.
        revert Hweight. unfold fresh_matrix, to_nf4. rewrite Hdev.
        destruct quantize_base; intros E; inversion E; reflexivity. }
    all: assert (HW : exists Wm, weight = RealTensor (default_dtype env) Wm
                                 /\ nrows Wm = Z.to_nat out_dim
                                 /\ ncols Wm = Z.to_nat in_dim)
           by (revert Hweight; unfold fresh_matrix, to_nf4; rewrite Hdev;
               destruct quantize_base;
               [ destruct (nf4_reject _ _); [discriminate|];
                 intros E; inversion E; eexists; split; [reflexivity|];
                 rewrite !nrows_tabulate; auto
               | intros E; inversion E; eexists; split; [reflexivity|];
                 rewrite nrows_tabulate; auto ]).
    all: destruct HW as [Wm [-> [HWr HWc]]].
    all: etransitivity;
      [ apply (forward_zero_s _ (Z.to_nat in_dim) (Z.to_nat out_dim)
                 (Z.to_nat rank) Wm
                 (tabulate (Z.to_nat rank) (Z.to_nat in_dim) (uniform_ env 4))
                 (tabulate (Z.to_nat out_dim) (Z.to_nat rank) (uniform_ env 5)));
        [|exact Hr]
      | reflexivity ].
    all: constructor; simpl;
      unfold fresh_matrix, fresh_zeros, fresh_vector; rewrite ?Hdev;
      try (eexists; reflexivity);
      rewrite ?nrows_tabulate, ?length_zeros; auto.
    all: destruct use_bias; auto; split; auto; apply length_tabulate_vec.
Qed.

End ColdStart.

(** ** Linear algebra on lists *)

Lemma dot_nil_r (u : vec) : dot u [] = 0.
Proof. now destruct u. Qed.

Lemma dot_zeros_l (n : nat) (x : vec) : dot (zeros n) x = 0.
Proof.
  unfold zeros. revert x; induction n as [|n IH]; intros [|b x]; simpl; auto.
  rewrite IH. ring.
Qed.

Lemma dot_scale (a : Qc) (u x : vec) : dot (scale a u) x = a * dot u x.
Proof.
  revert x; induction u as [|b u IH]; intros [|c x]; simpl; try ring.
  unfold scale in IH. rewrite IH. ring.
Qed.

Lemma dot_map_mult_r (c : Qc) (v z : vec) :
  dot v (map (fun a => a * c) z) = c * dot v z.
Proof.
  revert z; induction v as [|b v IH]; intros [|d z]; simpl; try ring.
  rewrite IH. ring.
Qed.

Lemma dot_map2_plus (u v x : vec) :
  length u = length v ->
  dot (map2 Qcplus u v) x = dot u x + dot v x.
Proof.
  revert v x; induction u as [|a u IH]; intros [|b v] x H; simpl in *;
    try discriminate; try ring.
  destruct x as [|c x]; simpl; [ring|].
  rewrite IH by lia. ring.
Qed.

Lemma dot_map2_minus (u v x : vec) :
  length u = length v ->
  dot (map2 Qcminus u v) x = dot u x - dot v x.
Proof.
  revert v x; induction u as [|a u IH]; intros [|b v] x H; simpl in *;
    try discriminate; try ring.
  destruct x as [|c x]; simpl; [ring|].
  rewrite IH by lia. ring.
Qed.

Lemma map2_mult_comm (u v : vec) : map2 Qcmult u v = map2 Qcmult v u.
Proof.
  revert v; induction u as [|a u IH]; intros [|b v]; simpl; auto.
  rewrite IH. f_equal. ring.
Qed.

Lemma length_scale (a : Qc) (u : vec) : length (scale a u) = length u.
Proof. apply length_map. Qed.

Lemma length_lincomb (n : nat) (a : vec) (Bs : list vec) :
  Forall (fun r => length r = n) Bs -> length (lincomb n a Bs) = n.
Proof.
  intros H; revert a; induction H as [|r Bs Hr HBs IH]; intros [|x a]; simpl;
    try apply length_zeros.
  rewrite length_map2, length_scale, Hr, IH. apply Nat.min_id.
Qed.

(** One row of a product applied to a vector: [(a B) . x = a . (B x)]. *)
Lemma dot_lincomb (n : nat) (a : vec) (Bs : list vec) (x : vec) :
  Forall (fun r => length r = n) Bs ->
  dot (lincomb n a Bs) x = dot a (map (fun r => dot r x) Bs).
Proof.
  intros H; revert a; induction H as [|r Bs Hr HBs IH]; intros [|c a]; simpl;
    try apply dot_zeros_l.
  rewrite dot_map2_plus by (rewrite length_scale, length_lincomb; auto).
  now rewrite dot_scale, IH.
Qed.

Lemma diag_rows_length (s : vec) :
  length (diag_rows s) = length s
  /\ Forall (fun r => length r = length s) (diag_rows s).
Proof.
  induction s as [|a s [IH1 IH2]]; [split; auto|].
  split.
  - cbn [diag_rows length]. now rewrite length_map, IH1.
  - cbn [diag_rows length]. constructor.
    + cbn [length]. now rewrite length_zeros.
    + apply Forall_map. eapply Forall_impl; [|exact IH2].
      intros r Hr. cbn [length]. now rewrite Hr.
Qed.

(** A diagonal matrix applied to a vector multiplies entry by entry. *)
Lemma diag_rows_apply (s y : vec) :
  length y = length s ->
  map (fun r => dot r y) (diag_rows s) = map2 Qcmult s y.
Proof.
  revert y; induction s as [|a s IH]; intros [|b y] H; simpl in *;
    try discriminate; auto.
  rewrite dot_zeros_l. f_equal; [ring|].
  rewrite map_map. rewrite <- IH by lia.
  apply map_ext. intros r. simpl. ring.
Qed.

Lemma well_formed_Forall (M : mat) :
  well_formed M = true <-> Forall (fun r => length r = ncols M) (rows M).
Proof.
  unfold well_formed. rewrite forallb_forall, Forall_forall.
  split; intros H r Hr; specialize (H r Hr); now apply Nat.eqb_eq.
Qed.

Lemma map2_minus_plus_swap (a t b : vec) :
  map2 Qcplus (map2 Qcminus a t) b = map2 Qcminus (map2 Qcplus a b) t.
Proof.
  revert t b; induction a as [|x a IH]; intros [|y t] [|z b]; simpl; auto.
  rewrite IH. f_equal. ring.
Qed.

Lemma map2_minus_plus_scale (c : Qc) (a t : vec) :
  map2 Qcplus (map2 Qcminus a t) (scale c t)
  = map2 Qcplus a (scale (c - 1) t).
Proof.
  revert t; induction a as [|x a IH]; intros [|y t]; simpl; auto.
  unfold scale in IH. rewrite IH. f_equal. ring.
Qed.

Lemma scale_0 (t : vec) : scale 0 t = zeros (length t).
Proof.
  unfold scale, zeros. induction t as [|y t IH]; simpl; auto.
  rewrite IH. f_equal. ring.
Qed.

Lemma map_dot_sub_rows (n : nat) (A B : list vec) (x : vec) :
  Forall (fun r => length r = n) A ->
  Forall (fun r => length r = n) B ->
  map (fun w => dot w x)
      (map (fun p => map2 Qcminus (fst p) (snd p)) (combine A B))
  = map2 Qcminus (map (fun w => dot w x) A) (map (fun w => dot w x) B).
Proof.
  intros HA; revert B; induction HA as [|a A Ha HA IH]; intros B HB; simpl; auto.
  destruct HB as [|b B Hb HB]; simpl; auto.
  rewrite dot_map2_minus by congruence. now rewrite IH.
Qed.

Lemma sub_rows_length (n : nat) (A B : list vec) :
  Forall (fun r => length r = n) A ->
  Forall (fun r => length r = n) B ->
  Forall (fun r => length r = n)
         (map (fun p => map2 Qcminus (fst p) (snd p)) (combine A B)).
Proof.
  intros HA; revert B; induction HA as [|a A Ha HA IH]; intros B HB; simpl; auto.
  destruct HB as [|b B Hb HB]; simpl; auto.
  constructor; auto. rewrite length_map2, Ha, Hb. apply Nat.min_id.
Qed.

Lemma map_expand_vec_same (c : nat) (rs : list vec) :
  Forall (fun r => length r = c) rs -> map (expand_vec c) rs = rs.
Proof.
  induction 1 as [|r rs Hr _ IH]; simpl; auto.
  rewrite IH. f_equal. rewrite <- Hr. apply expand_vec_same.
Qed.

Lemma expand_mat_same (M : mat) :
  well_formed M = true -> expand_mat (nrows M) (ncols M) M = M.
Proof.
  intros H. apply well_formed_Forall in H. unfold expand_mat.
  rewrite map_expand_vec_same by auto.
  unfold nrows. rewrite Nat.eqb_refl. now destruct M.
Qed.

Lemma ewise_mat_same_shape (f : Qc -> Qc -> Qc) (A B : mat) :
  nrows A = nrows B -> ncols A = ncols B ->
  well_formed A = true -> well_formed B = true ->
  ewise_mat f A B
  = Ok (mkMat (ncols A)
              (map (fun p => map2 f (fst p) (snd p)) (combine (rows A) (rows B)))).
Proof.
  intros Hr Hc HA HB. unfold ewise_mat.
  rewrite Hr, Hc, !broadcast_dim_same.
  rewrite (expand_mat_same B HB).
  rewrite <- Hr, <- Hc. rewrite (expand_mat_same A HA). reflexivity.
Qed.

(** The second factor of the product [Vr @ diag(Sr) @ Uhr], applied to a
    vector, is the low-rank map of the adapter. *)
Lemma product_rows_apply (Vr : mat) (Sr : vec) (Uhr : mat) (x : vec) :
  well_formed Uhr = true -> nrows Uhr = length Sr ->
  map (fun w => dot w x)
      (map (fun v => lincomb (ncols Uhr) (lincomb (length Sr) v (diag_rows Sr))
                             (rows Uhr))
           (rows Vr))
  = low_rank_apply Vr Sr Uhr x.
Proof.
  intros HU Hn. apply well_formed_Forall in HU.
  unfold low_rank_apply. rewrite map_map. apply map_ext. intros v.
  rewrite dot_lincomb by auto.
  rewrite dot_lincomb by apply diag_rows_length.
  rewrite diag_rows_apply by (rewrite length_map; exact Hn).
  now rewrite map2_mult_comm.
Qed.

Lemma matmul_ok (A B : mat) :
  ncols A = nrows B ->
  matmul A B
  = Ok (mkMat (ncols B) (map (fun a => lincomb (ncols B) a (rows B)) (rows A))).
Proof. intros H. unfold matmul. now rewrite H, Nat.eqb_refl. Qed.

Lemma nrows_diag (s : vec) : nrows (diag s) = length s.
Proof. unfold nrows, diag. cbn. apply diag_rows_length. Qed.

Section Exact.
Context {backend : Backend}.
Hypothesis cast_exact : forall (dt : dtype) (q : Qc), cast dt q = q.

Lemma to_dtype_exact (dt : dtype) (M : mat) : to_dtype dt M = M.
Proof.
  unfold to_dtype, map_mat. destruct M as [c rs]. simpl. f_equal.
  rewrite <- (map_id rs) at 2. apply map_ext. intros r.
  rewrite <- (map_id r) at 2. apply map_ext. intros q. apply cast_exact.
Qed.

Lemma copy_exact (dt : dtype) (v src : mat) :
  nrows src = nrows v -> ncols src = ncols v -> well_formed src = true ->
  copy_ (RealTensor dt v) src = Ok (RealTensor dt src).
Proof.
  intros Hr Hc Hwf. unfold copy_. rewrite Hr, Hc, !Nat.eqb_refl. simpl.
  rewrite <- Hr, <- Hc, expand_mat_same by auto. now rewrite to_dtype_exact.
Qed.

Lemma copy_vec_exact (dt : dtype) (v src : vec) :
  length src = length v ->
  copy_vec_ (RealTensor dt v) src = Ok (RealTensor dt src).
Proof.
  intros H. unfold copy_vec_. rewrite H, Nat.eqb_refl. simpl.
  rewrite <- H, expand_vec_same. do 2 f_equal.
  rewrite <- (map_id src) at 2. apply map_ext. intros q. apply cast_exact.
Qed.

End Exact.

Section Decomposition.
Context {backend : Backend}.
Hypothesis cast_exact : forall (dt : dtype) (q : Qc), cast dt q = q.

Variables (self : PiSSALinear.t) (i o r : nat) (W U0 : mat) (s0 : vec) (V0 : mat).
Hypothesis Hmat : materialised self i o r W U0 s0 V0.
Hypothesis HW : well_formed W = true.
Hypothesis Hplain : PiSSALinear._quantize_base self = false.

Variables (Vr : mat) (Sr : vec) (Uhr : mat).
Hypothesis HVr : nrows Vr = o /\ ncols Vr = r /\ well_formed Vr = true.
Hypothesis HSr : length Sr = r.
Hypothesis HUhr : nrows Uhr = r /\ ncols Uhr = i /\ well_formed Uhr = true.

Lemma initialize_pissa_decomposed (fsvd_niter : pyvalue) :
  PiSSALinear.decompose self fsvd_niter W = Ok (Vr, Sr, Uhr) ->
  PiSSALinear.initialize_pissa fsvd_niter self
  = (Ok tt, decomposed self W Vr Sr Uhr).
Proof.
  intros Hdec.
  destruct Hmat as [[dtw Hw] [dtu Hu] [dts Hs] [dtv Hv] Hbias
                    [HWr HWc] [HUr HUc] Hsl [HVr' HVc]].
  destruct HVr as (HVr1 & HVr2 & HVr3). destruct HUhr as (HU1 & HU2 & HU3).
  unfold PiSSALinear.initialize_pissa, bindM, get, put, lift, throw, any_bool.
  cbn [existsb]. rewrite Hw, Hu, Hs, Hv.
  cbn [is_meta orb values_of tensor_dtype nn.weight nn.bias].
  rewrite (to_dtype_exact cast_exact), Hdec.
  rewrite (copy_exact cast_exact) by (auto; congruence).
  cbn [PiSSALinear.pissa_s PiSSALinear.set_pissa_u].
  rewrite Hs, (copy_vec_exact cast_exact) by congruence.
  cbn [PiSSALinear.pissa_v PiSSALinear.set_pissa_s PiSSALinear.set_pissa_u].
  rewrite Hv. cbn [nn.weight nn.bias].
  rewrite (copy_exact cast_exact) by (auto; congruence).
  rewrite (matmul_ok Vr (diag Sr)) by (rewrite nrows_diag; congruence).
  cbv beta iota.
  rewrite matmul_ok by (cbn [ncols diag]; congruence).
  cbv beta iota. cbn [rows diag ncols].
  rewrite map_map.
  set (P := mkMat (ncols Uhr) _).
  assert (HP : well_formed P = true).
  { apply well_formed_Forall. subst P. cbn. apply Forall_map.
    apply Forall_forall. intros v _. apply length_lincomb.
    now apply well_formed_Forall. }
  rewrite ewise_mat_same_shape; auto.
  2:{ subst P. unfold nrows. cbn. rewrite length_map. fold (nrows Vr) (nrows W). congruence. }
  2:{ subst P. cbn. congruence. }
  unfold PiSSALinear.copy_weight_.
  cbn [PiSSALinear._quantize_base PiSSALinear.weight PiSSALinear.set_pissa_v
       PiSSALinear.set_pissa_s PiSSALinear.set_pissa_u].
  rewrite Hplain, Hw.
  rewrite (to_dtype_exact cast_exact).
  rewrite (copy_exact cast_exact).
  - unfold decomposed. rewrite Hw, Hu, Hs, Hv. subst P. rewrite HSr. reflexivity.
  - unfold nrows. cbn. rewrite length_map, length_combine.
    subst P. cbn. rewrite length_map. fold (nrows W) (nrows Vr). lia.
  - reflexivity.
  - apply well_formed_Forall. cbn [sub_mat ncols rows].
    apply sub_rows_length.
    + now apply well_formed_Forall.
    + apply well_formed_Forall in HP. subst P. cbn [ncols rows] in HP.
      rewrite HWc, <- HU2. exact HP.
Qed.

Lemma scaling_decomposed :
  PiSSALinear.scaling (decomposed self W Vr Sr Uhr) = PiSSALinear.scaling self.
Proof. reflexivity. Qed.

(** The forward pass of the decomposed layer, in terms of the output [out]
    of the layer before decomposition: the residual takes the low-rank map
    away once, the adapter adds it back [c] times. *)
Lemma forward_decomposed (c : Qc) (keep : nat -> bool) (x out : vec) :
  PiSSALinear.disabled self = false ->
  PiSSALinear.scaling self = Ok c ->
  PiSSALinear.base_transform false (PiSSALinear.use_bias self)
    (PiSSALinear.weight self) (PiSSALinear.bias self) x = Ok out ->
  PiSSALinear.forward (decomposed self W Vr Sr Uhr) keep x
  = Ok (map2 Qcplus
          (map2 Qcminus out (low_rank_apply Vr Sr Uhr x))
          (scale c (low_rank_apply Vr Sr Uhr
                      (nn.Dropout_forward (PiSSALinear.training self) keep
                                          (PiSSALinear.dropout self) x)))).
Proof.
  intros Hdis Hc Hout.
  pose proof Hout as Hshape. rewrite <- Hplain in Hshape at 1.
  apply (base_transform_ok_shape _ _ _ _ _ _ _ _ _ _ Hmat) in Hshape.
  destruct Hshape as [Hx Hlen].
  destruct Hmat as [[dtw Hw] [dtu Hu] [dts Hs] [dtv Hv] Hbias
                    [HWr HWc] [HUr HUc] Hsl [HVr' HVc]].
  destruct HVr as (HVr1 & HVr2 & HVr3). destruct HUhr as (HU1 & HU2 & HU3).
  set (x' := nn.Dropout_forward (PiSSALinear.training self) keep
                                (PiSSALinear.dropout self) x).
  assert (Hx' : length x' = i)
    by (subst x'; rewrite length_Dropout_forward; exact Hx).
  set (P := mkMat (ncols Uhr)
                  (map (fun v => lincomb (ncols Uhr)
                                   (lincomb (length Sr) v (diag_rows Sr)) (rows Uhr))
                       (rows Vr))).
  assert (HPwf : Forall (fun r => length r = ncols W) (rows P)).
  { subst P. cbn [rows]. apply Forall_map. apply Forall_forall. intros v _.
    rewrite HWc, <- HU2. apply length_lincomb. now apply well_formed_Forall. }
  assert (HWwf : Forall (fun r => length r = ncols W) (rows W))
    by now apply well_formed_Forall.
  (* the base branch *)
  assert (Hbase :
            PiSSALinear.base_transform false (PiSSALinear.use_bias self)
              (RealTensor dtw (sub_mat W P)) (PiSSALinear.bias self) x
            = Ok (map2 Qcminus out (low_rank_apply Vr Sr Uhr x))).
  { revert Hout. unfold PiSSALinear.base_transform. rewrite Hw.
    cbn [values_of bind].
    assert (Hrows : map (fun w => dot w x) (rows (sub_mat W P))
                    = map2 Qcminus (map (fun w => dot w x) (rows W))
                                   (low_rank_apply Vr Sr Uhr x)).
    { unfold sub_mat. cbn [rows].
      rewrite (map_dot_sub_rows (ncols W)) by auto.
      subst P. cbn [rows]. rewrite product_rows_apply by (auto; congruence).
      reflexivity. }
    assert (Hlow : length (low_rank_apply Vr Sr Uhr x) = o).
    { unfold low_rank_apply. rewrite length_map. exact HVr1. }
    destruct (PiSSALinear.bias self) as [[dt sh|dt b]|]; [contradiction| |].
    - destruct Hbias as [_ Hb]. cbn [nn.bias_values values_of bind].
      unfold F_linear. cbn [ncols sub_mat].
      destruct (Nat.eqb_spec (length x) (ncols W)) as [E|E]; [|discriminate].
      rewrite !length_map. fold (nrows W).
      rewrite Hrows.
      assert (Hl2 : length (rows (sub_mat W P)) = o).
      { apply (f_equal (@length Qc)) in Hrows.
        rewrite length_map, length_map2, length_map, Hlow in Hrows.
        fold (nrows W) in Hrows. rewrite HWr, Nat.min_id in Hrows. exact Hrows. }
      rewrite Hl2, HWr, Hb, Nat.eqb_refl. cbn [orb].
      intros E'; inversion E'; subst; clear E'.
      f_equal. apply map2_minus_plus_swap.
    - cbn [nn.bias_values bind].
      unfold F_linear. cbn [ncols sub_mat].
      destruct (Nat.eqb_spec (length x) (ncols W)) as [E|E]; [|discriminate].
      intros E'; inversion E'; subst; clear E'.
      f_equal. exact Hrows. }
  rewrite forward_unfold.
  unfold decomposed at 1 2 3 4 5.
  cbn [PiSSALinear._quantize_base PiSSALinear.use_bias PiSSALinear.weight
       PiSSALinear.bias PiSSALinear.disabled].
  rewrite Hplain, Hw. cbn [tensor_dtype]. fold P. rewrite Hbase.
  cbn [bind]. rewrite Hdis.
  unfold decomposed.
  cbn [PiSSALinear.pissa_u PiSSALinear.pissa_s PiSSALinear.pissa_v
       PiSSALinear.training PiSSALinear.dropout].
  fold x'. unfold nn.Linear_forward.
  cbn [nn.weight nn.bias values_of nn.bias_values bind].
  rewrite F_linear_no_bias by congruence. cbn [bind].
  rewrite ewise_same_length by (rewrite length_map; fold (nrows Uhr); congruence).
  cbn [bind].
  change (PiSSALinear.scaling _) with (PiSSALinear.scaling self). rewrite Hc.
  cbn [bind].
  rewrite F_linear_no_bias.
  2:{ rewrite length_map, length_map2, length_map. fold (nrows Uhr).
      rewrite HU1, HSr, Nat.min_id. congruence. }
  cbn [bind].
  assert (Hadapter :
            map (fun w => dot w (map (fun a => a * c)
                                     (map2 Qcmult (map (fun w0 => dot w0 x') (rows Uhr)) Sr)))
                (rows Vr)
            = scale c (low_rank_apply Vr Sr Uhr x')).
  { unfold low_rank_apply, scale. rewrite map_map. apply map_ext.
    intros v. apply dot_map_mult_r. }
  rewrite Hadapter.
  apply ewise_same_length.
  rewrite length_map2, length_scale. unfold low_rank_apply.
  rewrite !length_map. fold (nrows Vr). rewrite HVr1, Hlen. apply Nat.min_id.
Qed.

(** Without dropout the decomposed layer is off the original one by
    [c - 1] times the stored low-rank map, [c = alpha / rank]. *)
Corollary forward_decomposed_gap (c : Qc) (keep : nat -> bool) (x out : vec) :
  PiSSALinear.disabled self = false ->
  PiSSALinear.scaling self = Ok c ->
  nn.Dropout_forward (PiSSALinear.training self) keep (PiSSALinear.dropout self) x = x ->
  PiSSALinear.base_transform false (PiSSALinear.use_bias self)
    (PiSSALinear.weight self) (PiSSALinear.bias self) x = Ok out ->
  PiSSALinear.forward (decomposed self W Vr Sr Uhr) keep x
  = Ok (map2 Qcplus out (scale (c - 1) (low_rank_apply Vr Sr Uhr x))).
Proof.
  intros Hdis Hc Hdrop Hout.
  rewrite (forward_decomposed c keep x out Hdis Hc Hout), Hdrop.
  now rewrite map2_minus_plus_scale.
Qed.

(** With [alpha = rank] the scale is 1 and the decomposed layer computes
    what the original layer computed. *)
Corollary forward_decomposed_alpha_eq_rank (keep : nat -> bool) (x out : vec) :
  PiSSALinear.disabled self = false ->
  PiSSALinear.scaling self = Ok 1 ->
  nn.Dropout_forward (PiSSALinear.training self) keep (PiSSALinear.dropout self) x = x ->
  PiSSALinear.base_transform false (PiSSALinear.use_bias self)
    (PiSSALinear.weight self) (PiSSALinear.bias self) x = Ok out ->
  PiSSALinear.forward (decomposed self W Vr Sr Uhr) keep x = Ok out.
Proof.
  intros Hdis Hc Hdrop Hout.
  rewrite (forward_decomposed_gap 1 keep x out Hdis Hc Hdrop Hout).
  replace (1 - 1) with 0 by ring. rewrite scale_0.
  pose proof Hout as Hshape. rewrite <- Hplain in Hshape at 1.
  apply (base_transform_ok_shape _ _ _ _ _ _ _ _ _ _ Hmat) in Hshape.
  destruct Hshape as [_ Hlen]. destruct HVr as (HVr1 & _).
  unfold low_rank_apply. rewrite length_map. fold (nrows Vr).
  rewrite HVr1, <- Hlen. now rewrite map2_plus_zeros.
Qed.

End Decomposition.

(** ** The exact-SVD path *)

Lemma slice_len_le (k : Z) (n : nat) : (slice_len k n <= n)%nat.
Proof. unfold slice_len. destruct (k <? 0)%Z; lia. Qed.

Lemma slice_len_nat (r n : nat) : (r <= n)%nat -> slice_len (Z.of_nat r) n = r.
Proof.
  intros H. unfold slice_len.
  destruct (Z.ltb_spec (Z.of_nat r) 0); [lia|]. rewrite Nat2Z.id. lia.
Qed.

Lemma length_slice_to {A : Type} (k : Z) (l : list A) :
  length (slice_to k l) = slice_len k (length l).
Proof.
  unfold slice_to. rewrite length_firstn.
  pose proof (slice_len_le k (length l)). lia.
Qed.

Lemma cols_to_shape (k : Z) (M : mat) :
  well_formed M = true ->
  nrows (cols_to k M) = nrows M
  /\ ncols (cols_to k M) = slice_len k (ncols M)
  /\ well_formed (cols_to k M) = true.
Proof.
  intros H. apply well_formed_Forall in H. unfold cols_to, nrows. cbn [rows ncols].
  rewrite length_map. repeat split.
  apply well_formed_Forall. cbn [rows ncols]. apply Forall_map.
  eapply Forall_impl; [|exact H]. cbn beta. intros row Hrow.
  rewrite length_firstn, Hrow.
  pose proof (slice_len_le k (ncols M)). lia.
Qed.

Lemma rows_to_shape (k : Z) (M : mat) :
  well_formed M = true ->
  nrows (rows_to k M) = slice_len k (nrows M)
  /\ ncols (rows_to k M) = ncols M
  /\ well_formed (rows_to k M) = true.
Proof.
  intros H. apply well_formed_Forall in H. unfold rows_to, nrows. cbn [rows ncols].
  rewrite length_slice_to. repeat split.
  apply well_formed_Forall. cbn [rows ncols]. unfold slice_to.
  rewrite Forall_forall in *. intros row Hin. apply H.
  rewrite <- (firstn_skipn (slice_len k (length (rows M))) (rows M)).
  apply in_or_app. now left.
Qed.

Lemma map2_mult_div (c : Qc) (u s : vec) :
  map2 Qcmult u (map (fun a => a / c) s)
  = map (fun a => a * / c) (map2 Qcmult u s).
Proof.
  revert s; induction u as [|a u IH]; intros [|b s]; simpl; auto.
  rewrite IH. f_equal. unfold Qcdiv. ring.
Qed.

(** Storing the singular values divided by [c] divides the low-rank map by
    [c]. *)
Lemma low_rank_apply_div (c : Qc) (V : mat) (s : vec) (U : mat) (y : vec) :
  low_rank_apply V (map (fun a => a / c) s) U y
  = scale (/ c) (low_rank_apply V s U y).
Proof.
  unfold low_rank_apply, scale. rewrite map_map. apply map_ext. intros v.
  now rewrite map2_mult_div, dot_map_mult_r.
Qed.

Lemma scale_scale (a b : Qc) (t : vec) : scale a (scale b t) = scale (a * b) t.
Proof.
  unfold scale. rewrite map_map. apply map_ext. intros q. ring.
Qed.

Section ExactPath.
Context {backend : Backend}.
Hypothesis cast_exact : forall (dt : dtype) (q : Qc), cast dt q = q.

Variables (self : PiSSALinear.t) (i o r : nat) (W U0 : mat) (s0 : vec) (V0 : mat).
Hypothesis Hmat : materialised self i o r W U0 s0 V0.
Hypothesis HW : well_formed W = true.
Hypothesis Hplain : PiSSALinear._quantize_base self = false.
Hypothesis Hrank : PiSSALinear.rank self = Z.of_nat r.

(** The answer of [torch.linalg.svd]: [k] singular triples, [r <= k]. *)
Variables (k : nat) (V : mat) (S : vec) (Uh : mat).
Hypothesis Hsvd : linalg_svd W = Ok (V, S, Uh).
Hypothesis HV : nrows V = o /\ ncols V = k /\ well_formed V = true.
Hypothesis HS : length S = k.
Hypothesis HUh : nrows Uh = k /\ ncols Uh = i /\ well_formed Uh = true.
Hypothesis Hrk : (r <= k)%nat.

Variable c : Qc.
Hypothesis Hc : PiSSALinear.scaling self = Ok c.
Hypothesis Hc0 : c <> 0.

Lemma decompose_exact :
  PiSSALinear.decompose self PyNone W
  = Ok (cols_to (PiSSALinear.rank self) V,
        map (fun a => a / c) (slice_to (PiSSALinear.rank self) S),
        rows_to (PiSSALinear.rank self) Uh).
Proof.
  unfold PiSSALinear.decompose. rewrite Hsvd. cbn [bind]. rewrite Hc. cbn [bind].
  unfold PiSSALinear.div_.
  unfold Qc_eq_bool. destruct (Qc_eq_dec c 0); [contradiction|]. reflexivity.
Qed.

(** The layer after [initialize_pissa()] on the exact-SVD path, without
    dropout: its output is the original output plus [1 - rank / alpha] times
    the rank-[r] truncation of the decomposition applied to the input. *)
Theorem exact_svd_then_forward (keep : nat -> bool) (x out : vec) :
  PiSSALinear.disabled self = false ->
  nn.Dropout_forward (PiSSALinear.training self) keep (PiSSALinear.dropout self) x = x ->
  PiSSALinear.base_transform false (PiSSALinear.use_bias self)
    (PiSSALinear.weight self) (PiSSALinear.bias self) x = Ok out ->
  exists self',
    PiSSALinear.initialize_pissa PyNone self = (Ok tt, self')
    /\ PiSSALinear.forward self' keep x
       = Ok (map2 Qcplus out
               (scale (1 - / c)
                      (low_rank_apply (cols_to (PiSSALinear.rank self) V)
                                      (slice_to (PiSSALinear.rank self) S)
                                      (rows_to (PiSSALinear.rank self) Uh) x))).
Proof.
  intros Hdis Hdrop Hout.
  destruct HV as (HV1 & HV2 & HV3). destruct HUh as (HU1 & HU2 & HU3).
  destruct (cols_to_shape (PiSSALinear.rank self) V HV3) as (Hc1 & Hc2 & Hc3).
  destruct (rows_to_shape (PiSSALinear.rank self) Uh HU3) as (Hr1 & Hr2 & Hr3).
  rewrite Hrank in Hc1, Hc2, Hc3, Hr1, Hr2, Hr3.
  rewrite HV2, slice_len_nat in Hc2 by exact Hrk.
  rewrite HU1, slice_len_nat in Hr1 by exact Hrk.
  assert (HSl : length (map (fun a => a / c) (slice_to (Z.of_nat r) S)) = r).
  { rewrite length_map, length_slice_to, HS. now apply slice_len_nat. }
  pose proof decompose_exact as Hdec. rewrite Hrank in Hdec. rewrite Hrank.
  eexists. split.
  - apply (initialize_pissa_decomposed cast_exact self i o r W U0 s0 V0 Hmat HW Hplain
             _ _ _ (conj (eq_trans Hc1 HV1) (conj Hc2 Hc3)) HSl
             (conj Hr1 (conj (eq_trans Hr2 HU2) Hr3)) PyNone Hdec).
  - rewrite (forward_decomposed_gap self i o r W U0 s0 V0 Hmat HW Hplain
               _ _ _ (conj (eq_trans Hc1 HV1) (conj Hc2 Hc3)) HSl
               (conj Hr1 (conj (eq_trans Hr2 HU2) Hr3)) c keep x out Hdis Hc Hdrop Hout).
    rewrite low_rank_apply_div, scale_scale.
    do 3 f_equal. field. exact Hc0.
Qed.

(** In exact arithmetic: when the truncation reproduces [W] at [x] (an
    exact SVD with [rank = min(out_dim, in_dim)]), the layer returns the
    original output plus [1 - rank / alpha] times [W x]. *)
Corollary exact_svd_full_rank_then_forward (keep : nat -> bool) (x out : vec) :
  PiSSALinear.disabled self = false ->
  nn.Dropout_forward (PiSSALinear.training self) keep (PiSSALinear.dropout self) x = x ->
  PiSSALinear.base_transform false (PiSSALinear.use_bias self)
    (PiSSALinear.weight self) (PiSSALinear.bias self) x = Ok out ->
  low_rank_apply (cols_to (PiSSALinear.rank self) V)
                 (slice_to (PiSSALinear.rank self) S)
                 (rows_to (PiSSALinear.rank self) Uh) x
  = map (fun w => dot w x) (rows W) ->
  exists self',
    PiSSALinear.initialize_pissa PyNone self = (Ok tt, self')
    /\ PiSSALinear.forward self' keep x
       = Ok (map2 Qcplus out (scale (1 - / c) (map (fun w => dot w x) (rows W)))).
Proof.
  intros Hdis Hdrop Hout Hrec.
  destruct (exact_svd_then_forward keep x out Hdis Hdrop Hout) as [self' [H1 H2]].
  exists self'. split; [exact H1|]. now rewrite H2, Hrec.
Qed.

End ExactPath.

(** ** The layers at concrete inputs *)

(** The tabulated decomposition of [W31] is a singular value decomposition:
    the factors multiply back to [W31], the singular vectors are the
    identity and the singular values are positive and descending. *)
Lemma svd_W31 :
  linalg_svd (Backend := exact_backend) W31
  = Ok (identity_mat 2, [Qz 3; 1], identity_mat 2)
  /\ (VS <- matmul (identity_mat 2) (diag [Qz 3; 1]) ;; matmul VS (identity_mat 2))
     = Ok W31.
Proof. split; reflexivity. Qed.

(** C1, at [in_dim = out_dim = rank = 2], [alpha = 4] and the weight
    [[3, 0], [0, 1]].  [initialize_pissa()] succeeds on the exact-SVD path;
    it stores the singular values divided by [alpha / rank = 2] and the
    residual computed from these divided values, [[3/2, 0], [0, 1/2]].  The
    total transform of the layer is then [[9/2, 0], [0, 3/2]], not the
    original weight, and [forward] maps [[1, 1]] to [[9/2, 3/2]] where the
    original weight gives [[3, 1]]. *)
Theorem initialize_pissa_2x2_overshoots_original_weight :
  PiSSALinear.initialize_pissa (backend := exact_backend) PyNone loaded_2x2
  = (Ok tt, decomposed_2x2)
  /\ PiSSALinear.weight loaded_2x2 = RealTensor float32 W31
  /\ PiSSALinear.pissa_s decomposed_2x2
     = RealTensor float32 [Q2Qc (3 # 2); Q2Qc (1 # 2)]
  /\ PiSSALinear.weight decomposed_2x2
     = RealTensor float32 (mkMat 2 [[Q2Qc (3 # 2); 0]; [0; Q2Qc (1 # 2)]])
  /\ total_weight decomposed_2x2
     = Ok (mkMat 2 [[Q2Qc (9 # 2); 0]; [0; Q2Qc (3 # 2)]])
  /\ total_weight decomposed_2x2 <> Ok W31
  /\ (forall keep : nat -> bool,
         PiSSALinear.forward decomposed_2x2 keep x11
         = Ok [Q2Qc (9 # 2); Q2Qc (3 # 2)])
  /\ F_linear x11 W31 None = Ok [Qz 3; 1].
Proof.
  repeat split; try reflexivity.
  intros H. apply (f_equal (fun r => match r with
                                     | Ok M => map (map this) (rows M)
                                     | Raise _ => []
                                     end)) in H.
  vm_compute in H. discriminate.
Qed.

(** C2, at a source with a bias and at a source with a quantised base.
    [from_lora_linear] returns a variant for both: the two [ValueError]
    objects are never raised.  The variant built from the biased source has
    no bias, the one built from the quantised source has a plain base. *)
Theorem from_lora_linear_returns_for_bias_and_quantized_base :
  (exists src new_linear,
      layer_bias = Ok src
      /\ PiSSALinear.use_bias src = true
      /\ PiSSALinear.bias src <> None
      /\ QATPiSSALinear.from_lora_linear (backend := exact_backend) cpu_env src None None
         = Ok new_linear
      /\ PiSSALinear.bias (QATPiSSALinear.super new_linear) = None)
  /\
  (exists src new_linear,
      layer_nf4 = Ok src
      /\ PiSSALinear._quantize_base src = true
      /\ QATPiSSALinear.from_lora_linear (backend := exact_backend) cpu_env src None None
         = Ok new_linear
      /\ PiSSALinear._quantize_base (QATPiSSALinear.super new_linear) = false).
Proof.
  split.
  - eexists. eexists. split; [reflexivity|]. split; [reflexivity|].
    split; [discriminate|]. split; reflexivity.
  - eexists. eexists. split; [reflexivity|]. split; [reflexivity|].
    split; reflexivity.
Qed.

(** C8 fails on the code: each of these constructions succeeds, with
    [alpha = 0], [alpha = -1], [rank = 0], [in_dim = 0], [out_dim = 0],
    [dropout = 1] and [dropout = -1/2]. *)
Lemma init_accepts_unvalidated_parameters :
  is_ok (PiSSALinear.__init__ (backend := exact_backend) cpu_env
           1 1 1 0 0 false false []) = true
  /\ is_ok (PiSSALinear.__init__ (backend := exact_backend) cpu_env
              1 1 1 (Qz (-1)) 0 false false []) = true
  /\ is_ok (PiSSALinear.__init__ (backend := exact_backend) cpu_env
              1 1 0 1 0 false false []) = true
  /\ is_ok (PiSSALinear.__init__ (backend := exact_backend) cpu_env
              0 1 1 1 0 false false []) = true
  /\ is_ok (PiSSALinear.__init__ (backend := exact_backend) cpu_env
              1 0 1 1 0 false false []) = true
  /\ is_ok (PiSSALinear.__init__ (backend := exact_backend) cpu_env
              1 1 1 1 1 false false []) = true
  /\ is_ok (PiSSALinear.__init__ (backend := exact_backend) cpu_env
              1 1 1 1 (Q2Qc (-1 # 2)) false false []) = true.
Proof. repeat split; reflexivity. Qed.

(** A layer of rank zero can be built, and its [forward] then fails on the
    division [alpha / rank] although the base transform succeeds. *)
Lemma forward_rank_zero :
  exists self,
    PiSSALinear.__init__ (backend := exact_backend) cpu_env 1 1 0 1 0 false false []
    = Ok self
    /\ PiSSALinear.forward self (fun _ => true) [1]
       = Raise (ZeroDivisionError msg_division_by_zero)
    /\ is_ok (PiSSALinear.base_transform false false (PiSSALinear.weight self)
                                         (PiSSALinear.bias self) [1]) = true.
Proof. eexists. repeat split; reflexivity. Qed.


(** ** The general statements at concrete layers *)

(** C3 on [PiSSALinear(2, 3, rank=1, alpha=4, dropout=0.5, use_bias=True)]. *)
Lemma forward_after_construction_witness :
  layer_bias = Ok (get_ok blank layer_bias)
  /\ PiSSALinear.pissa_s (get_ok blank layer_bias) = RealTensor float32 [0]
  /\ forall (keep : nat -> bool) (x : vec),
      PiSSALinear.forward (get_ok blank layer_bias) keep x
      = PiSSALinear.base_transform false true
          (PiSSALinear.weight (get_ok blank layer_bias))
          (PiSSALinear.bias (get_ok blank layer_bias)) x.
Proof.
  split; [reflexivity|].
  pose proof (@forward_after_construction_is_base_transform exact_backend
                cpu_env 2 3 1 (Qz 4) (Q2Qc (1 # 2)) true false []
                (get_ok blank layer_bias) eq_refl) as [Hs [_ Hf]].
  split; [exact Hs|].
  apply Hf. discriminate.
Defined.

(** C4 on a disabled [PiSSALinear] and a disabled [QATPiSSALinear]. *)
Lemma forward_disabled_witness :
  let self := PiSSALinear.set_disabled true decomposed_2x2 in
  let qat := QATPiSSALinear.mk self (QATPiSSALinear.FakeQuantizer (config_group 2))
                               QATPiSSALinear.Identity in
  PiSSALinear.disabled self = true
  /\ (forall keep x,
         PiSSALinear.forward self keep x
         = PiSSALinear.base_transform false false (PiSSALinear.weight self) None x)
  /\ (forall keep x,
         QATPiSSALinear.forward (backend := exact_backend) qat keep x
         = QATPiSSALinear.base_transform (backend := exact_backend)
             (QATPiSSALinear.FakeQuantizer (config_group 2))
             QATPiSSALinear.Identity (PiSSALinear.weight self) x).
Proof.
  intros self qat. split; [reflexivity|]. split; intros keep x.
  - apply (proj1 (@forward_disabled_is_base_transform exact_backend) self keep x).
    reflexivity.
  - apply (proj2 (@forward_disabled_is_base_transform exact_backend) qat keep x).
    reflexivity.
Defined.

(** C5 on keywords that are all falsy. *)
Lemma init_falsy_kwargs_witness :
  let kw := [("block_size"%string, PyNone); ("scaler_block_size"%string, PyInt 0)] in
  any (values kw) = false
  /\ PiSSALinear.__init__ (backend := exact_backend) cpu_env 2 3 1 (Qz 4) 0 false false kw
     = PiSSALinear.__init__ (backend := exact_backend) cpu_env 2 3 1 (Qz 4) 0 false false [].
Proof.
  intros kw. split; [reflexivity|].
  apply (proj2 (@init_rejects_exactly_truthy_quantization_kwargs exact_backend
                  cpu_env 2 3 1 (Qz 4) 0 false kw)).
  reflexivity.
Defined.

(** C8 on [PiSSALinear(in_dim=0, out_dim=1, rank=0, alpha=-1, dropout=1)],
    which is built, and on a negative rank, which is not. *)
Lemma init_unvalidated_parameters_witness :
  is_ok (PiSSALinear.__init__ (backend := exact_backend) cpu_env
           2 2 (-1) (Qz 4) 0 false false []) = false
  /\ linear_error cpu_env 0 1 false = None
  /\ adapter_error cpu_env 0 1 0 = None
  /\ exists self,
      PiSSALinear.__init__ (backend := exact_backend) cpu_env
                           0 1 0 (Qz (-1)) 1 false false [] = Ok self
      /\ PiSSALinear.alpha self = Qz (-1)
      /\ PiSSALinear.dropout self = nn.Dropout 1.
Proof.
  split.
  - apply (proj1 (@init_rejects_negative_sizes_and_dropout_above_1_only
                    exact_backend cpu_env 2 2 (-1) (Qz 4) 0 false false [])).
    right. right. left. reflexivity.
  - split; [reflexivity|]. split; [reflexivity|].
    exact (proj2 (proj2 (@init_rejects_negative_sizes_and_dropout_above_1_only
                           exact_backend cpu_env 0 1 0 (Qz (-1)) 1 false false []))
                 eq_refl eq_refl eq_refl eq_refl (Qcle_refl 1)).
Defined.


(** C7 on a materialised layer whose [pissa_s] alone is on the meta device. *)
Lemma initialize_pissa_on_meta_witness :
  let self := PiSSALinear.set_pissa_s (MetaTensor float32 [2%nat]) loaded_2x2 in
  is_meta (PiSSALinear.weight self) = false
  /\ is_meta (PiSSALinear.pissa_s self) = true
  /\ PiSSALinear.initialize_pissa (backend := exact_backend) PyNone self
     = (Raise (RuntimeError msg_meta_device), self).
Proof.
  intros self. split; [reflexivity|]. split; [reflexivity|].
  apply (@initialize_pissa_on_meta_raises_and_keeps_state exact_backend PyNone self).
  right. right. left. reflexivity.
Defined.

(** C9 on [QATPiSSALinear(2, 3, rank=1, alpha=4, dropout=0.5)]. *)
Lemma qat_forward_without_configs_witness :
  let base := get_ok blank (PiSSALinear.__init__ (backend := exact_backend) cpu_env
                              2 3 1 (Qz 4) (Q2Qc (1 # 2)) false false []) in
  let self := QATPiSSALinear.mk base QATPiSSALinear.Identity QATPiSSALinear.Identity in
  QATPiSSALinear.__init__ (backend := exact_backend) cpu_env 2 3 1 (Qz 4)
                          (Q2Qc (1 # 2)) None None = Ok self
  /\ forall keep x,
      QATPiSSALinear.forward (backend := exact_backend) self keep x
      = PiSSALinear.forward base keep x.
Proof.
  intros base self. split; [reflexivity|]. intros keep x.
  destruct (proj1 (@qat_forward_without_configs_is_pissa_forward exact_backend)
                  cpu_env 2%Z 3%Z 1%Z (Qz 4) (Q2Qc (1 # 2)) self eq_refl)
    as (_ & Ha & Hw & Hb & _ & Hq).
  exact (proj2 (@qat_forward_without_configs_is_pissa_forward exact_backend)
               self keep x Ha Hw Hb Hq).
Defined.

(** C10 on the decomposed 2 x 2 layer, whose [pissa_s] is [3/2, 1/2]: the
    variant has [pissa_s = [0, 0]] and the source's other three tensors. *)
Lemma from_lora_linear_resets_pissa_s_witness :
  exists new_linear,
    QATPiSSALinear.from_lora_linear (backend := exact_backend) cpu_env
                                    decomposed_2x2 None None
    = Ok new_linear
    /\ PiSSALinear.pissa_s decomposed_2x2
       = RealTensor float32 [Q2Qc (3 # 2); Q2Qc (1 # 2)]
    /\ PiSSALinear.pissa_s (QATPiSSALinear.super new_linear)
       = RealTensor float32 [0; 0]
    /\ PiSSALinear.weight (QATPiSSALinear.super new_linear)
       = PiSSALinear.weight decomposed_2x2.
Proof.
  eexists. split; [reflexivity|]. split; [reflexivity|].
  split.
  - exact (proj1 (@from_lora_linear_resets_pissa_s exact_backend cpu_env
                    decomposed_2x2 None None _ eq_refl)).
  - reflexivity.
Defined.


(** * Further properties *)

(** ** Shapes through the forward pass *)

(** On a materialised layer the base transform succeeds on the inputs of
    length [i] and on no other. *)
Lemma base_transform_materialised (self : PiSSALinear.t) (i o r : nat)
      (W U : mat) (s : vec) (V : mat) (x : vec) :
  materialised self i o r W U s V ->
  (length x = i ->
   exists out,
     PiSSALinear.base_transform (PiSSALinear._quantize_base self)
       (PiSSALinear.use_bias self) (PiSSALinear.weight self)
       (PiSSALinear.bias self) x = Ok out
     /\ length out = o)
  /\ (length x <> i ->
      PiSSALinear.base_transform (PiSSALinear._quantize_base self)
        (PiSSALinear.use_bias self) (PiSSALinear.weight self)
        (PiSSALinear.bias self) x = Raise (RuntimeError msg_shape)).
Proof.
  intros [[dtw Hw] _ _ _ Hbias [HWr HWc] _ _ _].
  unfold PiSSALinear.base_transform, linear_nf4. rewrite Hw. cbn [values_of bind].
  split.
  - intros Hx.
    assert (HWx : length (map (fun w => dot w x) (rows W)) = o)
      by (rewrite length_map; exact HWr).
    destruct (PiSSALinear.bias self) as [[dt sh|dt b]|]; [contradiction| |].
    + destruct Hbias as [Hub Hb]. rewrite Hub.
      destruct (PiSSALinear._quantize_base self).
      * rewrite F_linear_no_bias by congruence. cbn [bind values_of].
        rewrite ewise_same_length by congruence.
        eexists. split; [reflexivity|].
        rewrite length_map2, HWx, Hb. apply Nat.min_id.
      * cbn [nn.bias_values values_of bind]. unfold F_linear.
        rewrite Hx, HWc, Nat.eqb_refl, HWx, Hb, Nat.eqb_refl. cbn [orb].
        eexists. split; [reflexivity|].
        rewrite length_map2, length_expand_vec, HWx. apply Nat.min_id.
    + rewrite Hbias.
      destruct (PiSSALinear._quantize_base self);
        cbn [nn.bias_values bind]; rewrite F_linear_no_bias by congruence;
        cbn [bind]; eexists; split; try reflexivity; exact HWx.
  - intros Hx.
    assert (HF : forall b, F_linear x W b = Raise (RuntimeError msg_shape))
      by (intros b; apply F_linear_bad_shape; congruence).
    destruct (PiSSALinear._quantize_base self).
    + rewrite HF. reflexivity.
    + destruct (PiSSALinear.bias self) as [[dt sh|dt b]|]; [contradiction| |];
        cbn [nn.bias_values values_of bind]; apply HF.
Qed.

(** X2.  On a materialised layer of non-zero rank, [forward] accepts
    exactly the inputs of length [in_dim]: it returns [out_dim] entries for
    them and raises the shape [RuntimeError] for every other length,
    whatever the parameters hold, enabled or disabled, quantised or not. *)
Theorem forward_shape_contract (self : PiSSALinear.t) (i o r : nat)
        (W U : mat) (s : vec) (V : mat) (keep : nat -> bool) (x : vec) :
  materialised self i o r W U s V ->
  PiSSALinear.rank self <> 0%Z ->
  (length x = i ->
   exists y, PiSSALinear.forward self keep x = Ok y /\ length y = o)
  /\ (length x <> i ->
      PiSSALinear.forward self keep x = Raise (RuntimeError msg_shape)).
Proof.
  intros Hm Hr. rewrite forward_unfold.
  destruct (base_transform_materialised self i o r W U s V x Hm) as [Hok Hbad].
  split.
  - intros Hx. destruct (Hok Hx) as [out [-> Hout]]. cbn [bind].
    destruct (PiSSALinear.disabled self); [now exists out|].
    destruct Hm as [_ [dtu Hu] [dts Hs] [dtv Hv] _ _ [HUr HUc] Hsl [HVr HVc]].
    rewrite Hu, Hs, Hv. unfold nn.Linear_forward.
    cbn [nn.weight nn.bias values_of nn.bias_values bind].
    rewrite F_linear_no_bias by (rewrite length_Dropout_forward; congruence).
    cbn [bind].
    rewrite ewise_same_length by (rewrite length_map; fold (nrows U); congruence).
    cbn [bind]. unfold PiSSALinear.scaling.
    destruct (Z.eqb_spec (PiSSALinear.rank self) 0); [contradiction|]. cbn [bind].
    rewrite F_linear_no_bias.
    2:{ rewrite length_map, length_map2, length_map. fold (nrows U).
        rewrite HUr, Hsl, Nat.min_id. congruence. }
    cbn [bind].
    rewrite ewise_same_length by (rewrite length_map; fold (nrows V); congruence).
    eexists. split; [reflexivity|].
    rewrite length_map2, length_map. fold (nrows V). rewrite Hout, HVr.
    apply Nat.min_id.
  - intros Hx. rewrite (Hbad Hx). reflexivity.
Qed.

(** ** What construction establishes *)

Lemma well_formed_tabulate (r c : nat) (f : nat -> nat -> Qc) :
  well_formed (tabulate r c f) = true.
Proof.
  apply well_formed_Forall. unfold tabulate. cbn [rows ncols].
  apply Forall_map. apply Forall_forall. intros k _. apply length_tabulate_vec.
Qed.

Section Established.
Context {backend : Backend}.

(** X1.  A layer constructed on a real device stores its arguments
    unchanged, is enabled, and holds a [weight] of shape
    [out_dim x in_dim], a [pissa_u.weight] of shape [rank x in_dim], a zero
    [pissa_s] of length [rank], a [pissa_v.weight] of shape
    [out_dim x rank], a bias of length [out_dim] exactly when [use_bias] is
    set, and no bias on the two adapter maps. *)
Theorem init_establishes_shapes
        (env : Env) (in_dim out_dim rank : Z) (alpha dropout : Qc)
        (use_bias quantize_base : bool) (quantization_kwargs : kwargs)
        (self : PiSSALinear.t) :
  PiSSALinear.__init__ env in_dim out_dim rank alpha dropout
                       use_bias quantize_base quantization_kwargs
  = Ok self ->
  default_device env <> meta ->
  (0 <= in_dim)%Z /\ (0 <= out_dim)%Z /\ (0 <= rank)%Z
  /\ PiSSALinear.in_dim self = in_dim
  /\ PiSSALinear.out_dim self = out_dim
  /\ PiSSALinear.rank self = rank
  /\ PiSSALinear.alpha self = alpha
  /\ PiSSALinear.disabled self = false
  /\ exists W U V,
      materialised self (Z.to_nat in_dim) (Z.to_nat out_dim) (Z.to_nat rank)
                   W U (zeros (Z.to_nat rank)) V
      /\ well_formed W = true /\ well_formed U = true /\ well_formed V = true.
Proof.
  rewrite init_spec.
  destruct (negb quantize_base && any (values quantization_kwargs));
    [discriminate|].
  destruct (linear_error env in_dim out_dim use_bias) eqn:Hoi; [discriminate|].
  apply linear_error_nonneg in Hoi. destruct Hoi as [Ho Hi].
  destruct (if quantize_base then _ else _) as [weight|e] eqn:Hweight;
    cbn [bind]; [|discriminate].
  destruct (Qc_ltb 1 dropout); [discriminate|].
  destruct (adapter_error env in_dim out_dim rank) eqn:Hr; [discriminate|].
  apply adapter_error_nonneg in Hr.
  intros H Hdev; inversion H; subst; clear H. cbn.
  repeat (split; [assumption || reflexivity|]).
  assert (HW : exists Wm, weight = RealTensor (default_dtype env) Wm
                          /\ nrows Wm = Z.to_nat out_dim
                          /\ ncols Wm = Z.to_nat in_dim
                          /\ well_formed Wm = true).
  { revert Hweight. unfold fresh_matrix, to_nf4.
    destruct (default_device env); try contradiction;
      destruct quantize_base;
      try (destruct (nf4_reject _ _); [discriminate|]);
      intros E; inversion E; eexists; split; try reflexivity;
      rewrite ?nrows_tabulate; repeat split; apply well_formed_tabulate. }
  destruct HW as [Wm (-> & HWr & HWc & HWwf)].
  exists Wm, (tabulate (Z.to_nat rank) (Z.to_nat in_dim) (uniform_ env 4)),
    (tabulate (Z.to_nat out_dim) (Z.to_nat rank) (uniform_ env 5)).
  split; [|repeat split; auto using well_formed_tabulate].
  constructor; simpl;
    unfold fresh_matrix, fresh_zeros, fresh_vector;
    destruct (default_device env); try contradiction;
    try (eexists; reflexivity);
    rewrite ?nrows_tabulate, ?length_zeros; auto.
  all: destruct use_bias; auto; split; auto; apply length_tabulate_vec.
Qed.

End Established.

(** ** What [initialize_pissa] leaves alone *)

Lemma nrows_expand_mat (r c : nat) (M : mat) : nrows (expand_mat r c M) = r.
Proof.
  unfold expand_mat, nrows. cbn [rows].
  destruct (Nat.eqb_spec (length (map (expand_vec c) (rows M))) r); auto.
  apply repeat_length.
Qed.

Section Frame.
Context {backend : Backend}.

Lemma copy_keeps_layout (dst : tensor mat) (src : mat) (t : tensor mat) :
  copy_ dst src = Ok t ->
  tensor_dtype t = tensor_dtype dst /\ shape_of_mat t = shape_of_mat dst.
Proof.
  unfold copy_. destruct dst as [dt sh|dt v].
  - intros E; inversion E; auto.
  - destruct (_ && _); [|discriminate]. intros E; inversion E; subst.
    split; auto. cbn [shape_of_mat]. unfold to_dtype, map_mat, nrows. cbn [rows ncols].
    rewrite length_map. fold (nrows (expand_mat (length (rows v)) (ncols v) src)).
    now rewrite nrows_expand_mat.
Qed.

Lemma copy_vec_keeps_layout (dst : tensor vec) (src : vec) (t : tensor vec) :
  copy_vec_ dst src = Ok t ->
  tensor_dtype t = tensor_dtype dst /\ shape_of_vec t = shape_of_vec dst.
Proof.
  unfold copy_vec_. destruct dst as [dt sh|dt v].
  - intros E; inversion E; auto.
  - destruct (_ || _); [|discriminate]. intros E; inversion E; subst.
    split; auto. cbn [shape_of_vec]. now rewrite length_map, length_expand_vec.
Qed.

(** X5.  Whatever its outcome, [initialize_pissa] leaves the configuration
    untouched and the adapter tensors in their dtypes and shapes. *)
Theorem initialize_pissa_keeps_configuration_and_layout
        (fsvd_niter : pyvalue) (self : PiSSALinear.t) :
  let self' := snd (PiSSALinear.initialize_pissa fsvd_niter self) in
  same_configuration self' self
  /\ same_adapter_layout self' self
  /\ tensor_dtype (PiSSALinear.weight self') = tensor_dtype (PiSSALinear.weight self).
Proof.
  unfold PiSSALinear.initialize_pissa, bindM, get, put, lift, throw.
  destruct (any_bool _).
  { cbn. unfold same_configuration, same_adapter_layout. tauto. }
  destruct (values_of (PiSSALinear.weight self)) as [w|e].
  2:{ cbn. unfold same_configuration, same_adapter_layout. tauto. }
  destruct (PiSSALinear.decompose self fsvd_niter (to_dtype float32 w))
    as [[[Vr Sr] Uhr]|e].
  2:{ cbn. unfold same_configuration, same_adapter_layout. tauto. }
  cbv beta iota.
  destruct (copy_ (nn.weight (PiSSALinear.pissa_u self)) Uhr) as [u|e] eqn:Hu.
  2:{ cbn. unfold same_configuration, same_adapter_layout. tauto. }
  apply copy_keeps_layout in Hu. destruct Hu as [Hu1 Hu2].
  cbv beta iota. cbn [PiSSALinear.pissa_s PiSSALinear.set_pissa_u].
  destruct (copy_vec_ (PiSSALinear.pissa_s self) Sr) as [s|e] eqn:Hs.
  2:{ cbn. unfold same_configuration, same_adapter_layout. cbn. tauto. }
  apply copy_vec_keeps_layout in Hs. destruct Hs as [Hs1 Hs2].
  cbv beta iota.
  cbn [PiSSALinear.pissa_v PiSSALinear.set_pissa_s PiSSALinear.set_pissa_u].
  destruct (copy_ (nn.weight (PiSSALinear.pissa_v self)) Vr) as [v|e] eqn:Hv.
  2:{ cbn. unfold same_configuration, same_adapter_layout. cbn. tauto. }
  apply copy_keeps_layout in Hv. destruct Hv as [Hv1 Hv2].
  cbv beta iota.
  destruct (matmul Vr (diag Sr)) as [VS|e].
  2:{ cbn. unfold same_configuration, same_adapter_layout. cbn. tauto. }
  cbv beta iota.
  destruct (matmul VS Uhr) as [VSU|e].
  2:{ cbn. unfold same_configuration, same_adapter_layout. cbn. tauto. }
  cbv beta iota.
  destruct (ewise_mat Qcminus (to_dtype float32 w) VSU) as [residual|e].
  2:{ cbn. unfold same_configuration, same_adapter_layout. cbn. tauto. }
  cbv beta iota.
  destruct (PiSSALinear.copy_weight_ _ _) as [w'|e] eqn:Hw.
  2:{ cbn. unfold same_configuration, same_adapter_layout. cbn. tauto. }
  cbn. unfold same_configuration, same_adapter_layout. cbn.
  repeat split; auto.
  revert Hw. unfold PiSSALinear.copy_weight_. cbn.
  destruct (PiSSALinear._quantize_base self).
  - destruct (PiSSALinear.weight self) as [dt sh|dt v0].
    + intros E; inversion E; reflexivity.
    + destruct (nf4_copy_ v0 _); cbn; [|discriminate].
      intros E; inversion E; reflexivity.
  - intros E. now apply copy_keeps_layout in E.
Qed.

End Frame.

(** ** [initialize_pissa]: the arguments it rejects *)

Section Rejected.
Context {backend : Backend}.

(** X6.  With four materialised tensors, an [fsvd_niter] that is a negative
    integer, a float or a string makes [initialize_pissa] raise the
    [RuntimeError] on the number of iterations, before any write. *)
Theorem initialize_pissa_rejects_bad_fsvd_niter
        (fsvd_niter : pyvalue) (self : PiSSALinear.t) :
  is_meta (PiSSALinear.weight self) = false ->
  is_meta (nn.weight (PiSSALinear.pissa_u self)) = false ->
  is_meta (PiSSALinear.pissa_s self) = false ->
  is_meta (nn.weight (PiSSALinear.pissa_v self)) = false ->
  bad_fsvd_niter fsvd_niter = true ->
  PiSSALinear.initialize_pissa fsvd_niter self
  = (Raise (RuntimeError msg_fsvd_niter), self).
Proof.
  intros Hw Hu Hs Hv Hbad.
  unfold PiSSALinear.initialize_pissa, bindM, get, put, lift, throw, any_bool.
  cbn [existsb]. rewrite Hw, Hu, Hs, Hv. cbn [orb].
  destruct (PiSSALinear.weight self) as [dt sh|dt w]; [discriminate|].
  cbn [values_of].
  destruct fsvd_niter as [| b | n | q | str]; try discriminate;
    unfold PiSSALinear.decompose; cbn [bad_fsvd_niter] in Hbad.
  - apply Z.ltb_lt in Hbad.
    destruct (Z.leb_spec 0 n); [lia|]. reflexivity.
  - reflexivity.
  - reflexivity.
Qed.

(** X7.  On a layer of rank zero the decomposition is computed and then the
    division [alpha / rank] fails: [initialize_pissa] raises
    [ZeroDivisionError] and has written nothing. *)
Theorem initialize_pissa_rank_zero_raises
        (self : PiSSALinear.t) (dt : dtype) (W : mat) (usv : mat * vec * mat) :
  PiSSALinear.weight self = RealTensor dt W ->
  is_meta (nn.weight (PiSSALinear.pissa_u self)) = false ->
  is_meta (PiSSALinear.pissa_s self) = false ->
  is_meta (nn.weight (PiSSALinear.pissa_v self)) = false ->
  PiSSALinear.rank self = 0%Z ->
  linalg_svd (to_dtype float32 W) = Ok usv ->
  PiSSALinear.initialize_pissa PyNone self
  = (Raise (ZeroDivisionError msg_division_by_zero), self).
Proof.
  intros Hw Hu Hs Hv Hr Hsvd.
  unfold PiSSALinear.initialize_pissa, bindM, get, put, lift, throw, any_bool.
  cbn [existsb]. rewrite Hw, Hu, Hs, Hv. cbn [is_meta orb values_of].
  unfold PiSSALinear.decompose. rewrite Hsvd. destruct usv as [[V S] Uh].
  cbn [bind]. unfold PiSSALinear.scaling. rewrite Hr. reflexivity.
Qed.

End Rejected.

(** ** [initialize_pissa]: what a successful call establishes *)

Section Established2.
Context {backend : Backend}.
Hypothesis cast_exact : forall (dt : dtype) (q : Qc), cast dt q = q.

Variables (self : PiSSALinear.t) (i o r : nat) (W U0 : mat) (s0 : vec) (V0 : mat).
Hypothesis Hmat : materialised self i o r W U0 s0 V0.
Hypothesis HW : well_formed W = true.
Hypothesis Hplain : PiSSALinear._quantize_base self = false.

Variables (fsvd_niter : pyvalue) (Vr : mat) (Sr : vec) (Uhr : mat).
Hypothesis Hdec : PiSSALinear.decompose self fsvd_niter W = Ok (Vr, Sr, Uhr).
Hypothesis HVr : nrows Vr = o /\ ncols Vr = r /\ well_formed Vr = true.
Hypothesis HSr : length Sr = r.
Hypothesis HUhr : nrows Uhr = r /\ ncols Uhr = i /\ well_formed Uhr = true.

(** X8.  A successful [initialize_pissa] stores the decomposition and the
    residual, and the layer it leaves satisfies the shape invariant with the
    same dimensions. *)
Theorem initialize_pissa_keeps_shape_invariant :
  let residual :=
    sub_mat W (mkMat (ncols Uhr)
                     (map (fun v => lincomb (ncols Uhr)
                                      (lincomb (length Sr) v (diag_rows Sr))
                                      (rows Uhr))
                          (rows Vr))) in
  exists self',
    PiSSALinear.initialize_pissa fsvd_niter self = (Ok tt, self')
    /\ materialised self' i o r residual Uhr Sr Vr
    /\ well_formed residual = true.
Proof.
  destruct HVr as (HV1 & HV2 & HV3). destruct HUhr as (HU1 & HU2 & HU3).
  eexists. split.
  - apply (initialize_pissa_decomposed cast_exact self i o r W U0 s0 V0 Hmat HW Hplain
             Vr Sr Uhr HVr HSr HUhr fsvd_niter Hdec).
  - destruct Hmat as [[dtw Hw] [dtu Hu] [dts Hs] [dtv Hv] Hbias
                      [HWr HWc] [HUr HUc] Hsl [HVr' HVc]].
    assert (HP : Forall (fun row => length row = ncols W)
                        (map (fun v => lincomb (ncols Uhr)
                                         (lincomb (length Sr) v (diag_rows Sr))
                                         (rows Uhr)) (rows Vr))).
    { apply Forall_map. apply Forall_forall. intros v _.
      rewrite HWc, <- HU2. apply length_lincomb. now apply well_formed_Forall. }
    split.
    + constructor; unfold decomposed; cbn;
        try (eexists; reflexivity); auto.
      unfold nrows. cbn. rewrite length_map, length_combine, length_map.
      fold (nrows W) (nrows Vr). split; [lia|congruence].
    + apply well_formed_Forall. cbn [sub_mat ncols rows].
      apply sub_rows_length; auto. now apply well_formed_Forall.
Qed.

End Established2.

(** ** The adapter at zero *)

(** The adapter branch of [forward] on a materialised layer whose [pissa_s]
    is zero adds nothing to an output of the right length. *)
Lemma adapter_zero_s (self : PiSSALinear.t) (i o r : nat) (W U V : mat)
      (keep : nat -> bool) (x out : vec) :
  materialised self i o r W U (zeros r) V ->
  PiSSALinear.rank self <> 0%Z ->
  length x = i -> length out = o ->
  (lora_out <- nn.Linear_forward (PiSSALinear.pissa_u self)
                 (nn.Dropout_forward (PiSSALinear.training self) keep
                                     (PiSSALinear.dropout self) x) ;;
   s <- values_of (PiSSALinear.pissa_s self) ;;
   lora_out <- ewise Qcmult lora_out s ;;
   c <- PiSSALinear.scaling self ;;
   lora_out <- nn.Linear_forward (PiSSALinear.pissa_v self)
                 (map (fun a => a * c) lora_out) ;;
   ewise Qcplus out lora_out)
  = Ok out.
Proof.
  intros Hm Hr Hx Hout.
  destruct Hm as [_ [dtu Hu] [dts Hs] [dtv Hv] _ _ [HUr HUc] _ [HVr HVc]].
  rewrite Hu, Hs, Hv. unfold nn.Linear_forward.
  cbn [nn.weight nn.bias values_of nn.bias_values bind].
  rewrite F_linear_no_bias by (rewrite length_Dropout_forward; congruence).
  cbn [bind].
  rewrite ewise_same_length by (rewrite length_map, length_zeros; exact HUr).
  cbn [bind].
  assert (Hz : forall u : vec, length u = r -> map2 Qcmult u (zeros r) = zeros r).
  { intros u <-. apply map2_mult_zeros. }
  rewrite Hz by (rewrite length_map; exact HUr).
  unfold PiSSALinear.scaling.
  destruct (Z.eqb_spec (PiSSALinear.rank self) 0); [contradiction|]. cbn [bind].
  rewrite map_mult_zeros.
  rewrite F_linear_no_bias by (rewrite length_zeros; congruence).
  cbn [bind]. rewrite map_dot_zeros.
  rewrite ewise_same_length by (rewrite length_zeros; unfold nrows in HVr; congruence).
  unfold nrows in HVr. rewrite HVr, <- Hout. now rewrite map2_plus_zeros.
Qed.

Section Variant.
Context {backend : Backend}.

(** With two identity quantizers, no bias and a plain base, the variant's
    [forward] is that of the layer it extends. *)
Lemma qat_forward_identity (self : QATPiSSALinear.t) (keep : nat -> bool) (x : vec) :
  QATPiSSALinear.activation_fake_quantizer self = QATPiSSALinear.Identity ->
  QATPiSSALinear.weight_fake_quantizer self = QATPiSSALinear.Identity ->
  PiSSALinear.bias (QATPiSSALinear.super self) = None ->
  PiSSALinear._quantize_base (QATPiSSALinear.super self) = false ->
  QATPiSSALinear.forward self keep x
  = PiSSALinear.forward (QATPiSSALinear.super self) keep x.
Proof.
  intros Ha Hw Hb Hq.
  unfold QATPiSSALinear.forward, PiSSALinear.forward.
  rewrite Ha, Hw, Hb, Hq. simpl.
  destruct (values_of (PiSSALinear.weight (QATPiSSALinear.super self)));
    reflexivity.
Qed.

(** The constructor of the variant, in terms of its arguments. *)
Lemma qat_init_spec (env : Env) (i o r : Z) (a d : Qc)
      (ac wc : option FakeQuantizeConfig) :
  QATPiSSALinear.__init__ env i o r a d ac wc =
  match linear_error env i o false with
  | Some e => Raise e
  | None =>
  if Qc_ltb 1 d then Raise (ValueError msg_dropout_range)
  else
  match adapter_error env i o r with
  | Some e => Raise e
  | None =>
  if negb (torchao_qat env) then Raise (ValueError msg_torchao)
  else
    wq <- match wc with
          | Some config =>
              g <- group_size config ;;
              if (g =? 0)%Z then Raise (ZeroDivisionError msg_division_by_zero)
              else if negb (i mod g =? 0)%Z
                   then Raise (ValueError msg_group_size)
                   else Ok (QATPiSSALinear.FakeQuantizer config)
          | None => Ok QATPiSSALinear.Identity
          end ;;
    Ok (QATPiSSALinear.mk
          (PiSSALinear.mk i o r a false false false
             (fresh_matrix env 0 (Z.to_nat o) (Z.to_nat i)) None
             (if Qc_ltb 0 d then nn.Dropout d else nn.Identity)
             (nn.mkLinear (fresh_matrix env 4 (Z.to_nat r) (Z.to_nat i)) None)
             (fresh_zeros env (Z.to_nat r))
             (nn.mkLinear (fresh_matrix env 5 (Z.to_nat o) (Z.to_nat r)) None)
             false true)
          (match ac with
           | Some config => QATPiSSALinear.FakeQuantizer config
           | None => QATPiSSALinear.Identity
           end)
          wq)
  end
  end.
Proof.
  unfold QATPiSSALinear.__init__. rewrite init_spec. cbn [negb andb any values map existsb].
  destruct (linear_error _ _ _ _); [reflexivity|]. cbn [bind].
  destruct (Qc_ltb 1 d); [reflexivity|].
  destruct (adapter_error _ _ _ _); [reflexivity|]. cbn [bind].
  destruct (torchao_qat env); reflexivity.
Qed.

End Variant.

Section VariantProperties.
Context {backend : Backend}.

(** X15.  The variant's constructor succeeds exactly when the tensors of
    the layer can be created (no size is negative or out of range, and the
    allocator serves them), the dropout probability is at most 1, torchao
    is available, and there is no weight config or it is a per-group config
    whose group size is a non-zero divisor of [in_dim]. *)
Theorem qat_init_succeeds_iff
        (env : Env) (in_dim out_dim rank : Z) (alpha dropout : Qc)
        (activation_qat_config weight_qat_config : option FakeQuantizeConfig) :
  is_ok (QATPiSSALinear.__init__ env in_dim out_dim rank alpha dropout
                                 activation_qat_config weight_qat_config)
  = is_none (linear_error env in_dim out_dim false)
    && negb (Qc_ltb 1 dropout)
    && is_none (adapter_error env in_dim out_dim rank)
    && torchao_qat env
    && group_size_accepts in_dim weight_qat_config.
Proof.
  rewrite qat_init_spec.
  destruct (linear_error _ _ _ _); cbn [is_none negb andb is_ok]; auto.
  destruct (Qc_ltb 1 dropout); cbn [negb andb is_ok]; auto.
  destruct (adapter_error _ _ _ _); cbn [is_none negb andb is_ok]; auto.
  destruct (torchao_qat env); cbn [negb andb is_ok]; auto.
  unfold group_size_accepts, group_size.
  destruct weight_qat_config as [config|]; [|reflexivity].
  destruct (granularity config) as [| axis | g]; try reflexivity.
  cbn [bind].
  destruct (g =? 0)%Z; [reflexivity|].
  destruct (in_dim mod g =? 0)%Z; reflexivity.
Qed.

(** X18.  A source whose three tensors are all on the meta device gives
    exactly the freshly constructed variant. *)
Theorem from_lora_linear_meta_source_is_fresh
        (env : Env) (lora_linear : PiSSALinear.t)
        (activation_qat_config weight_qat_config : option FakeQuantizeConfig) :
  is_meta (PiSSALinear.weight lora_linear) = true ->
  is_meta (nn.weight (PiSSALinear.pissa_u lora_linear)) = true ->
  is_meta (nn.weight (PiSSALinear.pissa_v lora_linear)) = true ->
  QATPiSSALinear.from_lora_linear env lora_linear
                                  activation_qat_config weight_qat_config
  = QATPiSSALinear.__init__ env
      (PiSSALinear.in_dim lora_linear) (PiSSALinear.out_dim lora_linear)
      (PiSSALinear.rank lora_linear) (PiSSALinear.alpha lora_linear)
      (dropout_p (PiSSALinear.dropout lora_linear))
      activation_qat_config weight_qat_config.
Proof.
  intros Hw Hu Hv. rewrite from_lora_linear_spec, Hw, Hu, Hv.
  fold (dropout_p (PiSSALinear.dropout lora_linear)).
  destruct (QATPiSSALinear.__init__ _ _ _ _ _ _ _ _) as [[s a w]|e];
    [|reflexivity].
  cbn. destruct s as [i o r al ub qb dis wt b dr [uw ub'] ps [vw vb'] mg tr].
  reflexivity.
Qed.

(** X19.  The variant keeps the source's dimensions, rank and scale, and its
    dropout: a source with [nn.Dropout(p)], [p > 0], gives [nn.Dropout(p)],
    any other source gives [nn.Identity()].  It is enabled, in training
    mode, without bias and with a plain base. *)
Theorem from_lora_linear_keeps_configuration
        (env : Env) (lora_linear : PiSSALinear.t)
        (activation_qat_config weight_qat_config : option FakeQuantizeConfig)
        (new_linear : QATPiSSALinear.t) :
  QATPiSSALinear.from_lora_linear env lora_linear
                                  activation_qat_config weight_qat_config
  = Ok new_linear ->
  let new := QATPiSSALinear.super new_linear in
  PiSSALinear.in_dim new = PiSSALinear.in_dim lora_linear
  /\ PiSSALinear.out_dim new = PiSSALinear.out_dim lora_linear
  /\ PiSSALinear.rank new = PiSSALinear.rank lora_linear
  /\ PiSSALinear.alpha new = PiSSALinear.alpha lora_linear
  /\ PiSSALinear.dropout new
     = (if Qc_ltb 0 (dropout_p (PiSSALinear.dropout lora_linear))
        then nn.Dropout (dropout_p (PiSSALinear.dropout lora_linear))
        else nn.Identity)
  /\ PiSSALinear.disabled new = false
  /\ PiSSALinear.training new = true
  /\ PiSSALinear.use_bias new = false
  /\ PiSSALinear.bias new = None
  /\ PiSSALinear._quantize_base new = false.
Proof.
  rewrite from_lora_linear_spec. fold (dropout_p (PiSSALinear.dropout lora_linear)).
  rewrite qat_init_spec.
  destruct (linear_error _ _ _ _); [discriminate|].
  destruct (Qc_ltb 1 _); [discriminate|].
  destruct (adapter_error _ _ _ _); [discriminate|].
  destruct (negb (torchao_qat env)); [discriminate|].
  destruct (match weight_qat_config with Some _ => _ | None => _ end);
    cbn [bind]; [|discriminate].
  intros H; inversion H; subst; clear H. cbn. repeat split.
Qed.

(** X20.  Built from a materialised source without fake-quantisation
    configs, on a real default device, the variant computes the source's
    weight applied to the input and nothing else: the source's [pissa_s]
    (and bias) do not reach the output. *)
Theorem from_lora_linear_forward_is_source_weight
        (env : Env) (lora_linear : PiSSALinear.t) (i o r : nat)
        (W U : mat) (s : vec) (V : mat) (new_linear : QATPiSSALinear.t) :
  materialised lora_linear i o r W U s V ->
  PiSSALinear.rank lora_linear = Z.of_nat r ->
  r <> 0%nat ->
  default_device env <> meta ->
  QATPiSSALinear.from_lora_linear env lora_linear None None = Ok new_linear ->
  forall (keep : nat -> bool) (x : vec),
    QATPiSSALinear.forward new_linear keep x = F_linear x W None.
Proof.
  intros Hm Hrank Hr Hdev. rewrite from_lora_linear_spec, qat_init_spec.
  destruct (linear_error _ _ _ _); [discriminate|].
  destruct (Qc_ltb 1 _); [discriminate|].
  destruct (adapter_error _ _ _ _); [discriminate|].
  destruct (negb (torchao_qat env)); [discriminate|].
  cbn [bind].
  pose proof Hm as [[dtw Hw] [dtu Hu] [dts Hs] [dtv Hv] Hbias
                    [HWr HWc] [HUr HUc] Hsl [HVr HVc]].
  rewrite Hw, Hu, Hv. cbn.
  intros H; inversion H; subst; clear H. intros keep x.
  rewrite qat_forward_identity by reflexivity.
  cbn [QATPiSSALinear.super].
  set (new := PiSSALinear.mk _ _ _ _ _ _ _ _ _ _ _ _ _ _ _).
  assert (Hnew : materialised new (ncols W) (nrows W) (nrows U) W U
                              (zeros (nrows U)) V).
  { subst new. constructor; cbn; try (eexists; reflexivity); auto; try congruence.
    - rewrite Hrank, Nat2Z.id. unfold fresh_zeros.
      destruct (default_device env); try contradiction; eexists; reflexivity.
    - apply length_zeros. }
  rewrite (forward_zero_s new _ _ _ W U V Hnew).
  - subst new. cbn. unfold PiSSALinear.base_transform. reflexivity.
  - subst new. cbn. rewrite Hrank. lia.
Qed.

End VariantProperties.

Section VariantColdStart.
Context {backend : Backend}.

(** The fake quantizers return a tensor of the shape they were given. *)
Hypothesis fake_quantize_shape :
  forall config x x', fake_quantize config x = Ok x' -> length x' = length x.
Hypothesis fake_quantize_weight_shape :
  forall config w w',
    fake_quantize_weight config w = Ok w' ->
    nrows w' = nrows w /\ ncols w' = ncols w.

(** X16.  Right after construction of the variant, whatever the configs, the
    adapter adds nothing: [forward] returns the fake-quantised base
    transform. *)
Theorem qat_forward_after_construction_is_base_transform
        (env : Env) (in_dim out_dim rank : Z) (alpha dropout : Qc)
        (activation_qat_config weight_qat_config : option FakeQuantizeConfig)
        (self : QATPiSSALinear.t) :
  QATPiSSALinear.__init__ env in_dim out_dim rank alpha dropout
                          activation_qat_config weight_qat_config
  = Ok self ->
  rank <> 0%Z ->
  forall (keep : nat -> bool) (x : vec),
    QATPiSSALinear.forward self keep x
    = QATPiSSALinear.base_transform
        (QATPiSSALinear.activation_fake_quantizer self)
        (QATPiSSALinear.weight_fake_quantizer self)
        (PiSSALinear.weight (QATPiSSALinear.super self)) x.
Proof.
  rewrite qat_init_spec.
  destruct (linear_error _ _ _ _); [discriminate|].
  destruct (Qc_ltb 1 _); [discriminate|].
  destruct (adapter_error _ _ _ _); [discriminate|].
  destruct (negb (torchao_qat env)); [discriminate|].
  destruct (match weight_qat_config with Some _ => _ | None => _ end) as [wq|e];
    cbn [bind]; [|discriminate].
  intros H Hr keep x; inversion H; subst; clear H.
  rewrite qat_forward_unfold.
  cbn [QATPiSSALinear.activation_fake_quantizer QATPiSSALinear.weight_fake_quantizer
       QATPiSSALinear.super PiSSALinear.weight PiSSALinear.disabled].
  set (aq := match activation_qat_config with Some _ => _ | None => _ end).
  destruct (QATPiSSALinear.base_transform aq wq _ x) as [out|e] eqn:Hb;
    cbn [bind]; [|reflexivity].
  (* the base transform succeeded: the device is real and the shapes fit *)
  revert Hb. unfold QATPiSSALinear.base_transform, fresh_matrix.
  destruct (QATPiSSALinear.quantize_activation aq x) as [_x|e] eqn:Hax;
    cbn [bind]; [|discriminate].
  destruct (default_device env) eqn:Hdev; cbn [values_of bind]; try discriminate.
  all: destruct (QATPiSSALinear.quantize_weight wq _) as [w'|e] eqn:Hwq;
    cbn [bind]; [|discriminate].
  all: intros HF; apply F_linear_ok_shape in HF; destruct HF as [Hx Hout].
  all: assert (Hlenx : length _x = length x)
    by (destruct aq; cbn in Hax;
        [ now apply fake_quantize_shape in Hax
        | now inversion Hax ]).
  all: assert (Hshape : nrows w' = Z.to_nat out_dim /\ ncols w' = Z.to_nat in_dim)
    by (destruct wq; cbn in Hwq;
        [ apply fake_quantize_weight_shape in Hwq;
          rewrite nrows_tabulate in Hwq; exact Hwq
        | inversion Hwq; subst; rewrite nrows_tabulate; auto ]).
  all: destruct Hshape as [Hs1 Hs2].
  all: apply (adapter_zero_s _ (Z.to_nat in_dim) (Z.to_nat out_dim) (Z.to_nat rank)
                (tabulate (Z.to_nat out_dim) (Z.to_nat in_dim) (uniform_ env 0))
                (tabulate (Z.to_nat rank) (Z.to_nat in_dim) (uniform_ env 4))
                (tabulate (Z.to_nat out_dim) (Z.to_nat rank) (uniform_ env 5)));
    try congruence; try exact Hr.
  all: constructor; cbn; unfold fresh_matrix, fresh_zeros; rewrite ?Hdev;
    try (eexists; reflexivity); rewrite ?nrows_tabulate, ?length_zeros; auto.
  all: now rewrite length_map, length_seq.
Qed.

End VariantColdStart.

(** ** [to_empty], [initialize_parameters] and the dropout mask *)

Section Lifecycle.
Context {backend : Backend}.

(** X13.  [to_empty] re-allocates the adapter only.  A layer whose [weight] is
    on the meta device still has it there afterwards, so that
    [initialize_pissa] keeps raising its guard's error, whatever device the
    adapter was moved to. *)
Theorem to_empty_leaves_weight_on_meta
        (garbage : nat -> nat -> nat -> Qc) (device : option device) (recurse : bool)
        (fsvd_niter : pyvalue) (self : PiSSALinear.t) :
  is_meta (PiSSALinear.weight self) = true ->
  let self' := PiSSALinear.to_empty garbage device recurse self in
  PiSSALinear.weight self' = PiSSALinear.weight self
  /\ PiSSALinear.bias self' = PiSSALinear.bias self
  /\ PiSSALinear.initialize_pissa fsvd_niter self'
     = (Raise (RuntimeError msg_meta_device), self').
Proof.
  intros Hw self'. split; [reflexivity|]. split; [reflexivity|].
  unfold PiSSALinear.initialize_pissa, bindM, get, throw, any_bool.
  cbn [existsb].
  change (PiSSALinear.weight self') with (PiSSALinear.weight self).
  rewrite Hw. reflexivity.
Qed.

(** X14.  After construction (on any default device), [to_empty] onto a real
    device leaves the three adapter tensors with storage, in their shapes
    [rank x in_dim], [rank] and [out_dim x rank]; what they hold is what
    the allocator returned, so [pissa_s] is no longer known to be zero. *)
Theorem to_empty_after_construction
        (env : Env) (in_dim out_dim rank : Z) (alpha dropout : Qc)
        (use_bias quantize_base : bool) (quantization_kwargs : kwargs)
        (self : PiSSALinear.t)
        (garbage : nat -> nat -> nat -> Qc) (target : device) (recurse : bool) :
  PiSSALinear.__init__ env in_dim out_dim rank alpha dropout
                       use_bias quantize_base quantization_kwargs
  = Ok self ->
  target <> meta ->
  let self' := PiSSALinear.to_empty garbage (Some target) recurse self in
  PiSSALinear.pissa_u self'
  = nn.mkLinear (RealTensor (default_dtype env)
                            (tabulate (Z.to_nat rank) (Z.to_nat in_dim) (garbage 0%nat)))
                None
  /\ PiSSALinear.pissa_s self'
     = RealTensor (default_dtype env)
                  (tabulate_vec (Z.to_nat rank) (garbage 1%nat 0%nat))
  /\ PiSSALinear.pissa_v self'
     = nn.mkLinear (RealTensor (default_dtype env)
                               (tabulate (Z.to_nat out_dim) (Z.to_nat rank) (garbage 2%nat)))
                   None
  /\ PiSSALinear.weight self' = PiSSALinear.weight self
  /\ PiSSALinear.bias self' = PiSSALinear.bias self.
Proof.
  rewrite init_spec.
  destruct (negb quantize_base && any (values quantization_kwargs));
    [discriminate|].
  destruct (linear_error _ _ _ _); [discriminate|].
  destruct (if quantize_base then _ else _) as [weight|e]; cbn [bind]; [|discriminate].
  destruct (Qc_ltb 1 dropout); [discriminate|].
  destruct (adapter_error _ _ _ _); [discriminate|].
  intros H Ht; inversion H; subst; clear H.
  unfold PiSSALinear.to_empty, nn.Linear_to_empty, empty_like, empty_like_vec,
    lands_on_meta, fresh_matrix, fresh_zeros.
  cbn [PiSSALinear.pissa_u PiSSALinear.pissa_s PiSSALinear.pissa_v
       PiSSALinear.set_pissa_u PiSSALinear.set_pissa_s PiSSALinear.set_pissa_v
       PiSSALinear.weight PiSSALinear.bias nn.weight nn.bias option_map].
  destruct target; try contradiction;
    destruct (default_device env); cbn;
    rewrite ?length_map, ?length_seq, ?length_zeros; repeat split.
  all: now rewrite ?length_map, ?length_seq, ?repeat_length.
Qed.

(** X12.  [initialize_parameters] sets [pissa_s] back to zero: on a
    materialised layer of non-zero rank, whatever [pissa_s] held,
    [forward] afterwards is the base transform of the stored weight. *)
Theorem initialize_parameters_silences_adapter
        (env : Env) (self : PiSSALinear.t) (i o r : nat)
        (W U : mat) (s : vec) (V : mat) :
  materialised self i o r W U s V ->
  PiSSALinear.rank self <> 0%Z ->
  forall (keep : nat -> bool) (x : vec),
    PiSSALinear.forward (PiSSALinear.initialize_parameters env self) keep x
    = PiSSALinear.base_transform (PiSSALinear._quantize_base self)
        (PiSSALinear.use_bias self) (PiSSALinear.weight self)
        (PiSSALinear.bias self) x.
Proof.
  intros Hm Hr keep x.
  destruct Hm as [[dtw Hw] [dtu Hu] [dts Hs] [dtv Hv] Hbias
                  [HWr HWc] [HUr HUc] Hsl [HVr HVc]].
  etransitivity;
    [ apply (forward_zero_s _ i o r W
               (tabulate (nrows U) (ncols U) (uniform_ env 4))
               (tabulate (nrows V) (ncols V) (uniform_ env 5)))
    | reflexivity ].
  - unfold PiSSALinear.initialize_parameters, PiSSALinear._pissa_u_init_params,
      PiSSALinear._pissa_s_init_params, PiSSALinear._pissa_v_init_params.
    constructor; cbn; rewrite ?Hu, ?Hs, ?Hv, ?Hw; cbn;
      try (eexists; reflexivity); rewrite ?nrows_tabulate, ?length_zeros; auto.
    + eexists. rewrite Hsl. reflexivity.
    + rewrite length_map, length_seq. auto.
    + rewrite length_map, length_seq. auto.
  - exact Hr.
Qed.

(** X4.  A layer constructed with a dropout probability that is not
    positive has no dropout module, and its [forward] does not depend on
    the mask, in training mode too. *)
Theorem forward_without_dropout_ignores_mask
        (env : Env) (in_dim out_dim rank : Z) (alpha dropout : Qc)
        (use_bias quantize_base : bool) (quantization_kwargs : kwargs)
        (self : PiSSALinear.t) :
  PiSSALinear.__init__ env in_dim out_dim rank alpha dropout
                       use_bias quantize_base quantization_kwargs
  = Ok self ->
  Qc_ltb 0 dropout = false ->
  PiSSALinear.dropout self = nn.Identity
  /\ forall (keep keep' : nat -> bool) (x : vec),
      PiSSALinear.forward self keep x = PiSSALinear.forward self keep' x.
Proof.
  intros Hinit Hd.
  assert (Hid : PiSSALinear.dropout self = nn.Identity).
  { revert Hinit. rewrite init_spec.
    destruct (negb quantize_base && any (values quantization_kwargs));
      [discriminate|].
    destruct (linear_error _ _ _ _); [discriminate|].
    destruct (if quantize_base then _ else _); cbn [bind]; [|discriminate].
    destruct (Qc_ltb 1 dropout); [discriminate|].
    destruct (adapter_error _ _ _ _); [discriminate|].
    intros H; inversion H; subst. cbn. now rewrite Hd. }
  split; [exact Hid|]. intros keep keep' x.
  rewrite !forward_unfold, Hid. reflexivity.
Qed.

End Lifecycle.

(** ** The further properties at concrete layers *)

Lemma loaded_2x2_materialised :
  materialised loaded_2x2 2 2 2 W31
               (tabulate 2 2 (uniform_ cpu_env 4)) (zeros 2)
               (tabulate 2 2 (uniform_ cpu_env 5)).
Proof.
  constructor; try (eexists; reflexivity); try (split; reflexivity); reflexivity.
Qed.

Lemma decomposed_2x2_materialised :
  materialised decomposed_2x2 2 2 2
               (mkMat 2 [[Q2Qc (3 # 2); 0]; [0; Q2Qc (1 # 2)]])
               (identity_mat 2) [Q2Qc (3 # 2); Q2Qc (1 # 2)] (identity_mat 2).
Proof.
  constructor; try (eexists; reflexivity); try (split; reflexivity); reflexivity.
Qed.

Lemma exact_backend_casts_exactly (dt : dtype) (q : Qc) :
  cast (Backend := exact_backend) dt q = q.
Proof. reflexivity. Qed.

Lemma exact_backend_quantizers_keep_shape :
  (forall config x x',
      fake_quantize (Backend := exact_backend) config x = Ok x' ->
      length x' = length x)
  /\ (forall config w w',
         fake_quantize_weight (Backend := exact_backend) config w = Ok w' ->
         nrows w' = nrows w /\ ncols w' = ncols w).
Proof.
  split.
  - intros config x x' H. inversion H. reflexivity.
  - intros config w w' H. inversion H. split; reflexivity.
Qed.

(** X1 on [PiSSALinear(2, 3, rank=1, alpha=4, dropout=0.5, use_bias=True)]. *)
Lemma init_establishes_shapes_witness :
  layer_bias = Ok (get_ok blank layer_bias)
  /\ exists W U V,
      materialised (get_ok blank layer_bias) 2 3 1 W U (zeros 1) V
      /\ well_formed W = true /\ well_formed U = true /\ well_formed V = true.
Proof.
  split; [reflexivity|].
  apply (@init_establishes_shapes exact_backend cpu_env 2 3 1 (Qz 4) (Q2Qc (1 # 2))
           true false [] (get_ok blank layer_bias)).
  - reflexivity.
  - discriminate.
Defined.

(** X2 on the decomposed 2 x 2 layer. *)
Lemma forward_shape_contract_witness :
  (exists y, PiSSALinear.forward decomposed_2x2 (fun _ => true) [1; 1] = Ok y
             /\ length y = 2%nat)
  /\ PiSSALinear.forward decomposed_2x2 (fun _ => true) [1; 1; 1]
     = Raise (RuntimeError msg_shape).
Proof.
  destruct (forward_shape_contract decomposed_2x2 2 2 2 _ _ _ _ (fun _ => true) [1; 1]
              decomposed_2x2_materialised ltac:(discriminate)) as [Hok _].
  destruct (forward_shape_contract decomposed_2x2 2 2 2 _ _ _ _ (fun _ => true) [1; 1; 1]
              decomposed_2x2_materialised ltac:(discriminate)) as [_ Hbad].
  split.
  - apply Hok. reflexivity.
  - apply Hbad. discriminate.
Defined.

(** X4 on [PiSSALinear(2, 2, rank=2, alpha=4)], built without dropout. *)
Lemma forward_without_dropout_witness :
  layer_2x2 = Ok (get_ok blank layer_2x2)
  /\ PiSSALinear.training (get_ok blank layer_2x2) = true
  /\ forall (keep keep' : nat -> bool) (x : vec),
      PiSSALinear.forward (get_ok blank layer_2x2) keep x
      = PiSSALinear.forward (get_ok blank layer_2x2) keep' x.
Proof.
  split; [reflexivity|]. split; [reflexivity|].
  apply (@forward_without_dropout_ignores_mask exact_backend cpu_env 2 2 2 (Qz 4) 0
           false false [] (get_ok blank layer_2x2)); reflexivity.
Defined.

(** X6 on the loaded 2 x 2 layer with [fsvd_niter = -1]. *)
Lemma initialize_pissa_bad_fsvd_niter_witness :
  PiSSALinear.initialize_pissa (backend := exact_backend) (PyInt (-1)) loaded_2x2
  = (Raise (RuntimeError msg_fsvd_niter), loaded_2x2).
Proof.
  apply (@initialize_pissa_rejects_bad_fsvd_niter exact_backend (PyInt (-1)) loaded_2x2);
    reflexivity.
Defined.

(** X7 on the layer of rank zero. *)
Lemma initialize_pissa_rank_zero_witness :
  PiSSALinear.rank layer_rank0 = 0%Z
  /\ PiSSALinear.initialize_pissa (backend := exact_backend) PyNone layer_rank0
     = (Raise (ZeroDivisionError msg_division_by_zero), layer_rank0).
Proof.
  split; [reflexivity|].
  eapply (@initialize_pissa_rank_zero_raises exact_backend layer_rank0 float32
            (tabulate 1 1 (uniform_ cpu_env 0)));
    reflexivity.
Defined.

(** X8 on the loaded 2 x 2 layer: the layer after the call keeps the shapes
    2 x 2, 2 x 2, 2 and 2 x 2. *)
Lemma initialize_pissa_keeps_shape_invariant_witness :
  exists self' residual,
    PiSSALinear.initialize_pissa (backend := exact_backend) PyNone loaded_2x2
    = (Ok tt, self')
    /\ materialised self' 2 2 2 residual (identity_mat 2)
                    [Q2Qc (3 # 2); Q2Qc (1 # 2)] (identity_mat 2)
    /\ well_formed residual = true.
Proof.
  destruct (@initialize_pissa_keeps_shape_invariant exact_backend
              exact_backend_casts_exactly loaded_2x2 2 2 2 W31 _ _ _
              loaded_2x2_materialised eq_refl eq_refl PyNone
              (identity_mat 2) [Q2Qc (3 # 2); Q2Qc (1 # 2)] (identity_mat 2)
              eq_refl (conj eq_refl (conj eq_refl eq_refl)) eq_refl
              (conj eq_refl (conj eq_refl eq_refl)))
    as [self' H].
  exists self'. eexists. exact H.
Defined.

(** The exact-SVD path on the loaded 2 x 2 layer: all its assumptions hold
    there, and the output is [[3, 1] + (1 - 1/2) [3, 1]]. *)
Lemma exact_svd_full_rank_2x2 :
  PiSSALinear.scaling loaded_2x2 = Ok (Qz 4 / Qz 2)
  /\ exists self',
      PiSSALinear.initialize_pissa (backend := exact_backend) PyNone loaded_2x2
      = (Ok tt, self')
      /\ PiSSALinear.forward self' (fun _ => true) x11
         = Ok (map2 Qcplus [Qz 3; 1] (scale (1 - / (Qz 4 / Qz 2)) [Qz 3; 1])).
Proof.
  split; [reflexivity|].
  apply (@exact_svd_full_rank_then_forward exact_backend exact_backend_casts_exactly
           loaded_2x2 2 2 2 W31 _ _ _ loaded_2x2_materialised eq_refl eq_refl eq_refl
           2%nat (identity_mat 2) [Qz 3; 1] (identity_mat 2) eq_refl
           (conj eq_refl (conj eq_refl eq_refl)) eq_refl
           (conj eq_refl (conj eq_refl eq_refl)) (le_n 2)
           (Qz 4 / Qz 2) eq_refl ltac:(discriminate)
           (fun _ => true) x11 [Qz 3; 1]);
    reflexivity.
Qed.

(** X12 on the decomposed 2 x 2 layer: after [initialize_parameters] the
    output is that of the residual alone. *)
Lemma initialize_parameters_silences_adapter_witness :
  PiSSALinear.pissa_s decomposed_2x2
  = RealTensor float32 [Q2Qc (3 # 2); Q2Qc (1 # 2)]
  /\ forall (keep : nat -> bool) (x : vec),
      PiSSALinear.forward (PiSSALinear.initialize_parameters cpu_env decomposed_2x2)
                          keep x
      = PiSSALinear.base_transform false false
          (PiSSALinear.weight decomposed_2x2) None x.
Proof.
  split; [reflexivity|].
  apply (@initialize_parameters_silences_adapter cpu_env decomposed_2x2
           2 2 2 _ _ _ _ decomposed_2x2_materialised).
  discriminate.
Defined.

(** X13 on the layer built on the meta device, moved with
    [to_empty(device="cpu")]. *)
Lemma to_empty_leaves_weight_on_meta_witness :
  let self' := PiSSALinear.to_empty (fun _ _ _ => 1) (Some cpu) true
                                    (get_ok blank layer_meta) in
  is_meta (PiSSALinear.pissa_s self') = false
  /\ is_meta (PiSSALinear.weight self') = true
  /\ PiSSALinear.initialize_pissa (backend := exact_backend) PyNone self'
     = (Raise (RuntimeError msg_meta_device), self').
Proof.
  intros self'. split; [reflexivity|]. split; [reflexivity|].
  apply (@to_empty_leaves_weight_on_meta exact_backend (fun _ _ _ => 1) (Some cpu) true
           PyNone (get_ok blank layer_meta)).
  reflexivity.
Defined.

(** X14 on the layer built on the meta device. *)
Lemma to_empty_after_construction_witness :
  let self' := PiSSALinear.to_empty (fun _ _ _ => 1) (Some cpu) true
                                    (get_ok blank layer_meta) in
  PiSSALinear.pissa_s self' = RealTensor float32 [1]
  /\ PiSSALinear.pissa_u self'
     = nn.mkLinear (RealTensor float32 (mkMat 2 [[1; 1]])) None
  /\ PiSSALinear.weight self' = MetaTensor float32 [3%nat; 2%nat].
Proof.
  intros self'.
  destruct (@to_empty_after_construction exact_backend meta_env 2 3 1 (Qz 4) 0
              false false [] (get_ok blank layer_meta) (fun _ _ _ => 1) cpu true
              eq_refl ltac:(discriminate)) as (Hu & Hs & _ & Hw & _).
  split; [exact Hs|]. split; [exact Hu|]. reflexivity.
Defined.

(** X16 on [QATPiSSALinear(8, 2, rank=1, alpha=16)] with an int8 activation
    config and a weight config of group size 4. *)
Lemma qat_forward_after_construction_witness :
  exists self,
    QATPiSSALinear.__init__ (backend := exact_backend) cpu_env 8 2 1 (Qz 16) 0
      (Some config_per_token)
      (Some (config_group 4))
    = Ok self
    /\ forall (keep : nat -> bool) (x : vec),
        QATPiSSALinear.forward (backend := exact_backend) self keep x
        = QATPiSSALinear.base_transform (backend := exact_backend)
            (QATPiSSALinear.activation_fake_quantizer self)
            (QATPiSSALinear.weight_fake_quantizer self)
            (PiSSALinear.weight (QATPiSSALinear.super self)) x.
Proof.
  eexists. split; [reflexivity|].
  apply (@qat_forward_after_construction_is_base_transform exact_backend
           (proj1 exact_backend_quantizers_keep_shape)
           (proj2 exact_backend_quantizers_keep_shape)
           cpu_env 8 2 1 (Qz 16) 0
           (Some config_per_token)
           (Some (config_group 4))).
  - reflexivity.
  - discriminate.
Defined.

(** X17 on the decomposed 2 x 2 layer and the same layer with a bias flag,
    a quantisation flag and another [pissa_s]. *)
Lemma from_lora_linear_ignores_witness :
  let other :=
    PiSSALinear.mk 2 2 2 (Qz 4) true true true
                   (PiSSALinear.weight decomposed_2x2)
                   (Some (RealTensor float32 [1; 1])) nn.Identity
                   (PiSSALinear.pissa_u decomposed_2x2)
                   (RealTensor float32 [Qz 7; Qz 7])
                   (PiSSALinear.pissa_v decomposed_2x2) false false in
  QATPiSSALinear.from_lora_linear (backend := exact_backend) cpu_env
                                  decomposed_2x2 None None
  = QATPiSSALinear.from_lora_linear (backend := exact_backend) cpu_env other None None.
Proof.
  intros other.
  apply (@from_lora_linear_ignores exact_backend cpu_env decomposed_2x2 other None None);
    reflexivity.
Defined.

(** X18 on the layer built on the meta device. *)
Lemma from_lora_linear_meta_source_witness :
  QATPiSSALinear.from_lora_linear (backend := exact_backend) cpu_env
                                  (get_ok blank layer_meta) None None
  = QATPiSSALinear.__init__ (backend := exact_backend) cpu_env 2 3 1 (Qz 4) 0 None None.
Proof.
  apply (@from_lora_linear_meta_source_is_fresh exact_backend cpu_env
           (get_ok blank layer_meta) None None);
    reflexivity.
Defined.

(** X19 on [PiSSALinear(2, 3, rank=1, alpha=4, dropout=0.5, use_bias=True)]. *)
Lemma from_lora_linear_keeps_configuration_witness :
  exists new_linear,
    QATPiSSALinear.from_lora_linear (backend := exact_backend) cpu_env
                                    (get_ok blank layer_bias) None None
    = Ok new_linear
    /\ PiSSALinear.dropout (QATPiSSALinear.super new_linear)
       = nn.Dropout (Q2Qc (1 # 2))
    /\ PiSSALinear.rank (QATPiSSALinear.super new_linear) = 1%Z
    /\ PiSSALinear.bias (QATPiSSALinear.super new_linear) = None.
Proof.
  eexists. split; [reflexivity|].
  destruct (@from_lora_linear_keeps_configuration exact_backend cpu_env
              (get_ok blank layer_bias) None None _ eq_refl)
    as (_ & _ & Hr & _ & Hd & _ & _ & _ & Hb & _).
  split; [exact Hd|]. split; [exact Hr|exact Hb].
Defined.

(** X20 on the decomposed 2 x 2 layer: the variant maps [x] to the residual
    applied to [x]. *)
Lemma from_lora_linear_forward_witness :
  exists new_linear,
    QATPiSSALinear.from_lora_linear (backend := exact_backend) cpu_env
                                    decomposed_2x2 None None
    = Ok new_linear
    /\ forall (keep : nat -> bool) (x : vec),
        QATPiSSALinear.forward (backend := exact_backend) new_linear keep x
        = F_linear x (mkMat 2 [[Q2Qc (3 # 2); 0]; [0; Q2Qc (1 # 2)]]) None.
Proof.
  eexists. split; [reflexivity|].
  apply (@from_lora_linear_forward_is_source_weight exact_backend cpu_env
           decomposed_2x2 2 2 2 _ _ _ _ _ decomposed_2x2_materialised).
  - reflexivity.
  - discriminate.
  - discriminate.
  - reflexivity.
Defined.
